(** * lightwork: middleware composition and the request lifecycle

    A shallow embedding of the Go package [lightwork] (handler groups,
    middleware chains, the per-request context with its response tracker,
    and the request logger facade), followed by the properties of the
    package's prose specification that are settled against it.

    Conventions of the embedding.
    - A Go method with a pointer receiver becomes a function that takes the
      state of the receiver and returns the new state next to its results.
    - A Go interface becomes a type class over the state of the
      implementation; a collaborator that lives outside the package (the
      response writer handed in by [net/http], the logger sink, a
      [ReadSeeker], [fmt.Sprintf], [io.Copy]) is taken through such a class,
      so every theorem holds for every implementation.
    - Go's [int] and [int64] are [Z] with the 64-bit wrap-around written
      out; a Go [string] is a [string] (a sequence of bytes), a [[]byte] a
      [list byte].
    - The registration side (handler groups and their slices of middleware)
      runs over an explicit store of backing arrays, so that the sharing
      between slices is a property of the model rather than an assumption. *)

From Stdlib Require Import ZArith Lia Ascii String DecimalString.
From stdpp Require Import base option list strings gmap fin_maps.

Local Open Scope Z_scope.
Local Open Scope string_scope.
Local Open Scope list_scope.

(** ** Go preliminaries *)

Module Go.

(** Two's-complement wrap-around of a 64-bit signed integer. *)
Definition wrap64 (z : Z) : Z := (z + 2 ^ 63) mod 2 ^ 64 - 2 ^ 63.

Definition in_int64 (z : Z) : Prop := - 2 ^ 63 <= z < 2 ^ 63.

(** [strconv.Itoa] and [strconv.FormatInt(_, 10)]: the decimal rendering. *)
Definition Itoa (z : Z) : string := NilZero.string_of_int (Z.to_int z).

(** The [error] values the package builds or passes on: [errorString] is
    what [errors.New] and a [fmt.Errorf] without [%w] give, [wrapError] what
    [fmt.Errorf] gives for a format with one [%w]. *)
Inductive error : Type :=
| errorString (s : string)
| wrapError (msg : string) (err : error).

Definition Error (e : error) : string :=
  match e with
  | errorString s => s
  | wrapError msg _ => msg
  end.

Definition Unwrap (e : error) : option error :=
  match e with
  | errorString _ => None
  | wrapError _ err => Some err
  end.

(** [fmt.Errorf(prefix + "%w", err)]. *)
Definition Errorf_w (prefix : string) (err : error) : error :=
  wrapError (prefix +:+ Error err) err.

(** Operands of a formatting call ([...interface{}]). *)
Inductive Value : Type :=
| VString (s : string)
| VInt (z : Z)
| VError (e : error).

Fixpoint no_verb (s : string) : bool :=
  match s with
  | EmptyString => true
  | String c r => negb (Ascii.eqb c "%"%char) && no_verb r
  end.

(** [fmt.Sprintf], with the two facts about it that the package relies on:
    a template without verbs and without operands is rendered as itself,
    and a trailing [%v] applied to an error renders the error's message. *)
Class Fmt := {
  Sprintf : string -> list Value -> string;
  Sprintf_literal : forall s, no_verb s = true -> Sprintf s [] = s;
  Sprintf_v_error : forall prefix e,
    no_verb prefix = true ->
    Sprintf (prefix +:+ "%v") [VError e] = prefix +:+ Error e
}.

(** A reference formatter for the fragment made of literal text, [%%] and
    [%v] with an operand at hand. What it returns elsewhere (another verb,
    a missing or a spare operand) is not meant to follow [fmt]. *)
Definition render (v : Value) : string :=
  match v with
  | VString s => s
  | VInt z => Itoa z
  | VError e => Error e
  end.

Fixpoint sprintf_v (format : string) (values : list Value) : string :=
  match format with
  | String "%"%char (String "%"%char r) => String "%"%char (sprintf_v r values)
  | String "%"%char (String "v"%char r as r0) =>
      match values with
      | v :: vs => render v +:+ sprintf_v r vs
      | [] => String "%"%char (sprintf_v r0 [])
      end
  | String c r => String c (sprintf_v r values)
  | EmptyString => EmptyString
  end.

End Go.

(** ** The logger sink and the [RequestLogger] facade *)

Module RequestLoggerBase.

(** The interface [RequestLoggerBase]: an implementation is a state [S]
    with the six methods. *)
Class t (S : Type) := {
  Info : string -> S -> S;
  Warning : string -> S -> S;
  Error : string -> S -> S;
  WTF : string -> S -> S;
  FormatLog : string -> list Go.Value -> S -> string * S;
  WriteLogs : S -> S
}.

(** What a sink can be asked to do. *)
Inductive call : Type :=
| CInfo (msg : string)
| CWarning (msg : string)
| CError (msg : string)
| CWTF (msg : string)
| CFormatLog (format : string) (values : list Go.Value)
| CWriteLogs.

(** Performing a sequence of calls on a sink, oldest first. *)
Definition perform {S : Type} `{!t S} (k : call) (s : S) : S :=
  match k with
  | CInfo msg => Info msg s
  | CWarning msg => Warning msg s
  | CError msg => Error msg s
  | CWTF msg => WTF msg s
  | CFormatLog format values => snd (FormatLog format values s)
  | CWriteLogs => WriteLogs s
  end.

Definition play {S : Type} `{!t S} (ks : list call) (s : S) : S :=
  fold_left (fun acc k => perform k acc) ks s.

(** A sink that only records the calls it receives, and formats with the
    function it is given. *)
Definition recorder (formatter : string -> list Go.Value -> string)
  : t (list call) :=
  {| Info msg s := s ++ [CInfo msg];
     Warning msg s := s ++ [CWarning msg];
     Error msg s := s ++ [CError msg];
     WTF msg s := s ++ [CWTF msg];
     FormatLog format values s :=
       (formatter format values, s ++ [CFormatLog format values]);
     WriteLogs s := s ++ [CWriteLogs] |}.

Definition is_CError (k : call) : bool :=
  match k with CError _ => true | _ => false end.
Definition is_CWriteLogs (k : call) : bool :=
  match k with CWriteLogs => true | _ => false end.
Definition is_CFormatLog (k : call) : bool :=
  match k with CFormatLog _ _ => true | _ => false end.
Definition is_CWTF (k : call) : bool :=
  match k with CWTF _ => true | _ => false end.
Definition is_CWTF_with (msg : string) (k : call) : bool :=
  match k with CWTF m => String.eqb m msg | _ => false end.

End RequestLoggerBase.

Module RequestLogger.
Section RequestLogger.
Context {S : Type} `{!RequestLoggerBase.t S} `{!Go.Fmt}.

Record t := { b : S }.

Definition Info (msg : string) (rl : t) : t :=
  {| b := RequestLoggerBase.Info msg (b rl) |}.

Definition Infof (format : string) (values : list Go.Value) (rl : t) : t :=
  Info (Go.Sprintf format values) rl.

Definition Warning (msg : string) (rl : t) : t :=
  {| b := RequestLoggerBase.Warning msg (b rl) |}.

Definition Warningf (format : string) (values : list Go.Value) (rl : t) : t :=
  Warning (Go.Sprintf format values) rl.

Definition Error (msg : string) (rl : t) : t :=
  {| b := RequestLoggerBase.Error msg (b rl) |}.

Definition Errorf (format : string) (values : list Go.Value) (rl : t) : t :=
  Error (Go.Sprintf format values) rl.

(** [make([]byte, 100000)]. *)
Definition stBufLen : nat := Z.to_nat 100000.

(** [runtime.Stack(buf, false)] writes the trace of the calling goroutine
    into [buf], cut to the length of [buf], and returns the count written.
    [goroutine] is the full text of that trace at the call. *)
Definition runtime_Stack (bufLen : nat) (goroutine : string) : nat * string :=
  let n := Nat.min bufLen (String.length goroutine) in
  (n, String.substring 0 n goroutine).

Definition stackTracePrefix : string :=
  "Stack Trace:" +:+ String "010"%char EmptyString.

Definition WTF (goroutine : string) (msg : string) (rl : t) : t :=
  let rl1 := {| b := RequestLoggerBase.WTF msg (b rl) |} in
  let '(n, stBuf) := runtime_Stack stBufLen goroutine in
  {| b := RequestLoggerBase.WTF
            (stackTracePrefix +:+ String.substring 0 n stBuf) (b rl1) |}.

Definition WTFf (goroutine : string) (format : string)
    (values : list Go.Value) (rl : t) : t :=
  WTF goroutine (Go.Sprintf format values) rl.

End RequestLogger.
End RequestLogger.

(** ** The pieces of [net/http], [io] and [httprouter] the package touches *)

Module http.

(** [http.Header] is [map[string][]string]. [Get] and [Set] canonicalise
    the key first; the package only passes ["Content-Type"] and
    ["Content-Length"], which are canonical, so the key is used as given. *)
Abbreviation Header := (gmap string (list string)).

Definition Header_Get (key : string) (h : Header) : string :=
  match h !! key with
  | Some (v :: _) => v
  | _ => ""
  end.

Definition Header_Set (key value : string) (h : Header) : Header :=
  <[key := [value]]> h.

(** [http.Request], as far as the package reads it. *)
Record Request := {
  Method : string;
  URL : string;
  RequestHeader : Header;
  Body : list Byte.byte
}.

Module ResponseWriter.

(** The interface [http.ResponseWriter] over the state [W] of an
    implementation. [Header()] hands out the writer's own header map, a
    reference: [Header] reads that map and [storeHeader] is a write through
    it: what is stored is what is read next, a second store replaces the
    first, and storing what is there changes nothing. [Write] returns the
    count and the error of the implementation. *)
Class t (W : Type) := {
  Header : W -> gmap string (list string);
  storeHeader : gmap string (list string) -> W -> W;
  Write : list Byte.byte -> W -> (Z * option Go.error) * W;
  WriteHeader : Z -> W -> W;
  Header_storeHeader : forall h w, Header (storeHeader h w) = h;
  storeHeader_storeHeader : forall h h' w,
    storeHeader h' (storeHeader h w) = storeHeader h' w;
  storeHeader_Header : forall w, storeHeader (Header w) w = w
}.

End ResponseWriter.

(** A writer that records what reaches it: the header map, the header map
    frozen by each [WriteHeader] with its status, and the body chunks. Its
    [Write] answers from a script, one entry per call; when the script has
    run out the whole chunk is accepted. *)
Inductive sent : Type :=
| SentHeader (statusCode : Z) (snapshot : Header)
| SentBody (chunk : list Byte.byte).

Record Recorder := {
  HeaderMap : Header;
  Sent : list sent;
  Script : list (Z * option Go.error)
}.

Definition Recorder_Write (b : list Byte.byte) (w : Recorder)
  : (Z * option Go.error) * Recorder :=
  match Script w with
  | r :: rest =>
      (r, {| HeaderMap := HeaderMap w; Sent := Sent w ++ [SentBody b];
             Script := rest |})
  | [] =>
      ((Z.of_nat (length b), None),
       {| HeaderMap := HeaderMap w; Sent := Sent w ++ [SentBody b];
          Script := [] |})
  end.

Definition Recorder_WriteHeader (statusCode : Z) (w : Recorder) : Recorder :=
  {| HeaderMap := HeaderMap w;
     Sent := Sent w ++ [SentHeader statusCode (HeaderMap w)];
     Script := Script w |}.

#[global] Instance Recorder_ResponseWriter : ResponseWriter.t Recorder :=
  {| ResponseWriter.Header := HeaderMap;
     ResponseWriter.storeHeader h w :=
       {| HeaderMap := h; Sent := Sent w; Script := Script w |};
     ResponseWriter.Write := Recorder_Write;
     ResponseWriter.WriteHeader := Recorder_WriteHeader;
     ResponseWriter.Header_storeHeader := fun h w => eq_refl;
     ResponseWriter.storeHeader_storeHeader := fun h h' w => eq_refl;
     ResponseWriter.storeHeader_Header :=
       fun w => match w with Build_Recorder _ _ _ => eq_refl end |}.

End http.

Module httprouter.

(** [httprouter.Params] is a slice of key/value pairs. *)
Abbreviation Params := (list (string * string)).

Inductive method : Type :=
| DELETE | GET | HEAD | OPTIONS | PATCH | POST | PUT.

(** [Params.ByName]: the value of the first parameter with that key, the
    empty string when there is none. *)
Fixpoint ByName (name : string) (ps : Params) : string :=
  match ps with
  | [] => ""
  | (key, value) :: rest =>
      if String.eqb key name then value else ByName name rest
  end.

End httprouter.

Module io.

Inductive whence : Type := SeekStart | SeekCurrent | SeekEnd.

(** [io.ReadSeeker] over the state [T] of a stream, together with what
    [io.Copy] does with such a stream as its source: [Copy write src dst]
    drains [src] into a destination whose [Write] method is [write] and
    returns the count and the first error. *)
Class ReadSeeker (T : Type) := {
  Seek : Z -> whence -> T -> (Z * option Go.error) * T;
  Copy : forall {D : Type},
    (list Byte.byte -> D -> (Z * option Go.error) * D) ->
    T -> D -> (Z * option Go.error) * (T * D)
}.

End io.

Module os.

(** [os.Open] on the file system as it stands at the call, and the [Close]
    of the file it returns. *)
Class FileSystem (F : Type) := {
  Open : string -> Go.error + F;
  Close : F -> F
}.

End os.

Module context.
Section context.
Context {K V : Type} `{!EqDecision K}.

(** [context.Context] as far as values go: the background context and the
    contexts made by [context.WithValue], each holding one key and its
    parent. [Value] asks the newest layer first. [K] stands for the keys
    that [WithValue] accepts, the comparable values other than nil; on
    any other key it panics. *)
Inductive t : Type :=
| Background
| WithValue (parent : t) (key : K) (val : V).

Fixpoint Value (ctx : t) (key : K) : option V :=
  match ctx with
  | Background => None
  | WithValue parent k v =>
      if decide (k = key) then Some v else Value parent key
  end.

End context.
Arguments t : clear implicits.
End context.

(** ** context.go *)

Module loggingResponseWriter.
Section loggingResponseWriter.
Context {W : Type} `{!http.ResponseWriter.t W}.

Record t := {
  rw : W;
  statusCode : Z;
  contentLength : Z
}.

Definition Header (lrw : t) : http.Header :=
  http.ResponseWriter.Header (rw lrw).

(** A write through the map that [Header()] returned. *)
Definition storeHeader (h : http.Header) (lrw : t) : t :=
  {| rw := http.ResponseWriter.storeHeader h (rw lrw);
     statusCode := statusCode lrw;
     contentLength := contentLength lrw |}.

Definition Write (b : list Byte.byte) (lrw : t) : (Z * option Go.error) * t :=
  let '((n, err), rw') := http.ResponseWriter.Write b (rw lrw) in
  ((n, err),
   {| rw := rw';
      statusCode := statusCode lrw;
      contentLength := Go.wrap64 (contentLength lrw + n) |}).

Definition WriteHeader (code : Z) (lrw : t) : t :=
  {| rw := http.ResponseWriter.WriteHeader code (rw lrw);
     statusCode := code;
     contentLength := contentLength lrw |}.

(** The three methods as data, to speak about sequences of calls. *)
Inductive call : Type :=
| CHeader
| CWrite (b : list Byte.byte)
| CWriteHeader (code : Z).

Definition perform (k : call) (lrw : t) : t :=
  match k with
  | CHeader => lrw
  | CWrite b => snd (Write b lrw)
  | CWriteHeader code => WriteHeader code lrw
  end.

Definition perform_raw (k : call) (w : W) : W :=
  match k with
  | CHeader => w
  | CWrite b => snd (http.ResponseWriter.Write b w)
  | CWriteHeader code => http.ResponseWriter.WriteHeader code w
  end.

Definition play (ks : list call) (lrw : t) : t :=
  fold_left (fun acc k => perform k acc) ks lrw.

Definition play_raw (ks : list call) (w : W) : W :=
  fold_left (fun acc k => perform_raw k acc) ks w.

(** The argument of the last [WriteHeader] among [ks], if there is one. *)
Fixpoint lastWriteHeader (ks : list call) : option Z :=
  match ks with
  | [] => None
  | k :: rest =>
      match lastWriteHeader rest with
      | Some code => Some code
      | None => match k with CWriteHeader code => Some code | _ => None end
      end
  end.

End loggingResponseWriter.
End loggingResponseWriter.

Section Context.
Context {W S : Type}.

(** The per-request object. [Response_rw] is [c.Response.rw] and
    [Request_req], [Request_params] are [c.Request.req], [c.Request.params];
    the back pointers [c.Response.c], [c.Request.c] are the object itself.
    The embedded [context.Context] and the server pointer play no part in
    what follows and are left out. *)
Record Context := {
  Log : @RequestLogger.t S;
  Response_rw : @loggingResponseWriter.t W;
  Request_req : http.Request;
  Request_params : httprouter.Params;
  escapeHatchUsed : bool
}.

Definition with_Log (f : @RequestLogger.t S -> @RequestLogger.t S)
    (c : Context) : Context :=
  {| Log := f (Log c);
     Response_rw := Response_rw c;
     Request_req := Request_req c;
     Request_params := Request_params c;
     escapeHatchUsed := escapeHatchUsed c |}.

Definition with_Response_rw
    (f : @loggingResponseWriter.t W -> @loggingResponseWriter.t W)
    (c : Context) : Context :=
  {| Log := Log c;
     Response_rw := f (Response_rw c);
     Request_req := Request_req c;
     Request_params := Request_params c;
     escapeHatchUsed := escapeHatchUsed c |}.

(** [type Handler func(c *Context) (err error)]: the handler works on the
    object behind the pointer. *)
Definition Handler : Type := Context -> option Go.error * Context.

Definition EscapeHatch (c : Context)
  : (@loggingResponseWriter.t W * http.Request) * Context :=
  ((Response_rw c, Request_req c),
   {| Log := Log c;
      Response_rw := Response_rw c;
      Request_req := Request_req c;
      Request_params := Request_params c;
      escapeHatchUsed := true |}).

End Context.
Arguments Context : clear implicits.
Arguments Handler : clear implicits.

(** The methods of [ContextResponse]. The receiver holds two pointers, to
    the tracker and back to the context, so each method works on the
    context. [Struct] and [File] hand over to the server's encoder and to
    the file system and are not part of the model. *)
Module ContextResponse.
Section ContextResponse.
Context {W S : Type} `{!http.ResponseWriter.t W} `{!RequestLoggerBase.t S}
  `{!Go.Fmt}.

Abbreviation Ctx := (Context W S).

Definition Header (c : Ctx) : http.Header :=
  loggingResponseWriter.Header (Response_rw c).

(** [cr.Header().Set(key, value)]: the map is the writer's own. *)
Definition Header_Set (key value : string) (c : Ctx) : Ctx :=
  with_Response_rw
    (loggingResponseWriter.storeHeader (http.Header_Set key value (Header c)))
    c.

Definition setHeaderIfNotAlreadySet (key value : string) (c : Ctx) : Ctx :=
  let header := Header c in
  let v := http.Header_Get key header in
  if negb (String.eqb v "") then c
  else
    with_Response_rw
      (loggingResponseWriter.storeHeader (http.Header_Set key value header)) c.

Definition Status (statusCode : Z) (c : Ctx) : option Go.error * Ctx :=
  let c := Header_Set "Content-Length" "0" c in
  let c := with_Response_rw (loggingResponseWriter.WriteHeader statusCode) c in
  (None, c).

Definition Bytes (statusCode : Z) (body : list Byte.byte) (c : Ctx)
  : option Go.error * Ctx :=
  let c := setHeaderIfNotAlreadySet "Content-Type" "application/octet-stream" c in
  let c := Header_Set "Content-Length" (Go.Itoa (Z.of_nat (length body))) c in
  let c := with_Response_rw (loggingResponseWriter.WriteHeader statusCode) c in
  let '((_, err), lrw) := loggingResponseWriter.Write body (Response_rw c) in
  let c := with_Response_rw (fun _ => lrw) c in
  match err with
  | Some e => (Some (Go.Errorf_w "failed to write body: " e), c)
  | None => (None, c)
  end.

Section Streams.
Context {T : Type} `{!io.ReadSeeker T}.

Definition Stream (statusCode : Z) (stream : T) (c : Ctx)
  : option Go.error * (T * Ctx) :=
  let c := with_Response_rw (loggingResponseWriter.WriteHeader statusCode) c in
  let '((_, err), (stream, lrw)) :=
    io.Copy loggingResponseWriter.Write stream (Response_rw c) in
  (err, (stream, with_Response_rw (fun _ => lrw) c)).

Definition StreamReadSeeker (statusCode : Z) (stream : T) (c : Ctx)
  : option Go.error * (T * Ctx) :=
  let '((currentPos, err), stream) := io.Seek 0 io.SeekCurrent stream in
  match err with
  | Some e =>
      let c := with_Log (RequestLogger.Warningf
        "Unable to determine current stream position: %v" [Go.VError e]) c in
      let c := with_Log
        (RequestLogger.Info "Falling back to chunked streaming") c in
      Stream statusCode stream c
  | None =>
  let '((totalStreamLen, err), stream) := io.Seek 0 io.SeekEnd stream in
  match err with
  | Some e =>
      let c := with_Log (RequestLogger.Warningf
        "Unable to determine total stream length: %v" [Go.VError e]) c in
      let c := with_Log
        (RequestLogger.Info "Falling back to chunked streaming") c in
      Stream statusCode stream c
  | None =>
  let '((_, err), stream) := io.Seek currentPos io.SeekStart stream in
  match err with
  | Some e =>
      let c := with_Log (RequestLogger.Errorf
        "Unable to restore stream position after reading length: %v"
        [Go.VError e]) c in
      (Some (Go.errorString
               "failed to safely determine stream length - aborting"),
       (stream, c))
  | None =>
      let c := Header_Set "Content-Length"
                 (Go.Itoa (Go.wrap64 (totalStreamLen - currentPos))) c in
      Stream statusCode stream c
  end end end.

Context `{!os.FileSystem T}.

(** [File]: the deferred [Close] runs on every path once the file is
    open; the file comes back closed next to the result. *)
Definition File (statusCode : Z) (filename : string) (c : Ctx)
  : option Go.error * (option T * Ctx) :=
  match os.Open filename with
  | inl e => (Some (Go.Errorf_w "failed to open file: " e), (None, c))
  | inr file =>
      let '(err, (file, c)) := StreamReadSeeker statusCode file c in
      (err, (Some (os.Close file), c))
  end.

End Streams.

Definition GetStatusCode (c : Ctx) : Z :=
  loggingResponseWriter.statusCode (Response_rw c).

Definition String (statusCode : Z) (body : string) (c : Ctx)
  : option Go.error * Ctx :=
  let c := setHeaderIfNotAlreadySet "Content-Type" "text/plain" c in
  Bytes statusCode (list_byte_of_string body) c.

End ContextResponse.
End ContextResponse.

(** The readers of [ContextRequest] that only look at the request. *)
Module ContextRequest.
Section ContextRequest.
Context {W S : Type}.

Definition Method (c : Context W S) : string := http.Method (Request_req c).

Definition URL (c : Context W S) : string := http.URL (Request_req c).

Definition Header (c : Context W S) : http.Header :=
  http.RequestHeader (Request_req c).

Definition Params (c : Context W S) : httprouter.Params := Request_params c.

Definition GetParam (name : string) (c : Context W S) : string :=
  httprouter.ByName name (Request_params c).

End ContextRequest.
End ContextRequest.

(** [SimpleCtx] embeds a [context.Context]; [SetValue] replaces it by a
    context that holds the value on top of the old one. *)
Module SimpleCtx.
Section SimpleCtx.
Context {K V : Type} `{!EqDecision K}.

Record t := { Context : context.t K V }.

Definition SetValue (key : K) (value : V) (ctx : t) : t :=
  {| Context := context.WithValue (Context ctx) key value |}.

Definition Value (ctx : t) (key : K) : option V :=
  context.Value (Context ctx) key.

End SimpleCtx.
End SimpleCtx.

(** ** middleware.go *)

Module Middleware.
Section Middleware.
Context {W S : Type}.

Abbreviation Ctx := (Context W S).

(** [type Middleware func(next Handler) (h Handler)]. *)
Definition t : Type := Handler W S -> Handler W S.

(** An [http.ResponseWriter] as a value: its three methods, acting on the
    objects of the request. *)
Record ResponseWriterValue := {
  V_Header : Ctx -> http.Header;
  V_Write : list Byte.byte -> Ctx -> (Z * option Go.error) * Ctx;
  V_WriteHeader : Z -> Ctx -> Ctx
}.

(** The interface [http.Handler]; [http.HandlerFunc] turns a function into
    one. *)
Record http_Handler := HandlerFunc {
  ServeHTTP : ResponseWriterValue -> http.Request -> Ctx -> Ctx
}.

Context `{!http.ResponseWriter.t W}.

(** [c.Response.rw] passed where an [http.ResponseWriter] is expected. *)
Definition Response_rw_value : ResponseWriterValue :=
  {| V_Header c := loggingResponseWriter.Header (Response_rw c);
     V_Write b c :=
       let '(r, lrw) := loggingResponseWriter.Write b (Response_rw c) in
       (r, with_Response_rw (fun _ => lrw) c);
     V_WriteHeader code c :=
       with_Response_rw (loggingResponseWriter.WriteHeader code) c |}.

Definition ClassicHandlerShim (classicHandler : http_Handler) : Handler W S :=
  fun c =>
    let c := ServeHTTP classicHandler Response_rw_value (Request_req c) c in
    (None, c).

Definition ClassicMiddlewareShim
    (classicMiddleware : http_Handler -> http_Handler) : t :=
  fun n =>
    fun c =>
      let classicHandler :=
        classicMiddleware (HandlerFunc (fun _ _ c' => snd (n c'))) in
      ClassicHandlerShim classicHandler c.

End Middleware.
End Middleware.

(** ** Go slices over a store of backing arrays *)

Module slice.

Local Open Scope nat_scope.

(** A slice header. Every slice of the package starts at the first cell of
    its backing array, so the header is the array's address, the length and
    the capacity. *)
Record t := { array : nat; len : nat; cap : nat }.

(** [growslice]: the capacity of the array a full slice moves to. The Go
    runtime only promises that the result is large enough. *)
Class Growth := {
  growslice : nat -> nat -> nat;
  growslice_enough : forall oldCap needed, needed <= growslice oldCap needed
}.

Section slice.
Context {A : Type}.

(** Backing arrays by address; a cell is [None] while it holds the zero
    value ([nil] for a function type). *)
Abbreviation memory := (gmap nat (list (option A))).

Definition elems (mem : memory) (s : t) : list (option A) :=
  take (len s) (mem !!! array s).

(** [make([]A, n)]. *)
Definition make (n : nat) (mem : memory) : t * memory :=
  let a := fresh (dom mem) in
  ({| array := a; len := n; cap := n |}, <[a := replicate n None]> mem).

(** [copy(dst, src)]. *)
Definition copy (dst src : t) (mem : memory) : nat * memory :=
  let n := Nat.min (len dst) (len src) in
  (n, <[array dst := take n (mem !!! array src) ++ drop n (mem !!! array dst)]>
        mem).

(** [append(s, xs...)]: in place when the capacity allows, into a fresh
    array otherwise. *)
Definition append `{!Growth} (s : t) (xs : list A) (mem : memory)
  : t * memory :=
  let n := len s + length xs in
  let old := mem !!! array s in
  if n <=? cap s then
    ({| array := array s; len := n; cap := cap s |},
     <[array s := take (len s) old ++ (Some <$> xs) ++ drop n old]> mem)
  else
    let c := growslice (cap s) n in
    let a := fresh (dom mem) in
    ({| array := a; len := n; cap := c |},
     <[a := take (len s) old ++ (Some <$> xs) ++ replicate (c - n) None]> mem).

End slice.

(** A growth policy in the manner of the runtime: double, or take what is
    needed when that is more. *)
#[global] Instance doubling : Growth :=
  {| growslice oldCap needed := Nat.max (2 * oldCap) needed;
     growslice_enough := fun oldCap needed => Nat.le_max_r (2 * oldCap) needed |}.

End slice.

(** ** handlerGroup.go and server.go *)

Module HandlerGroup.
Section HandlerGroup.
Context {W S : Type} `{!http.ResponseWriter.t W} `{!RequestLoggerBase.t S}
  `{!Go.Fmt} `{!slice.Growth}.

Abbreviation Ctx := (Context W S).

(** The fields of [Server] that a request reads. [NewServer] leaves
    [NewRequestLogger] nil. The factory is called with the context before
    its logger is assigned: it is given what the context holds then. *)
Record Server := {
  NewRequestLogger :
    option (@loggingResponseWriter.t W -> http.Request -> httprouter.Params -> S)
}.

(** [httprouter.Handle], the closure built by [handlerShim]. It reads
    [hg.s.NewRequestLogger] when it runs, so it takes the server as it is
    then; [goroutine] is the text [runtime.Stack] would produce; [None] is a
    panic. *)
Definition Handle : Type :=
  Server -> string -> W -> http.Request -> httprouter.Params -> option Ctx.

(** [HandlerGroup]. The store below holds one server, to which all its
    groups belong, so the field [s] is not represented. *)
Record t := {
  parent : option nat;
  middlewareList : slice.t;
  basePath : string
}.

(** The heap at registration time: the server's fields, what has been
    handed to the router (in order), the handler groups and the backing
    arrays of their middleware lists, by address. *)
Record Store := {
  server : Server;
  router : list (httprouter.method * string * Handle);
  groups : gmap nat t;
  arrays : gmap nat (list (option (@Middleware.t W S)))
}.

(** Registration code runs on the store and may panic. *)
Definition M (A : Type) : Type := Store -> option (A * Store).

Definition ret {A : Type} (a : A) : M A := fun st => Some (a, st).

Definition bind {A B : Type} (m : M A) (k : A -> M B) : M B :=
  fun st => match m st with
            | Some (a, st') => k a st'
            | None => None
            end.

Definition panic {A : Type} : M A := fun _ => None.

Notation "'let*' x ':=' m 'in' k" := (bind m (fun x => k))
  (at level 10, x name, m at level 100, k at level 200, only parsing).

Definition with_router (f : list (httprouter.method * string * Handle) ->
    list (httprouter.method * string * Handle)) (st : Store) : Store :=
  {| server := server st; router := f (router st);
     groups := groups st; arrays := arrays st |}.

Definition with_groups (f : gmap nat t -> gmap nat t) (st : Store) : Store :=
  {| server := server st; router := router st;
     groups := f (groups st); arrays := arrays st |}.

Definition with_arrays
    (mem : gmap nat (list (option (@Middleware.t W S)))) (st : Store) : Store :=
  {| server := server st; router := router st;
     groups := groups st; arrays := mem |}.

(** [*hg]; a nil or dangling pointer panics. *)
Definition deref (hg : nat) : M t :=
  fun st => match groups st !! hg with
            | Some g => Some (g, st)
            | None => None
            end.

(** [&HandlerGroup{...}]. *)
Definition new (g : t) : M nat :=
  fun st => let p := fresh (dom (groups st)) in
            Some (p, with_groups <[p := g]> st).

(** [hg.middlewareList = sl]. *)
Definition assign_middlewareList (hg : nat) (sl : slice.t) : M unit :=
  let* g := deref hg in
  fun st =>
    Some (tt, with_groups <[hg := {| parent := parent g;
                                     middlewareList := sl;
                                     basePath := basePath g |}]> st).

(** A slice primitive run on the store's arrays. *)
Definition on_arrays {A : Type}
    (f : gmap nat (list (option (@Middleware.t W S))) ->
         A * gmap nat (list (option (@Middleware.t W S)))) : M A :=
  fun st => let '(a, mem) := f (arrays st) in Some (a, with_arrays mem st).

(** [hg.s.router.Handle(method, path, handle)], seen from this package: the
    call is handed to the router; whether the router accepts the path is
    the router's business. *)
Definition register (method : httprouter.method) (path : string)
    (handle : Handle) : M unit :=
  fun st => Some (tt, with_router (fun r => r ++ [(method, path, handle)]) st).

(** The loop of [middlewareHandler]; [k] is [i + 1]. Calling a nil
    middleware or reading out of range panics. *)
Fixpoint middlewareHandler_loop (ml : list (option (@Middleware.t W S)))
    (k : nat) (fullHandler : Handler W S) : option (Handler W S) :=
  match k with
  | O => Some fullHandler
  | Datatypes.S i =>
      match ml !! i with
      | Some (Some m) => middlewareHandler_loop ml i (m fullHandler)
      | _ => None
      end
  end.

Definition middlewareHandler (hg : nat) (userHandler : Handler W S)
  : M (Handler W S) :=
  let* g := deref hg in
  fun st =>
    let ml := slice.elems (arrays st) (middlewareList g) in
    match middlewareHandler_loop ml (length ml) userHandler with
    | Some fullHandler => Some (fullHandler, st)
    | None => None
    end.

(** The closure returned by [handlerShim], for the composed handler [h]. *)
Definition handlerShim_closure (h : Handler W S) : Handle :=
  fun srv goroutine rw req p =>
    let lrw := {| loggingResponseWriter.rw := rw;
                  loggingResponseWriter.statusCode := 0;
                  loggingResponseWriter.contentLength := 0 |} in
    match NewRequestLogger srv with
    | None => None
    | Some newRequestLogger =>
        let rlb := newRequestLogger lrw req p in
        let c := {| Log := {| RequestLogger.b := rlb |};
                    Response_rw := lrw;
                    Request_req := req;
                    Request_params := p;
                    escapeHatchUsed := false |} in
        let '(err, c) := h c in
        let c := match err with
                 | Some e =>
                     with_Log (RequestLogger.Errorf
                       "Error returned from request handler: %v" [Go.VError e]) c
                 | None => c
                 end in
        let c := if Z.eqb (loggingResponseWriter.statusCode (Response_rw c)) 0
                 then with_Log (RequestLogger.WTF goroutine
                                  "Handler didn't write a response") c
                 else c in
        Some (with_Log (fun rl =>
                {| RequestLogger.b := RequestLoggerBase.WriteLogs (RequestLogger.b rl) |}) c)
    end.

Definition handlerShim (hg : nat) (h : Handler W S) : M Handle :=
  let* h := middlewareHandler hg h in
  ret (handlerShim_closure h).

Definition GetHandlerGroup (ohg : nat) (subPath : string) : M nat :=
  let* o := deref ohg in
  let* sl := on_arrays (slice.make (slice.len (middlewareList o))) in
  let* hg := new {| parent := Some ohg;
                    middlewareList := sl;
                    basePath := basePath o +:+ subPath |} in
  let* g := deref hg in
  let* o := deref ohg in
  let* _ := on_arrays (slice.copy (middlewareList g) (middlewareList o)) in
  ret hg.

Definition AddHandlerGroup (ohg : nat) (subPath : string)
    (registerFunc : nat -> M unit) : M unit :=
  let* hg := GetHandlerGroup ohg subPath in
  registerFunc hg.

Definition AddMiddleware (hg : nat) (m : list (@Middleware.t W S)) : M unit :=
  let* g := deref hg in
  let* sl := on_arrays (slice.append (middlewareList g) m) in
  assign_middlewareList hg sl.

(** [DELETE], [GET], [HEAD], [OPTIONS], [PATCH], [POST] and [PUT] differ in
    the router method only. *)
Definition route (method : httprouter.method) (hg : nat) (path : string)
    (h : Handler W S) : M unit :=
  let* g := deref hg in
  let path := basePath g +:+ path in
  let* handle := handlerShim hg h in
  register method path handle.

Definition DELETE := route httprouter.DELETE.
Definition GET := route httprouter.GET.
Definition HEAD := route httprouter.HEAD.
Definition OPTIONS := route httprouter.OPTIONS.
Definition PATCH := route httprouter.PATCH.
Definition POST := route httprouter.POST.
Definition PUT := route httprouter.PUT.

(** server.go *)
Definition NewServer : Store :=
  {| server := {| NewRequestLogger := None |};
     router := [];
     groups := ∅;
     arrays := ∅ |}.

Definition Server_GetHandlerGroup (path : string) : M nat :=
  let* sl := on_arrays (slice.make 0) in
  new {| parent := None; middlewareList := sl; basePath := path |}.

Definition Server_AddHandlerGroup (path : string)
    (registerFunc : nat -> M unit) : M unit :=
  let* hg := Server_GetHandlerGroup path in
  registerFunc hg.

(** [s.NewRequestLogger = f]. *)
Definition assign_NewRequestLogger
    (f : @loggingResponseWriter.t W -> http.Request -> httprouter.Params -> S)
  : M unit :=
  fun st => Some (tt, {| server := {| NewRequestLogger := Some f |};
                         router := router st;
                         groups := groups st;
                         arrays := arrays st |}).

(** The middleware list of a group as the program can read it. *)
Definition mlist (st : Store) (hg : nat) : list (option (@Middleware.t W S)) :=
  match groups st !! hg with
  | Some g => slice.elems (arrays st) (middlewareList g)
  | None => []
  end.

Definition prefix_of (st : Store) (hg : nat) : option string :=
  basePath <$> groups st !! hg.

End HandlerGroup.
End HandlerGroup.

(** * The vocabulary of the properties *)

Section Vocabulary.
Context {W S : Type} `{!http.ResponseWriter.t W} `{!RequestLoggerBase.t S}
  `{!Go.Fmt} `{!slice.Growth}.

Abbreviation Mw := (@Middleware.t W S).
Abbreviation Store := (@HandlerGroup.Store W S).

(** The header map after [setHeaderIfNotAlreadySet key dflt]. *)
Definition defaulted (key dflt : string) (h : http.Header) : http.Header :=
  if String.eqb (http.Header_Get key h) "" then http.Header_Set key dflt h
  else h.

(** What a body-writing method with the default content type [dflt] does to
    the context [c], [r] being what it returns: the header map [h2] that
    the writer holds when the status is written keeps a Content-Type whose
    first value is not empty and has the default otherwise, carries the
    length of the body as Content-Length and is unchanged elsewhere; the
    status and then the whole body go to the writer, in one [Write]; the
    result is the error of that [Write], wrapped. *)
Definition responds_with (dflt : string) (code : Z) (body : list Byte.byte)
    (c : Context W S) (r : option Go.error * Context W S) : Prop :=
  let h0 := ContextResponse.Header c in
  let lrw0 := Response_rw c in
  exists h2 : http.Header,
    (http.Header_Get "Content-Type" h0 <> "" ->
       h2 !! "Content-Type" = h0 !! "Content-Type") /\
    (http.Header_Get "Content-Type" h0 = "" ->
       h2 !! "Content-Type" = Some [dflt]) /\
    h2 !! "Content-Length" = Some [Go.Itoa (Z.of_nat (length body))] /\
    (forall k, k <> "Content-Type" -> k <> "Content-Length" ->
       h2 !! k = h0 !! k) /\
    let written :=
      http.ResponseWriter.Write body
        (http.ResponseWriter.WriteHeader code
           (http.ResponseWriter.storeHeader h2 (loggingResponseWriter.rw lrw0))) in
    loggingResponseWriter.rw (Response_rw (snd r)) = snd written /\
    loggingResponseWriter.statusCode (Response_rw (snd r)) = code /\
    loggingResponseWriter.contentLength (Response_rw (snd r))
      = Go.wrap64 (loggingResponseWriter.contentLength lrw0 + fst (fst written)) /\
    fst r = Go.Errorf_w "failed to write body: " <$> snd (fst written) /\
    Log (snd r) = Log c.

(** The sink after the calls [ks], made through the context's logger. *)
Definition logged (ks : list RequestLoggerBase.call) (c : Context W S)
  : Context W S :=
  with_Log (fun rl =>
    {| RequestLogger.b := RequestLoggerBase.play ks (RequestLogger.b rl) |}) c.

(** The context a request starts with. *)
Definition fresh_context
    (newRequestLogger :
       @loggingResponseWriter.t W -> http.Request -> httprouter.Params -> S)
    (rw : W) (req : http.Request) (p : httprouter.Params) : Context W S :=
  let lrw := {| loggingResponseWriter.rw := rw;
                loggingResponseWriter.statusCode := 0;
                loggingResponseWriter.contentLength := 0 |} in
  {| Log := {| RequestLogger.b := newRequestLogger lrw req p |};
     Response_rw := lrw;
     Request_req := req;
     Request_params := p;
     escapeHatchUsed := false |}.

(** The sink calls of the post-conditions, given what the handler returned
    and the status it left. *)
Definition postconditions (goroutine : string) (err : option Go.error)
    (status : Z) : list RequestLoggerBase.call :=
  match err with
  | Some e => [RequestLoggerBase.CError
                 ("Error returned from request handler: " +:+ Go.Error e)]
  | None => []
  end ++
  (if Z.eqb status 0
   then [RequestLoggerBase.CWTF "Handler didn't write a response";
         RequestLoggerBase.CWTF
           (RequestLogger.stackTracePrefix
            +:+ String.substring 0 RequestLogger.stBufLen goroutine)]
   else []) ++
  [RequestLoggerBase.CWriteLogs].

Definition count (f : RequestLoggerBase.call -> bool)
    (ks : list RequestLoggerBase.call) : nat :=
  length (List.filter f ks).

(** The chain in the words of the specification: the first middleware of
    the list is the outermost wrapper, and an empty list gives the leaf. *)
Fixpoint chain (ms : list Mw) (leaf : Handler W S) : Handler W S :=
  match ms with
  | [] => leaf
  | m0 :: rest => m0 (chain rest leaf)
  end.

(** A group owns its middleware list when the slice lies within a backing
    array of the store and holds no nil. *)
Definition owns (st : Store) (g : HandlerGroup.t) : Prop :=
  let sl := HandlerGroup.middlewareList g in
  exists arr ms,
    HandlerGroup.arrays st !! slice.array sl = Some arr /\
    length arr = slice.cap sl /\
    (slice.len sl <= slice.cap sl)%nat /\
    take (slice.len sl) arr = Some <$> ms.

(** The invariant of the store: every group owns its list, and no two
    groups share a backing array. *)
Definition wf (st : Store) : Prop :=
  (forall p g, HandlerGroup.groups st !! p = Some g -> owns st g) /\
  (forall p q g g',
     HandlerGroup.groups st !! p = Some g ->
     HandlerGroup.groups st !! q = Some g' ->
     p <> q ->
     slice.array (HandlerGroup.middlewareList g)
     <> slice.array (HandlerGroup.middlewareList g')).

(** The store after the group [g'] has been put at [p] and the array
    [arr'] at the address its slice names. *)
Definition installed (st : Store) (p : nat) (g' : HandlerGroup.t)
    (arr' : list (option Mw)) : Store :=
  HandlerGroup.with_groups <[p := g']>
    (HandlerGroup.with_arrays
       (<[slice.array (HandlerGroup.middlewareList g') := arr']>
          (HandlerGroup.arrays st)) st).

(** Registration calls as data, and a program of them. *)
Inductive op : Type :=
| OServerGetHandlerGroup (path : string)
| OGetHandlerGroup (ohg : nat) (subPath : string)
| OAddMiddleware (hg : nat) (m : list Mw)
| ORoute (method : httprouter.method) (hg : nat) (path : string)
    (h : Handler W S)
| OAssignNewRequestLogger
    (f : @loggingResponseWriter.t W -> http.Request -> httprouter.Params -> S).

Definition run_op (o : op) : HandlerGroup.M unit :=
  match o with
  | OServerGetHandlerGroup path =>
      HandlerGroup.bind (HandlerGroup.Server_GetHandlerGroup path)
        (fun _ => HandlerGroup.ret tt)
  | OGetHandlerGroup ohg subPath =>
      HandlerGroup.bind (HandlerGroup.GetHandlerGroup ohg subPath)
        (fun _ => HandlerGroup.ret tt)
  | OAddMiddleware hg m => HandlerGroup.AddMiddleware hg m
  | ORoute method hg path h => HandlerGroup.route method hg path h
  | OAssignNewRequestLogger f => HandlerGroup.assign_NewRequestLogger f
  end.

Fixpoint run (ops : list op) : HandlerGroup.M unit :=
  match ops with
  | [] => HandlerGroup.ret tt
  | o :: rest => HandlerGroup.bind (run_op o) (fun _ => run rest)
  end.

Definition added_by (hg : nat) (o : op) : list Mw :=
  match o with
  | OAddMiddleware hg' m => if Nat.eqb hg' hg then m else []
  | _ => []
  end.

(** The middleware that a program adds to the group [hg]. *)
Fixpoint added (hg : nat) (ops : list op) : list Mw :=
  match ops with
  | [] => []
  | OAddMiddleware hg' m :: rest =>
      if Nat.eqb hg' hg then m ++ added hg rest else added hg rest
  | _ :: rest => added hg rest
  end.

(** A program that only adds middleware to groups that exist returns, and
    hands nothing to the router. *)
Definition adds_to_groups (st : Store) (o : op) : Prop :=
  match o with
  | OAddMiddleware hg _ => is_Some (HandlerGroup.groups st !! hg)
  | _ => False
  end.

End Vocabulary.

(** ** Vocabulary of the further properties *)

Section MoreGroupVocabulary.
Context {W S : Type} `{!http.ResponseWriter.t W} `{!RequestLoggerBase.t S}
  `{!Go.Fmt} `{!slice.Growth}.

Definition assigns_logger (o : @op W S) : bool :=
  match o with
  | OAssignNewRequestLogger _ => true
  | _ => false
  end.

(** What [AddHandlerGroup] is typically given: add middleware to the child,
    then register a route on it. *)
Definition add_then_route (m : list (@Middleware.t W S))
    (method : httprouter.method) (path : string) (h : Handler W S)
    (hg : nat) : HandlerGroup.M unit :=
  HandlerGroup.bind (HandlerGroup.AddMiddleware hg m)
    (fun _ => HandlerGroup.route method hg path h).

End MoreGroupVocabulary.

Section MoreVocabulary.
Context {W S : Type} `{!http.ResponseWriter.t W} `{!RequestLoggerBase.t S}
  `{!Go.Fmt}.

(** A handler that takes the escape hatch and writes the status through
    the writer it got. *)
Definition escape_and_write (code : Z) : Handler W S :=
  fun c =>
    let '((rw, _), c) := EscapeHatch c in
    (None,
     with_Response_rw (fun _ => loggingResponseWriter.WriteHeader code rw) c).

(** A classic handler that makes the calls [ks] on the writer it is
    given. *)
Definition scripted (ks : list loggingResponseWriter.call)
  : @Middleware.http_Handler W S :=
  Middleware.HandlerFunc (fun v _ c =>
    fold_left
      (fun acc k =>
         match k with
         | loggingResponseWriter.CHeader => acc
         | loggingResponseWriter.CWrite b => snd (Middleware.V_Write v b acc)
         | loggingResponseWriter.CWriteHeader code =>
             Middleware.V_WriteHeader v code acc
         end)
      ks c).

(** The calls of the facade as data, and the sink calls each one makes. *)
Inductive facade_call : Type :=
| FInfo (msg : string)
| FInfof (format : string) (values : list Go.Value)
| FWarning (msg : string)
| FWarningf (format : string) (values : list Go.Value)
| FError (msg : string)
| FErrorf (format : string) (values : list Go.Value)
| FWTF (goroutine msg : string)
| FWTFf (goroutine format : string) (values : list Go.Value).

Definition facade_perform (k : facade_call) (rl : @RequestLogger.t S)
  : @RequestLogger.t S :=
  match k with
  | FInfo msg => RequestLogger.Info msg rl
  | FInfof format values => RequestLogger.Infof format values rl
  | FWarning msg => RequestLogger.Warning msg rl
  | FWarningf format values => RequestLogger.Warningf format values rl
  | FError msg => RequestLogger.Error msg rl
  | FErrorf format values => RequestLogger.Errorf format values rl
  | FWTF goroutine msg => RequestLogger.WTF goroutine msg rl
  | FWTFf goroutine format values =>
      RequestLogger.WTFf goroutine format values rl
  end.

Definition stack_trace (goroutine : string) : string :=
  RequestLogger.stackTracePrefix
  +:+ String.substring 0 RequestLogger.stBufLen goroutine.

Definition sink_calls (k : facade_call) : list RequestLoggerBase.call :=
  match k with
  | FInfo msg => [RequestLoggerBase.CInfo msg]
  | FInfof format values =>
      [RequestLoggerBase.CInfo (Go.Sprintf format values)]
  | FWarning msg => [RequestLoggerBase.CWarning msg]
  | FWarningf format values =>
      [RequestLoggerBase.CWarning (Go.Sprintf format values)]
  | FError msg => [RequestLoggerBase.CError msg]
  | FErrorf format values =>
      [RequestLoggerBase.CError (Go.Sprintf format values)]
  | FWTF goroutine msg =>
      [RequestLoggerBase.CWTF msg;
       RequestLoggerBase.CWTF (stack_trace goroutine)]
  | FWTFf goroutine format values =>
      [RequestLoggerBase.CWTF (Go.Sprintf format values);
       RequestLoggerBase.CWTF (stack_trace goroutine)]
  end.

Definition is_fatal (k : facade_call) : bool :=
  match k with
  | FWTF _ _ | FWTFf _ _ _ => true
  | _ => false
  end.

End MoreVocabulary.

Section FileVocabulary.
Context {W S T : Type} `{!http.ResponseWriter.t W} `{!RequestLoggerBase.t S}
  `{!Go.Fmt} `{!io.ReadSeeker T} `{!os.FileSystem T}.

(** A handler that answers with a file. *)
Definition File_handler (code : Z) (filename : string) : Handler W S :=
  fun c =>
    let '(err, (_, c)) := ContextResponse.File code filename c in (err, c).

End FileVocabulary.

Section TracingVocabulary.
Context {W S : Type} `{!RequestLoggerBase.t S}.

(** A middleware that logs [enter name] before the rest of the chain and
    [exit name] after it, and passes the error on. *)
Definition tracing (name : string) : @Middleware.t W S :=
  fun next c =>
    let c := with_Log (RequestLogger.Info ("enter " +:+ name)) c in
    let '(err, c) := next c in
    (err, with_Log (RequestLogger.Info ("exit " +:+ name)) c).

End TracingVocabulary.

Section StreamHandlerVocabulary.
Context {W S T : Type} `{!http.ResponseWriter.t W} `{!RequestLoggerBase.t S}
  `{!Go.Fmt} `{!io.ReadSeeker T}.

(** A handler that answers with a seekable stream. *)
Definition StreamReadSeeker_handler (code : Z) (stream : T) : Handler W S :=
  fun c =>
    let '(err, (_, c)) := ContextResponse.StreamReadSeeker code stream c in
    (err, c).

End StreamHandlerVocabulary.

(** * Concrete collaborators *)

(** ** The reference formatter has the two facts asked of [fmt.Sprintf] *)

Lemma append_cons (c : ascii) (s t : string) :
  String c s +:+ t = String c (s +:+ t).
Proof. reflexivity. Qed.

Lemma append_empty_r (s : string) : s +:+ "" = s.
Proof.
  induction s as [|c s IH]; [done |]. by rewrite append_cons, IH.
Qed.

Lemma sprintf_v_plain (c : ascii) (r : string) (vs : list Go.Value) :
  c <> "%"%char -> Go.sprintf_v (String c r) vs = String c (Go.sprintf_v r vs).
Proof.
  intros Hne.
  destruct c as [[] [] [] [] [] [] [] []]; try reflexivity; congruence.
Qed.

Lemma no_verb_cons (c : ascii) (s : string) :
  Go.no_verb (String c s) = true -> c <> "%"%char /\ Go.no_verb s = true.
Proof.
  simpl. intros [Hc Hs]%andb_prop. split; [|done].
  intros ->. by rewrite Ascii.eqb_refl in Hc.
Qed.

Lemma sprintf_v_literal (s : string) :
  Go.no_verb s = true -> Go.sprintf_v s [] = s.
Proof.
  induction s as [|c s IH]; [done |].
  intros [Hne Hs]%no_verb_cons.
  by rewrite sprintf_v_plain, IH.
Qed.

Lemma sprintf_v_error (prefix : string) (e : Go.error) :
  Go.no_verb prefix = true ->
  Go.sprintf_v (prefix +:+ "%v") [Go.VError e] = prefix +:+ Go.Error e.
Proof.
  induction prefix as [|c s IH].
  - intros _. apply append_empty_r.
  - intros [Hne Hs]%no_verb_cons.
    by rewrite !append_cons, sprintf_v_plain, IH.
Qed.

(** The reference formatter has the two facts asked of [fmt.Sprintf]. *)
#[global] Instance fragment_Fmt : Go.Fmt :=
  {| Go.Sprintf := Go.sprintf_v;
     Go.Sprintf_literal := sprintf_v_literal;
     Go.Sprintf_v_error := sprintf_v_error |}.

(** ** Recorders, an in-memory stream and a worked registration *)

(** A recording sink that formats with the reference formatter. *)
#[global] Instance recording_sink : RequestLoggerBase.t (list RequestLoggerBase.call) :=
  RequestLoggerBase.recorder Go.sprintf_v.

(** A fresh context over a recording writer with the header map [h] and the
    write script [script]. *)
Definition example_ctx (h : http.Header) (script : list (Z * option Go.error))
  : Context http.Recorder (list RequestLoggerBase.call) :=
  {| Log := {| RequestLogger.b := [] |};
     Response_rw :=
       {| loggingResponseWriter.rw :=
            {| http.HeaderMap := h; http.Sent := []; http.Script := script |};
          loggingResponseWriter.statusCode := 0;
          loggingResponseWriter.contentLength := 0 |};
     Request_req := {| http.Method := "GET"; http.URL := "/";
                       http.RequestHeader := ∅; http.Body := [] |};
     Request_params := [];
     escapeHatchUsed := false |}.

(** An in-memory stream. Its [Seek] answers from a script, one entry per
    call, [Some e] making the call fail; when the script has run out every
    seek succeeds. [Copy] hands what is left of the data to the destination
    in one [Write]. *)
Record MemStream := {
  data : list Byte.byte;
  pos : Z;
  seekScript : list (option Go.error)
}.

Definition MemStream_Seek (offset : Z) (w : io.whence) (s : MemStream)
  : (Z * option Go.error) * MemStream :=
  match seekScript s with
  | Some e :: rest =>
      ((0, Some e), {| data := data s; pos := pos s; seekScript := rest |})
  | _ =>
      let target := match w with
                    | io.SeekStart => offset
                    | io.SeekCurrent => pos s + offset
                    | io.SeekEnd => Z.of_nat (length (data s)) + offset
                    end in
      ((target, None),
       {| data := data s; pos := target; seekScript := tail (seekScript s) |})
  end.

Definition MemStream_Copy {D : Type}
    (write : list Byte.byte -> D -> (Z * option Go.error) * D)
    (src : MemStream) (dst : D) : (Z * option Go.error) * (MemStream * D) :=
  match drop (Z.to_nat (pos src)) (data src) with
  | [] => ((0, None), (src, dst))
  | chunk =>
      let '(r, dst) := write chunk dst in
      (r, ({| data := data src; pos := Z.of_nat (length (data src));
              seekScript := seekScript src |}, dst))
  end.

#[global] Instance MemStream_ReadSeeker : io.ReadSeeker MemStream :=
  {| io.Seek := MemStream_Seek; io.Copy := @MemStream_Copy |}.

Definition abcde : list Byte.byte :=
  [Byte.x61; Byte.x62; Byte.x63; Byte.x64; Byte.x65].

(** A handler that returns an error and writes no response. *)
Definition failing_handler
  : Handler http.Recorder (list RequestLoggerBase.call) :=
  fun c => (Some (Go.errorString "boom"), c).

Definition example_server : @HandlerGroup.Server http.Recorder (list RequestLoggerBase.call) :=
  {| HandlerGroup.NewRequestLogger := Some (fun _ _ _ => []) |}.

Definition example_request : http.Request :=
  {| http.Method := "GET"; http.URL := "/"; http.RequestHeader := ∅;
     http.Body := [] |}.

Definition blank_recorder : http.Recorder :=
  {| http.HeaderMap := ∅; http.Sent := []; http.Script := [] |}.

(** A middleware that logs when it is entered and when it is left. *)
Definition marker (name : string)
  : @Middleware.t http.Recorder (list RequestLoggerBase.call) :=
  fun next c =>
    let c := with_Log (RequestLogger.Info ("enter " +:+ name)) c in
    let '(err, c) := next c in
    (err, with_Log (RequestLogger.Info ("exit " +:+ name)) c).

(** A leaf that answers 204. *)
Definition leaf_204 : Handler http.Recorder (list RequestLoggerBase.call) :=
  fun c =>
    ContextResponse.Status 204 (with_Log (RequestLogger.Info "leaf") c).

(** A server, the group /api (at address 0) and three middlewares
    registered in two calls. *)
Definition example_program
  : list (@op http.Recorder (list RequestLoggerBase.call)) :=
  [OAssignNewRequestLogger (fun _ _ _ => []);
   OServerGetHandlerGroup "/api";
   OAddMiddleware 0 [marker "m0"; marker "m1"];
   OAddMiddleware 0 [marker "m2"]].

Definition example_store
  : @HandlerGroup.Store http.Recorder (list RequestLoggerBase.call) :=
  match run example_program HandlerGroup.NewServer with
  | Some (_, st) => st
  | None => HandlerGroup.NewServer
  end.

Definition example_group : HandlerGroup.t :=
  {| HandlerGroup.parent := None;
     HandlerGroup.middlewareList :=
       {| slice.array := 2; slice.len := 3; slice.cap := 4 |};
     HandlerGroup.basePath := "/api" |}.

(** ** Collaborators of the further properties *)

(** A registration on a server whose logger factory is never assigned. *)
Definition bare_program
  : list (@op http.Recorder (list RequestLoggerBase.call)) :=
  [OServerGetHandlerGroup "/api"; OAddMiddleware 0 [marker "m0"]].

Definition bare_store
  : @HandlerGroup.Store http.Recorder (list RequestLoggerBase.call) :=
  match run bare_program HandlerGroup.NewServer with
  | Some (_, st) => st
  | None => HandlerGroup.NewServer
  end.

Definition bare_group : HandlerGroup.t :=
  {| HandlerGroup.parent := None;
     HandlerGroup.middlewareList :=
       {| slice.array := 1; slice.len := 1; slice.cap := 1 |};
     HandlerGroup.basePath := "/api" |}.

(** A file system with the one file hello.txt; closing a file releases its
    content. *)
#[global] Instance one_file : os.FileSystem MemStream :=
  {| os.Open name :=
       if String.eqb name "hello.txt"
       then inr {| data := abcde; pos := 0; seekScript := [] |}
       else inl (Go.errorString
                   ("open " +:+ name +:+ ": no such file or directory"));
     os.Close file :=
       {| data := []; pos := 0; seekScript := seekScript file |} |}.

(** A registration of two tracing middleware on the group "/". *)
Definition traced_program
  : list (@op http.Recorder (list RequestLoggerBase.call)) :=
  [OServerGetHandlerGroup "/";
   OAddMiddleware 0 [tracing "outer"];
   OAddMiddleware 0 [tracing "inner"]].

Definition traced_store
  : @HandlerGroup.Store http.Recorder (list RequestLoggerBase.call) :=
  match run traced_program HandlerGroup.NewServer with
  | Some (_, st) => st
  | None => HandlerGroup.NewServer
  end.

(** A stream whose third seek fails. *)
Definition unrestorable : MemStream :=
  {| data := abcde; pos := 2;
     seekScript := [None; None; Some (Go.errorString "boom")] |}.

(** * Properties *)

(** ** Go preliminaries *)

Example Itoa_examples :
  Go.Itoa 0 = "0" /\ Go.Itoa 42 = "42" /\ Go.Itoa (-7) = "-7".
Proof. repeat split. Qed.

Example wrap64_examples :
  Go.wrap64 5 = 5 /\ Go.wrap64 (2 ^ 63) = - 2 ^ 63 /\
  Go.wrap64 (- 2 ^ 63 - 1) = 2 ^ 63 - 1.
Proof. repeat split. Qed.

Example sprintf_v_examples :
  Go.sprintf_v "ping" [] = "ping" /\
  Go.sprintf_v "failed: %v" [Go.VError (Go.errorString "boom")]
    = "failed: boom" /\
  Go.sprintf_v "100%% of %v" [Go.VInt 3] = "100% of 3".
Proof. repeat split. Qed.

(** ** The request logger *)

Lemma length_substring_0 (n : nat) (s : string) :
  String.length (String.substring 0 n s) = Nat.min n (String.length s).
Proof.
  revert n; induction s as [|c s IH]; intros [|n]; simpl; auto.
Qed.

Lemma substring_0_idemp (n : nat) (s : string) :
  String.substring 0 n (String.substring 0 n s) = String.substring 0 n s.
Proof.
  revert n; induction s as [|c s IH]; intros [|n]; simpl; auto.
  by rewrite IH.
Qed.

Lemma substring_0_prefix (n : nat) (s : string) :
  String.prefix (String.substring 0 n s) s = true.
Proof.
  revert n; induction s as [|c s IH]; intros [|n]; simpl; auto.
  destruct (Ascii.ascii_dec c c); [apply IH | done].
Qed.

Section LoggerFacts.
Context {S : Type} `{!RequestLoggerBase.t S} `{!Go.Fmt}.

Lemma substring_0_min (n : nat) (s : string) :
  String.substring 0 (Nat.min n (String.length s)) s = String.substring 0 n s.
Proof.
  revert n; induction s as [|c s IH]; intros [|n]; simpl; auto.
  by rewrite IH.
Qed.

(** What the four formatted variants hand to the sink. *)
Lemma formatted_variants (goroutine format : string) (values : list Go.Value)
    (rl : @RequestLogger.t S) :
  let msg := Go.Sprintf format values in
  RequestLogger.b (RequestLogger.Infof format values rl)
    = RequestLoggerBase.Info msg (RequestLogger.b rl) /\
  RequestLogger.b (RequestLogger.Warningf format values rl)
    = RequestLoggerBase.Warning msg (RequestLogger.b rl) /\
  RequestLogger.b (RequestLogger.Errorf format values rl)
    = RequestLoggerBase.Error msg (RequestLogger.b rl) /\
  RequestLogger.WTFf goroutine format values rl
    = RequestLogger.WTF goroutine msg rl.
Proof. by repeat split. Qed.

(** The two sink calls of [WTF]. *)
Lemma WTF_two_calls (goroutine msg : string) (rl : @RequestLogger.t S) :
  RequestLogger.b (RequestLogger.WTF goroutine msg rl)
  = RequestLoggerBase.play
      [RequestLoggerBase.CWTF msg;
       RequestLoggerBase.CWTF
         (RequestLogger.stackTracePrefix
          +:+ String.substring 0 RequestLogger.stBufLen goroutine)]
      (RequestLogger.b rl).
Proof.
  unfold RequestLogger.WTF, RequestLogger.runtime_Stack.
  generalize RequestLogger.stBufLen; intros bufLen.
  rewrite substring_0_idemp, substring_0_min.
  reflexivity.
Qed.

(** C9. [WTF] hands [msg] to the sink's [WTF], then a snapshot of the
    goroutine's stack, cut to the 100000 bytes of the buffer and prefixed
    with "Stack Trace:" and a newline, to the sink's [WTF] again: two
    fatal-bug calls reach the sink, in that order, and nothing else. *)
Theorem WTF_message_then_stack_trace (goroutine msg : string)
    (rl : @RequestLogger.t S) :
  let snapshot := String.substring 0 RequestLogger.stBufLen goroutine in
  RequestLogger.b (RequestLogger.WTF goroutine msg rl)
    = RequestLoggerBase.play
        [RequestLoggerBase.CWTF msg;
         RequestLoggerBase.CWTF
           ("Stack Trace:" +:+ String "010"%char "" +:+ snapshot)]
        (RequestLogger.b rl) /\
  Z.of_nat (String.length snapshot) <= 100000 /\
  String.prefix snapshot goroutine = true /\
  Z.of_nat (String.length snapshot)
    = Z.min 100000 (Z.of_nat (String.length goroutine)).
Proof.
  intros snapshot.
  assert (Hlen : String.length snapshot
                 = Nat.min RequestLogger.stBufLen (String.length goroutine))
    by apply length_substring_0.
  assert (Hbuf : Z.of_nat RequestLogger.stBufLen = 100000).
  { unfold RequestLogger.stBufLen. by rewrite Z2Nat.id. }
  repeat split.
  - apply WTF_two_calls.
  - lia.
  - apply substring_0_prefix.
  - lia.
Qed.

End LoggerFacts.

(** C5. A sink whose [FormatLog] answers "sink" whatever it is given: the
    four formatted variants of the facade deliver the text rendered by
    [fmt.Sprintf] ("ping" for the template "ping"), not the sink's
    rendering, and [FormatLog] is not called at all. *)
Theorem formatted_variants_bypass_FormatLog (F : Go.Fmt) :
  let sink := RequestLoggerBase.recorder (fun _ _ => "sink") in
  let rl := {| RequestLogger.b := [] |} in
  fst (RequestLoggerBase.FormatLog "ping" [] []) = "sink" /\
  RequestLogger.b (RequestLogger.Infof "ping" [] rl)
    = [RequestLoggerBase.CInfo "ping"] /\
  RequestLogger.b (RequestLogger.Warningf "ping" [] rl)
    = [RequestLoggerBase.CWarning "ping"] /\
  RequestLogger.b (RequestLogger.Errorf "ping" [] rl)
    = [RequestLoggerBase.CError "ping"] /\
  filter RequestLoggerBase.is_CFormatLog
    (RequestLogger.b (RequestLogger.WTFf "" "ping" [] rl)) = [] /\
  head (RequestLogger.b (RequestLogger.WTFf "" "ping" [] rl))
    = Some (RequestLoggerBase.CWTF "ping").
Proof.
  intros sink rl.
  unfold RequestLogger.Infof, RequestLogger.Warningf, RequestLogger.Errorf,
    RequestLogger.WTFf.
  rewrite (Go.Sprintf_literal "ping" eq_refl).
  repeat split; vm_compute; reflexivity.
Qed.

(** ** The response tracker *)

Section TrackerFacts.
Context {W S : Type} `{!http.ResponseWriter.t W}.

Lemma play_rw (ks : list loggingResponseWriter.call)
    (lrw : @loggingResponseWriter.t W) :
  loggingResponseWriter.rw (loggingResponseWriter.play ks lrw)
  = loggingResponseWriter.play_raw ks (loggingResponseWriter.rw lrw).
Proof.
  revert lrw; induction ks as [|k ks IH]; intros lrw; [done |].
  cbn [loggingResponseWriter.play loggingResponseWriter.play_raw fold_left].
  change (loggingResponseWriter.rw
            (loggingResponseWriter.play ks (loggingResponseWriter.perform k lrw))
          = loggingResponseWriter.play_raw ks
              (loggingResponseWriter.perform_raw k (loggingResponseWriter.rw lrw))).
  rewrite IH. f_equal.
  destruct k as [|b|code]; try reflexivity.
  unfold loggingResponseWriter.perform, loggingResponseWriter.Write; simpl.
  by destruct (http.ResponseWriter.Write b (loggingResponseWriter.rw lrw))
    as [[n err] w'].
Qed.

Lemma perform_statusCode (k : loggingResponseWriter.call)
    (lrw : @loggingResponseWriter.t W) :
  loggingResponseWriter.statusCode (loggingResponseWriter.perform k lrw)
  = match k with
    | loggingResponseWriter.CWriteHeader code => code
    | _ => loggingResponseWriter.statusCode lrw
    end.
Proof.
  destruct k as [|b|code]; try reflexivity.
  unfold loggingResponseWriter.perform, loggingResponseWriter.Write; simpl.
  by destruct (http.ResponseWriter.Write b (loggingResponseWriter.rw lrw))
    as [[n err] w'].
Qed.

Lemma play_statusCode (ks : list loggingResponseWriter.call)
    (lrw : @loggingResponseWriter.t W) :
  loggingResponseWriter.statusCode (loggingResponseWriter.play ks lrw)
  = default (loggingResponseWriter.statusCode lrw)
      (loggingResponseWriter.lastWriteHeader ks).
Proof.
  revert lrw; induction ks as [|k ks IH]; intros lrw; [done |].
  change (loggingResponseWriter.play (k :: ks) lrw)
    with (loggingResponseWriter.play ks (loggingResponseWriter.perform k lrw)).
  rewrite IH, perform_statusCode. simpl.
  destruct (loggingResponseWriter.lastWriteHeader ks); [done |].
  by destruct k.
Qed.

(** C8. The tracker forwards [Header], [Write] and [WriteHeader] to the
    writer it wraps and returns what that writer returns; after any
    sequence of calls on a fresh tracker the wrapped writer has received the
    same sequence, the tracked status is the argument of the last
    [WriteHeader] of the sequence and 0 when there was none, a [Write]
    leaves the status alone and adds the count it returns to the byte
    counter, and [GetStatusCode] reads the tracked status. *)
Theorem tracker_forwards_and_tracks (w : W)
    (ks : list loggingResponseWriter.call) (b : list Byte.byte) (code : Z)
    (c : Context W S) :
  let fresh_lrw := {| loggingResponseWriter.rw := w;
                      loggingResponseWriter.statusCode := 0;
                      loggingResponseWriter.contentLength := 0 |} in
  let lrw := loggingResponseWriter.play ks fresh_lrw in
  let raw := loggingResponseWriter.rw lrw in
  (loggingResponseWriter.Header lrw = http.ResponseWriter.Header raw /\
   fst (loggingResponseWriter.Write b lrw)
     = fst (http.ResponseWriter.Write b raw) /\
   loggingResponseWriter.rw (snd (loggingResponseWriter.Write b lrw))
     = snd (http.ResponseWriter.Write b raw) /\
   loggingResponseWriter.rw (loggingResponseWriter.WriteHeader code lrw)
     = http.ResponseWriter.WriteHeader code raw /\
   raw = loggingResponseWriter.play_raw ks w) /\
  (loggingResponseWriter.statusCode lrw
     = default 0 (loggingResponseWriter.lastWriteHeader ks) /\
   loggingResponseWriter.statusCode (loggingResponseWriter.WriteHeader code lrw)
     = code /\
   loggingResponseWriter.statusCode (snd (loggingResponseWriter.Write b lrw))
     = loggingResponseWriter.statusCode lrw) /\
  (loggingResponseWriter.contentLength (snd (loggingResponseWriter.Write b lrw))
     = Go.wrap64 (loggingResponseWriter.contentLength lrw
                  + fst (fst (http.ResponseWriter.Write b raw))) /\
   loggingResponseWriter.contentLength
     (loggingResponseWriter.WriteHeader code lrw)
     = loggingResponseWriter.contentLength lrw) /\
  ContextResponse.GetStatusCode c
    = loggingResponseWriter.statusCode (Response_rw c).
Proof.
  intros fresh_lrw lrw raw.
  assert (Hw : forall l : @loggingResponseWriter.t W,
    loggingResponseWriter.Write b l
    = (fst (http.ResponseWriter.Write b (loggingResponseWriter.rw l)),
       {| loggingResponseWriter.rw :=
            snd (http.ResponseWriter.Write b (loggingResponseWriter.rw l));
          loggingResponseWriter.statusCode := loggingResponseWriter.statusCode l;
          loggingResponseWriter.contentLength :=
            Go.wrap64 (loggingResponseWriter.contentLength l
              + fst (fst (http.ResponseWriter.Write b (loggingResponseWriter.rw l))))
       |})).
  { intros l. unfold loggingResponseWriter.Write.
    by destruct (http.ResponseWriter.Write b (loggingResponseWriter.rw l))
      as [[n err] w']. }
  repeat split; rewrite ?Hw; try reflexivity.
  - apply play_rw.
  - apply play_statusCode.
Qed.

End TrackerFacts.

(** ** Bytes and String *)

Section ResponseFacts.
Context {W S : Type} `{!http.ResponseWriter.t W} `{!RequestLoggerBase.t S}
  `{!Go.Fmt}.

Lemma store_store (h h' : http.Header) (c : Context W S) :
  with_Response_rw (loggingResponseWriter.storeHeader h')
    (with_Response_rw (loggingResponseWriter.storeHeader h) c)
  = with_Response_rw (loggingResponseWriter.storeHeader h') c.
Proof.
  unfold with_Response_rw, loggingResponseWriter.storeHeader; simpl.
  by rewrite http.ResponseWriter.storeHeader_storeHeader.
Qed.

Lemma Header_store (h : http.Header) (c : Context W S) :
  ContextResponse.Header
    (with_Response_rw (loggingResponseWriter.storeHeader h) c) = h.
Proof.
  unfold ContextResponse.Header, loggingResponseWriter.Header,
    with_Response_rw, loggingResponseWriter.storeHeader; simpl.
  apply http.ResponseWriter.Header_storeHeader.
Qed.

Lemma setHeaderIfNotAlreadySet_store (key dflt : string) (c : Context W S) :
  ContextResponse.setHeaderIfNotAlreadySet key dflt c
  = with_Response_rw
      (loggingResponseWriter.storeHeader
         (defaulted key dflt (ContextResponse.Header c))) c.
Proof.
  unfold ContextResponse.setHeaderIfNotAlreadySet, defaulted.
  destruct (String.eqb _ "") eqn:E; simpl; [done |].
  destruct c as [lg [w sc cl] rq ps eh].
  unfold with_Response_rw, loggingResponseWriter.storeHeader,
    ContextResponse.Header, loggingResponseWriter.Header; simpl.
  by rewrite http.ResponseWriter.storeHeader_Header.
Qed.

Lemma Bytes_eq (code : Z) (body : list Byte.byte) (c : Context W S) :
  let h2 := http.Header_Set "Content-Length"
              (Go.Itoa (Z.of_nat (length body)))
              (defaulted "Content-Type" "application/octet-stream"
                 (ContextResponse.Header c)) in
  let written :=
    http.ResponseWriter.Write body
      (http.ResponseWriter.WriteHeader code
         (http.ResponseWriter.storeHeader h2
            (loggingResponseWriter.rw (Response_rw c)))) in
  ContextResponse.Bytes code body c
  = (Go.Errorf_w "failed to write body: " <$> snd (fst written),
     with_Response_rw (fun lrw =>
       {| loggingResponseWriter.rw := snd written;
          loggingResponseWriter.statusCode := code;
          loggingResponseWriter.contentLength :=
            Go.wrap64 (loggingResponseWriter.contentLength lrw
                       + fst (fst written)) |}) c).
Proof.
  intros h2 written.
  unfold ContextResponse.Bytes.
  rewrite setHeaderIfNotAlreadySet_store.
  unfold ContextResponse.Header_Set.
  rewrite Header_store, store_store.
  fold h2.
  destruct c as [lg [w sc cl] rq ps eh].
  unfold with_Response_rw, loggingResponseWriter.storeHeader,
    loggingResponseWriter.WriteHeader, loggingResponseWriter.Write; simpl.
  subst written; simpl.
  destruct (http.ResponseWriter.Write body _) as [[n err] w'].
  by destruct err.
Qed.

Lemma defaulted_set (key dflt : string) (h : http.Header) :
  dflt <> "" -> http.Header_Get key (defaulted key dflt h) <> "".
Proof.
  intros Hd. unfold defaulted.
  destruct (String.eqb _ "") eqn:E.
  - unfold http.Header_Get, http.Header_Set. by rewrite lookup_insert_eq.
  - by apply String.eqb_neq in E.
Qed.

Lemma defaulted_keep (key dflt : string) (h : http.Header) :
  http.Header_Get key h <> "" -> defaulted key dflt h = h.
Proof.
  intros Hset. unfold defaulted.
  destruct (String.eqb _ "") eqn:E; [by apply String.eqb_eq in E | done].
Qed.

Lemma defaulted_twice (key dflt dflt' : string) (h : http.Header) :
  dflt <> "" ->
  defaulted key dflt' (defaulted key dflt h) = defaulted key dflt h.
Proof. intros Hd. by apply defaulted_keep, defaulted_set. Qed.

Lemma response_header (dflt len : string) (h0 : http.Header) :
  let h2 := http.Header_Set "Content-Length" len
              (defaulted "Content-Type" dflt h0) in
  (http.Header_Get "Content-Type" h0 <> "" ->
     h2 !! "Content-Type" = h0 !! "Content-Type") /\
  (http.Header_Get "Content-Type" h0 = "" ->
     h2 !! "Content-Type" = Some [dflt]) /\
  h2 !! "Content-Length" = Some [len] /\
  (forall k, k <> "Content-Type" -> k <> "Content-Length" ->
     h2 !! k = h0 !! k).
Proof.
  intros h2. subst h2. unfold http.Header_Set. repeat split.
  - intros Hset. rewrite lookup_insert_ne by done.
    by rewrite defaulted_keep.
  - intros Hunset. rewrite lookup_insert_ne by done.
    unfold defaulted. rewrite Hunset. simpl.
    apply lookup_insert_eq.
  - apply lookup_insert_eq.
  - intros k Hct Hcl. rewrite lookup_insert_ne by done.
    unfold defaulted. destruct (String.eqb _ ""); [|done].
    unfold http.Header_Set. by rewrite lookup_insert_ne.
Qed.

Lemma length_list_byte_of_string (s : string) :
  length (list_byte_of_string s) = String.length s.
Proof.
  induction s as [|a s IH]; [done |]. simpl. by rewrite <- IH.
Qed.

(** What [Bytes] and [String] do on every context. They leave a
    Content-Type alone when
    its first value is not empty and set the default (application/octet-stream
    for [Bytes], text/plain for [String]) otherwise, that is when the header
    is absent, has no value or has an empty first value; they set
    Content-Length to the byte length of the body, write the status and
    then the whole body, and return a failure of that write wrapped. *)
Theorem Bytes_and_String_respond (code : Z) (body : list Byte.byte)
    (text : string) (c : Context W S) :
  responds_with "application/octet-stream" code body c
    (ContextResponse.Bytes code body c) /\
  responds_with "text/plain" code (list_byte_of_string text) c
    (ContextResponse.String code text c) /\
  length (list_byte_of_string text) = String.length text.
Proof.
  split; [|split; [|apply length_list_byte_of_string]].
  - unfold responds_with. rewrite Bytes_eq.
    eexists. pose proof (response_header "application/octet-stream"
      (Go.Itoa (Z.of_nat (length body))) (ContextResponse.Header c))
      as (Ha & Hb & Hc & Hd).
    split; [exact Ha |]. split; [exact Hb |]. split; [exact Hc |].
    split; [exact Hd |]. by destruct c as [lg [w sc cl] rq ps eh].
  - unfold responds_with, ContextResponse.String.
    rewrite setHeaderIfNotAlreadySet_store, Bytes_eq, Header_store.
    rewrite defaulted_twice by done.
    eexists. pose proof (response_header "text/plain"
      (Go.Itoa (Z.of_nat (length (list_byte_of_string text))))
      (ContextResponse.Header c)) as (Ha & Hb & Hc & Hd).
    split; [exact Ha |]. split; [exact Hb |]. split; [exact Hc |].
    split; [exact Hd |].
    destruct c as [lg [w sc cl] rq ps eh]; simpl.
    unfold loggingResponseWriter.storeHeader; simpl.
    by rewrite http.ResponseWriter.storeHeader_storeHeader.
Qed.

End ResponseFacts.

(** C7. The code departs from its own comments, which promise that a
    Content-Type that already exists is kept. A handler has set Content-Type
    to the empty string, so the header is present in the map; [Bytes] tests
    it with [Header.Get], finds the empty string and replaces the header
    with the default. *)
Lemma Bytes_replaces_an_empty_Content_Type :
  let c := example_ctx {["Content-Type" := [""]]} [] in
  let c' := snd (ContextResponse.Bytes 200 [] c) in
  is_Some (ContextResponse.Header c !! "Content-Type") /\
  ContextResponse.Header c' !! "Content-Type"
    = Some ["application/octet-stream"] /\
  ContextResponse.Header c' !! "Content-Type"
    <> ContextResponse.Header c !! "Content-Type".
Proof.
  intros c c'. split; [by eexists |].
  assert (Hc' : ContextResponse.Header c' !! "Content-Type"
                = Some ["application/octet-stream"])
    by (vm_compute; reflexivity).
  split; [exact Hc' |]. rewrite Hc'. vm_compute. discriminate.
Qed.

(** ** StreamReadSeeker *)

Lemma wrap64_in_range (z : Z) : Go.in_int64 z -> Go.wrap64 z = z.
Proof.
  unfold Go.in_int64, Go.wrap64. intros Hz.
  rewrite Z.mod_small; lia.
Qed.

Section StreamFacts.
Context {W S T : Type} `{!http.ResponseWriter.t W} `{!RequestLoggerBase.t S}
  `{!Go.Fmt} `{!io.ReadSeeker T}.

Lemma Warningf_v_error (prefix : string) (e : Go.error) (c : Context W S) :
  Go.no_verb prefix = true ->
  with_Log (RequestLogger.Warningf (prefix +:+ "%v") [Go.VError e]) c
  = logged [RequestLoggerBase.CWarning (prefix +:+ Go.Error e)] c.
Proof.
  intros Hp. unfold logged, RequestLogger.Warningf.
  by rewrite Go.Sprintf_v_error.
Qed.

Lemma Errorf_v_error (prefix : string) (e : Go.error) (c : Context W S) :
  Go.no_verb prefix = true ->
  with_Log (RequestLogger.Errorf (prefix +:+ "%v") [Go.VError e]) c
  = logged [RequestLoggerBase.CError (prefix +:+ Go.Error e)] c.
Proof.
  intros Hp. unfold logged, RequestLogger.Errorf.
  by rewrite Go.Sprintf_v_error.
Qed.

Lemma Info_logged (msg : string) (c : Context W S) :
  with_Log (RequestLogger.Info msg) c = logged [RequestLoggerBase.CInfo msg] c.
Proof. reflexivity. Qed.

Lemma logged_app (ks ks' : list RequestLoggerBase.call) (c : Context W S) :
  logged ks' (logged ks c) = logged (ks ++ ks') c.
Proof.
  unfold logged, with_Log, RequestLoggerBase.play; simpl.
  by rewrite fold_left_app.
Qed.

(** C4. [StreamReadSeeker] probes with three seeks. When the seek for the
    current position or the seek for the end fails, it logs a Warning (and
    an Info), leaves the header map as it was and returns what [Stream]
    returns. When both succeed and the seek back fails, it logs an Error
    and returns the aborting error without touching the writer. When all
    three succeed it sets Content-Length to end - current (the 64-bit
    difference, which is the exact one whenever it fits) and then
    streams. *)
Theorem StreamReadSeeker_cases (code : Z) (stream : T) (c : Context W S) :
  let p1 := io.Seek 0 io.SeekCurrent stream in
  let p2 := io.Seek 0 io.SeekEnd (snd p1) in
  let current := fst (fst p1) in
  let total := fst (fst p2) in
  let p3 := io.Seek current io.SeekStart (snd p2) in
  let fallback (what : string) (e : Go.error) :=
    logged [RequestLoggerBase.CWarning (what +:+ Go.Error e);
            RequestLoggerBase.CInfo "Falling back to chunked streaming"] c in
  let measured :=
    ContextResponse.Header_Set "Content-Length"
      (Go.Itoa (Go.wrap64 (total - current))) c in
  (forall e, snd (fst p1) = Some e ->
     ContextResponse.StreamReadSeeker code stream c
     = ContextResponse.Stream code (snd p1)
         (fallback "Unable to determine current stream position: " e)) /\
  (forall e, snd (fst p1) = None -> snd (fst p2) = Some e ->
     ContextResponse.StreamReadSeeker code stream c
     = ContextResponse.Stream code (snd p2)
         (fallback "Unable to determine total stream length: " e)) /\
  (forall e, snd (fst p1) = None -> snd (fst p2) = None ->
     snd (fst p3) = Some e ->
     ContextResponse.StreamReadSeeker code stream c
     = (Some (Go.errorString
                "failed to safely determine stream length - aborting"),
        (snd p3,
         logged [RequestLoggerBase.CError
                   ("Unable to restore stream position after reading length: "
                    +:+ Go.Error e)] c))) /\
  (snd (fst p1) = None -> snd (fst p2) = None -> snd (fst p3) = None ->
     ContextResponse.StreamReadSeeker code stream c
     = ContextResponse.Stream code (snd p3) measured) /\
  (forall what e,
     ContextResponse.Header (fallback what e) = ContextResponse.Header c /\
     Response_rw (fallback what e) = Response_rw c) /\
  (forall ks, Response_rw (logged ks c) = Response_rw c) /\
  (ContextResponse.Header measured !! "Content-Length"
     = Some [Go.Itoa (Go.wrap64 (total - current))] /\
   (forall k, k <> "Content-Length" ->
      ContextResponse.Header measured !! k = ContextResponse.Header c !! k) /\
   Log measured = Log c) /\
  (Go.in_int64 (total - current) ->
     Go.wrap64 (total - current) = total - current).
Proof.
  intros p1 p2 current total p3 fallback measured.
  unfold ContextResponse.StreamReadSeeker.
  subst measured fallback current total p3 p2 p1.
  destruct (io.Seek 0 io.SeekCurrent stream) as [[cur e1] s1]; simpl.
  destruct (io.Seek 0 io.SeekEnd s1) as [[tot e2] s2]; simpl.
  destruct (io.Seek cur io.SeekStart s2) as [[back e3] s3]; simpl.
  split_and!.
  - intros e ->.
    rewrite (Warningf_v_error "Unable to determine current stream position: ")
      by done.
    by rewrite Info_logged, logged_app.
  - intros e -> ->.
    rewrite (Warningf_v_error "Unable to determine total stream length: ")
      by done.
    by rewrite Info_logged, logged_app.
  - intros e -> -> ->.
    by rewrite (Errorf_v_error
      "Unable to restore stream position after reading length: ") by done.
  - by intros -> -> ->.
  - by intros what e.
  - by intros ks.
  - unfold ContextResponse.Header_Set.
    rewrite Header_store. apply lookup_insert_eq.
  - intros k Hk. unfold ContextResponse.Header_Set.
    rewrite Header_store. by apply lookup_insert_ne.
  - done.
  - apply wrap64_in_range.
Qed.

End StreamFacts.

(** C4, witness. A five-byte stream read from offset 2: Content-Length
    is 3. *)
Lemma StreamReadSeeker_cases_witness :
  let stream := {| data := abcde; pos := 2; seekScript := [] |} in
  let c := example_ctx ∅ [] in
  ContextResponse.StreamReadSeeker 200 stream c
  = ContextResponse.Stream 200 stream
      (ContextResponse.Header_Set "Content-Length" "3" c).
Proof.
  intros stream c.
  exact (proj1 (proj2 (proj2 (proj2 (StreamReadSeeker_cases 200 stream c))))
           eq_refl eq_refl eq_refl).
Defined.

Example StreamReadSeeker_measured :
  let stream := {| data := abcde; pos := 2; seekScript := [] |} in
  let r := ContextResponse.StreamReadSeeker 200 stream (example_ctx ∅ []) in
  fst r = None /\
  http.Sent (loggingResponseWriter.rw (Response_rw (snd (snd r))))
  = [http.SentHeader 200 {["Content-Length" := ["3"]]};
     http.SentBody [Byte.x63; Byte.x64; Byte.x65]] /\
  RequestLogger.b (Log (snd (snd r))) = [].
Proof. vm_compute. repeat split. Qed.

Example StreamReadSeeker_falls_back :
  let boom := Go.errorString "boom" in
  let stream := {| data := abcde; pos := 2; seekScript := [None; Some boom] |} in
  let r := ContextResponse.StreamReadSeeker 200 stream (example_ctx ∅ []) in
  fst r = None /\
  http.Sent (loggingResponseWriter.rw (Response_rw (snd (snd r))))
  = [http.SentHeader 200 ∅; http.SentBody [Byte.x63; Byte.x64; Byte.x65]] /\
  RequestLogger.b (Log (snd (snd r)))
  = [RequestLoggerBase.CWarning "Unable to determine total stream length: boom";
     RequestLoggerBase.CInfo "Falling back to chunked streaming"].
Proof. vm_compute. repeat split. Qed.

Example StreamReadSeeker_aborts :
  let boom := Go.errorString "boom" in
  let stream :=
    {| data := abcde; pos := 2; seekScript := [None; None; Some boom] |} in
  let r := ContextResponse.StreamReadSeeker 200 stream (example_ctx ∅ []) in
  fst r = Some (Go.errorString
                  "failed to safely determine stream length - aborting") /\
  http.Sent (loggingResponseWriter.rw (Response_rw (snd (snd r)))) = [] /\
  loggingResponseWriter.statusCode (Response_rw (snd (snd r))) = 0 /\
  RequestLogger.b (Log (snd (snd r)))
  = [RequestLoggerBase.CError
       "Unable to restore stream position after reading length: boom"].
Proof. vm_compute. repeat split. Qed.

(** ** The request lifecycle *)

Section LifecycleFacts.
Context {W S : Type} `{!http.ResponseWriter.t W} `{!RequestLoggerBase.t S}
  `{!Go.Fmt}.

Lemma WTF_logged (goroutine msg : string) (c : Context W S) :
  with_Log (RequestLogger.WTF goroutine msg) c
  = logged [RequestLoggerBase.CWTF msg;
            RequestLoggerBase.CWTF
              (RequestLogger.stackTracePrefix
               +:+ String.substring 0 RequestLogger.stBufLen goroutine)] c.
Proof.
  unfold logged, with_Log. f_equal.
  rewrite <- WTF_two_calls.
  by destruct (RequestLogger.WTF goroutine msg (Log c)).
Qed.

(** What the closure of [handlerShim] does, for a server with a logger
    factory: the handler runs on a fresh context, then the sink receives
    the post-condition calls and nothing else changes. *)
Lemma handlerShim_closure_eq (h : Handler W S) (srv : HandlerGroup.Server)
    (goroutine : string) (rw : W) (req : http.Request)
    (p : httprouter.Params) newRequestLogger :
  HandlerGroup.NewRequestLogger srv = Some newRequestLogger ->
  let r := h (fresh_context newRequestLogger rw req p) in
  HandlerGroup.handlerShim_closure h srv goroutine rw req p
  = Some (logged
            (postconditions goroutine (fst r)
               (loggingResponseWriter.statusCode (Response_rw (snd r))))
            (snd r)).
Proof.
  intros Hf r. unfold HandlerGroup.handlerShim_closure. rewrite Hf.
  fold (fresh_context newRequestLogger rw req p). fold r.
  destruct r as [err c]; simpl. f_equal.
  unfold postconditions.
  assert (He : match err with
               | Some e =>
                   with_Log (RequestLogger.Errorf
                     "Error returned from request handler: %v" [Go.VError e]) c
               | None => c
               end
               = logged match err with
                        | Some e => [RequestLoggerBase.CError
                            ("Error returned from request handler: "
                             +:+ Go.Error e)]
                        | None => []
                        end c).
  { destruct err as [e|].
    - by rewrite (Errorf_v_error "Error returned from request handler: ").
    - by destruct c as [[b] lrw rq ps eh]. }
  rewrite He. clear He.
  set (ks := match err with Some _ => _ | None => _ end).
  replace (loggingResponseWriter.statusCode (Response_rw (logged ks c)))
    with (loggingResponseWriter.statusCode (Response_rw c)) by done.
  destruct (Z.eqb _ 0).
  - rewrite WTF_logged, logged_app.
    change (with_Log _ (logged ?l c)) with (logged [RequestLoggerBase.CWriteLogs] (logged l c)).
    by rewrite logged_app, <- app_assoc.
  - change (with_Log _ (logged ?l c)) with (logged [RequestLoggerBase.CWriteLogs] (logged l c)).
    by rewrite logged_app.
Qed.

Lemma count_postconditions (goroutine : string) (err : option Go.error)
    (status : Z) :
  let post := postconditions goroutine err status in
  count RequestLoggerBase.is_CError post = (match err with Some _ => 1 | None => 0 end)%nat /\
  count (RequestLoggerBase.is_CWTF_with "Handler didn't write a response") post
    = (if Z.eqb status 0 then 1 else 0)%nat /\
  count RequestLoggerBase.is_CWTF post = (if Z.eqb status 0 then 2 else 0)%nat /\
  count RequestLoggerBase.is_CWriteLogs post = 1%nat /\
  last post = Some RequestLoggerBase.CWriteLogs.
Proof.
  unfold postconditions, count.
  generalize (String.substring 0 RequestLogger.stBufLen goroutine); intros st.
  destruct err as [e|], (Z.eqb status 0); split_and!; reflexivity.
Qed.

(** C2. Once the composed handler has returned, the closure of
    [handlerShim] makes these sink calls and no other, in this order: one
    [Error] carrying the handler's error if it returned one; if the tracked
    status is still 0, one [WTF] with "Handler didn't write a response"
    (followed by the stack trace that every [WTF] of the facade adds); one
    [WriteLogs], last and in every case. The closure returns normally, with
    the response tracker as the handler left it. *)
Theorem handlerShim_postconditions (h : Handler W S)
    (srv : HandlerGroup.Server) (goroutine : string) (rw : W)
    (req : http.Request) (p : httprouter.Params) newRequestLogger :
  HandlerGroup.NewRequestLogger srv = Some newRequestLogger ->
  let r := h (fresh_context newRequestLogger rw req p) in
  let err := fst r in
  let status := loggingResponseWriter.statusCode (Response_rw (snd r)) in
  let post := postconditions goroutine err status in
  HandlerGroup.handlerShim_closure h srv goroutine rw req p
    = Some (logged post (snd r)) /\
  (forall e, err = Some e ->
     head post = Some (RequestLoggerBase.CError
                         ("Error returned from request handler: "
                          +:+ Go.Error e))) /\
  count RequestLoggerBase.is_CError post = (match err with Some _ => 1 | None => 0 end)%nat /\
  count (RequestLoggerBase.is_CWTF_with "Handler didn't write a response") post
    = (if Z.eqb status 0 then 1 else 0)%nat /\
  count RequestLoggerBase.is_CWriteLogs post = 1%nat /\
  last post = Some RequestLoggerBase.CWriteLogs /\
  Response_rw (logged post (snd r)) = Response_rw (snd r).
Proof.
  intros Hf r err status post.
  pose proof (count_postconditions goroutine err status)
    as (Herr & Hwtf & _ & Hflush & Hlast).
  split_and!; try done.
  - by apply handlerShim_closure_eq.
  - intros e He. subst post. by rewrite He.
Qed.

(** C10. The middleware made by [ClassicMiddlewareShim] serves the request
    through the classic middleware, to which it gives a next handler that
    runs [n] on the context of the request, whatever writer and request it
    is called with, and drops what [n] returns; the composed handler
    returns nil. Under the lifecycle this means no [Error] call reaches the
    sink for an error returned by [n]. *)
Theorem ClassicMiddlewareShim_discards_error
    (classicMiddleware : @Middleware.http_Handler W S -> @Middleware.http_Handler W S)
    (n : Handler W S) (c : Context W S)
    (srv : HandlerGroup.Server) (goroutine : string) (rw : W)
    (req : http.Request) (p : httprouter.Params) newRequestLogger :
  HandlerGroup.NewRequestLogger srv = Some newRequestLogger ->
  let next := Middleware.HandlerFunc (fun _ _ c' => snd (n c')) in
  let shimmed := Middleware.ClassicMiddlewareShim classicMiddleware n in
  let r := shimmed (fresh_context newRequestLogger rw req p) in
  let status := loggingResponseWriter.statusCode (Response_rw (snd r)) in
  shimmed c
    = (None,
       Middleware.ServeHTTP (classicMiddleware next)
         Middleware.Response_rw_value (Request_req c) c) /\
  (forall v req' c', Middleware.ServeHTTP next v req' c' = snd (n c')) /\
  Middleware.ClassicMiddlewareShim (fun next => next) n c = (None, snd (n c)) /\
  HandlerGroup.handlerShim_closure shimmed srv goroutine rw req p
    = Some (logged (postconditions goroutine None status) (snd r)) /\
  count RequestLoggerBase.is_CError (postconditions goroutine None status)
    = 0%nat.
Proof.
  intros Hf next shimmed r status.
  split_and!; try done.
  - by rewrite (handlerShim_closure_eq shimmed srv goroutine rw req p _ Hf).
  - apply (count_postconditions goroutine None status).
Qed.

End LifecycleFacts.

(** C2, witness. An error and no response: Error, then the fatal bug with
    its stack trace, then the flush. *)
Lemma handlerShim_postconditions_witness :
  HandlerGroup.NewRequestLogger example_server = Some (fun _ _ _ => []) /\
  (fun c => RequestLogger.b (Log c)) <$>
    HandlerGroup.handlerShim_closure failing_handler example_server
      "goroutine 1 [running]:" blank_recorder example_request []
  = Some [RequestLoggerBase.CError "Error returned from request handler: boom";
          RequestLoggerBase.CWTF "Handler didn't write a response";
          RequestLoggerBase.CWTF
            (RequestLogger.stackTracePrefix +:+ "goroutine 1 [running]:");
          RequestLoggerBase.CWriteLogs].
Proof.
  split; [reflexivity |].
  rewrite (proj1 (handlerShim_postconditions failing_handler example_server
    "goroutine 1 [running]:" blank_recorder example_request [] _ eq_refl)).
  vm_compute. reflexivity.
Defined.

(** C10, witness. The same handler behind a classic middleware that only
    calls next: the error is gone, the fatal bug and the flush remain. *)
Lemma ClassicMiddlewareShim_discards_error_witness :
  HandlerGroup.NewRequestLogger example_server = Some (fun _ _ _ => []) /\
  (fun c => RequestLogger.b (Log c)) <$>
    HandlerGroup.handlerShim_closure
      (Middleware.ClassicMiddlewareShim (fun next => next) failing_handler)
      example_server "goroutine 1 [running]:" blank_recorder example_request []
  = Some [RequestLoggerBase.CWTF "Handler didn't write a response";
          RequestLoggerBase.CWTF
            (RequestLogger.stackTracePrefix +:+ "goroutine 1 [running]:");
          RequestLoggerBase.CWriteLogs].
Proof.
  split; [reflexivity |].
  rewrite (proj1 (proj2 (proj2 (proj2
    (ClassicMiddlewareShim_discards_error (fun next => next) failing_handler
       (example_ctx ∅ []) example_server "goroutine 1 [running]:"
       blank_recorder example_request [] _ eq_refl))))).
  vm_compute. reflexivity.
Defined.

(** ** Handler groups *)

Section GroupFacts.
Context {W S : Type} `{!http.ResponseWriter.t W} `{!RequestLoggerBase.t S}
  `{!Go.Fmt} `{!slice.Growth}.

Abbreviation Mw := (@Middleware.t W S).
Abbreviation Store := (@HandlerGroup.Store W S).

Lemma chain_app (ms ms' : list Mw) (leaf : Handler W S) :
  chain (ms ++ ms') leaf = chain ms (chain ms' leaf).
Proof. induction ms as [|m ms IH]; simpl; [done | by rewrite IH]. Qed.

Lemma middlewareHandler_loop_chain (ms : list Mw) (k : nat)
    (fullHandler : Handler W S) :
  (k <= length ms)%nat ->
  HandlerGroup.middlewareHandler_loop (Some <$> ms) k fullHandler
  = Some (chain (take k ms) fullHandler).
Proof.
  revert fullHandler. induction k as [|i IH]; intros fullHandler Hk.
  - by rewrite take_0.
  - simpl. destruct (lookup_lt_is_Some_2 ms i) as [m Hm]; [lia |].
    rewrite list_lookup_fmap, Hm. simpl.
    rewrite IH by lia.
    by rewrite (take_S_r _ _ _ Hm), chain_app.
Qed.

Lemma middlewareHandler_chain (st : Store) (hg : nat) (ms : list Mw)
    (userHandler : Handler W S) :
  is_Some (HandlerGroup.groups st !! hg) ->
  HandlerGroup.mlist st hg = Some <$> ms ->
  HandlerGroup.middlewareHandler hg userHandler st
  = Some (chain ms userHandler, st).
Proof.
  intros [g Hg] Hms.
  unfold HandlerGroup.middlewareHandler, HandlerGroup.bind, HandlerGroup.deref.
  unfold HandlerGroup.mlist in Hms. rewrite Hg in Hms. rewrite Hg, Hms.
  rewrite length_fmap, middlewareHandler_loop_chain by done.
  by rewrite firstn_all.
Qed.

Lemma mlist_eq (st : Store) (hg : nat) (g : HandlerGroup.t) :
  HandlerGroup.groups st !! hg = Some g ->
  HandlerGroup.mlist st hg
  = slice.elems (HandlerGroup.arrays st) (HandlerGroup.middlewareList g).
Proof. intros Hg. unfold HandlerGroup.mlist. by rewrite Hg. Qed.

(** Installing the group [g'] at [p], over an array that no other group
    uses, keeps the invariant and leaves the other groups as they were. *)
Lemma install_spec (st : Store) (p : nat) (g' : HandlerGroup.t)
    (arr' : list (option Mw)) (ms' : list Mw) :
  let sl := HandlerGroup.middlewareList g' in
  let st' := installed st p g' arr' in
  wf st ->
  (forall q gq, q <> p -> HandlerGroup.groups st !! q = Some gq ->
     slice.array (HandlerGroup.middlewareList gq) <> slice.array sl) ->
  length arr' = slice.cap sl ->
  (slice.len sl <= slice.cap sl)%nat ->
  take (slice.len sl) arr' = Some <$> ms' ->
  wf st' /\
  HandlerGroup.groups st' !! p = Some g' /\
  HandlerGroup.mlist st' p = Some <$> ms' /\
  (forall q, q <> p ->
     HandlerGroup.groups st' !! q = HandlerGroup.groups st !! q /\
     HandlerGroup.mlist st' q = HandlerGroup.mlist st q) /\
  HandlerGroup.router st' = HandlerGroup.router st /\
  HandlerGroup.server st' = HandlerGroup.server st.
Proof.
  intros sl st' [Hown Hsep] Hother Hlen Hcap Htake.
  assert (Hp : HandlerGroup.groups st' !! p = Some g')
    by apply lookup_insert_eq.
  assert (Hq : forall q, q <> p ->
            HandlerGroup.groups st' !! q = HandlerGroup.groups st !! q).
  { intros q Hne. subst st'. unfold installed. simpl.
    by rewrite lookup_insert_ne. }
  assert (Harr : HandlerGroup.arrays st' !! slice.array sl = Some arr')
    by apply lookup_insert_eq.
  assert (Hkeep : forall q gq, q <> p ->
            HandlerGroup.groups st !! q = Some gq ->
            HandlerGroup.arrays st'
              !! slice.array (HandlerGroup.middlewareList gq)
            = HandlerGroup.arrays st
              !! slice.array (HandlerGroup.middlewareList gq)).
  { intros q gq Hne Hgq. subst st'. unfold installed. simpl.
    rewrite lookup_insert_ne; [done |].
    intros Heq. by apply (Hother q gq Hne Hgq). }
  split_and!; try done.
  - split.
    + intros q gq Hgq. destruct (decide (q = p)) as [-> | Hne].
      * rewrite Hp in Hgq. injection Hgq as <-.
        by exists arr', ms'.
      * rewrite Hq in Hgq by done.
        destruct (Hown _ _ Hgq) as (arr & ms & Ha & Hl & Hc & Ht).
        exists arr, ms. by rewrite (Hkeep q gq).
    + intros q1 q2 g1 g2 Hg1 Hg2 Hne.
      destruct (decide (q1 = p)) as [-> | Hne1];
        destruct (decide (q2 = p)) as [-> | Hne2]; try done.
      * rewrite Hp in Hg1. injection Hg1 as <-.
        rewrite Hq in Hg2 by done.
        intros Heq. by apply (Hother q2 g2 Hne2 Hg2).
      * rewrite Hp in Hg2. injection Hg2 as <-.
        rewrite Hq in Hg1 by done.
        by apply (Hother q1 g1 Hne1 Hg1).
      * rewrite Hq in Hg1, Hg2 by done. by apply (Hsep q1 q2).
  - rewrite (mlist_eq st' p g' Hp). unfold slice.elems. fold sl.
    by rewrite (lookup_total_correct _ _ _ Harr).
  - intros q Hne. split; [by apply Hq |].
    unfold HandlerGroup.mlist. rewrite (Hq q Hne).
    destruct (HandlerGroup.groups st !! q) as [gq|] eqn:Hgq; [|done].
    unfold slice.elems. f_equal.
    unfold lookup_total, map_lookup_total. by rewrite (Hkeep q gq).
Qed.

Lemma AddMiddleware_spec (st : Store) (hg : nat) (g : HandlerGroup.t)
    (m : list Mw) :
  wf st -> HandlerGroup.groups st !! hg = Some g ->
  exists st',
    HandlerGroup.AddMiddleware hg m st = Some (tt, st') /\
    wf st' /\
    HandlerGroup.mlist st' hg = HandlerGroup.mlist st hg ++ (Some <$> m) /\
    (forall q, q <> hg ->
       HandlerGroup.groups st' !! q = HandlerGroup.groups st !! q /\
       HandlerGroup.mlist st' q = HandlerGroup.mlist st q) /\
    HandlerGroup.prefix_of st' hg = HandlerGroup.prefix_of st hg /\
    HandlerGroup.router st' = HandlerGroup.router st /\
    HandlerGroup.server st' = HandlerGroup.server st.
Proof.
  intros Hwf Hg. pose proof Hwf as [Hown Hsep].
  destruct (Hown _ _ Hg) as (arr & ms & Harr & Hlen & Hcap & Htake).
  unfold HandlerGroup.AddMiddleware, HandlerGroup.bind, HandlerGroup.deref,
    HandlerGroup.on_arrays, HandlerGroup.assign_middlewareList,
    HandlerGroup.bind, HandlerGroup.deref, slice.append.
  rewrite Hg.
  rewrite (lookup_total_correct _ _ _ Harr).
  rewrite (mlist_eq st hg g Hg). unfold slice.elems.
  rewrite (lookup_total_correct _ _ _ Harr).
  unfold HandlerGroup.prefix_of at 2. rewrite Hg.
  destruct g as [par [a n c] bp]; simpl in *.
  destruct (n + length m <=? c)%nat eqn:Hfit; simpl; rewrite Hg; simpl.
  - apply Nat.leb_le in Hfit.
    set (g' := {| HandlerGroup.parent := par;
         HandlerGroup.middlewareList :=
           {| slice.array := a; slice.len := n + length m; slice.cap := c |};
         HandlerGroup.basePath := bp |}).
    set (arr' := take n arr ++ (Some <$> m) ++ drop (n + length m) arr).
    exists (installed st hg g' arr'). split; [reflexivity |].
    destruct (install_spec st hg g' arr' (ms ++ m))
      as (Hwf' & Hp & Hml & Hq & Hr & Hs); subst g' arr'; simpl; try done.
    + intros q gq Hne Hgq. by apply (Hsep q hg gq _ Hgq Hg).
    + rewrite !length_app, length_take, length_fmap, length_drop. lia.
    + rewrite take_app_ge by (rewrite length_take; lia).
      rewrite length_take, Nat.min_l by lia.
      replace (n + length m - n)%nat with (length (Some <$> m))
        by (rewrite length_fmap; lia).
      rewrite take_app_length. by rewrite Htake, fmap_app.
    + split_and!; try done.
      * by rewrite Hml, Htake, fmap_app.
      * unfold HandlerGroup.prefix_of. by rewrite Hp.
  - apply Nat.leb_gt in Hfit.
    set (a' := fresh (dom (HandlerGroup.arrays st))).
    set (c' := slice.growslice c (n + length m)).
    assert (Hc' : (n + length m <= c')%nat) by apply slice.growslice_enough.
    assert (Hfresh : HandlerGroup.arrays st !! a' = None).
    { apply not_elem_of_dom. apply is_fresh. }
    set (g' := {| HandlerGroup.parent := par;
         HandlerGroup.middlewareList :=
           {| slice.array := a'; slice.len := n + length m; slice.cap := c' |};
         HandlerGroup.basePath := bp |}).
    set (arr' := take n arr ++ (Some <$> m)
                 ++ replicate (c' - (n + length m)) None).
    exists (installed st hg g' arr'). split; [reflexivity |].
    destruct (install_spec st hg g' arr' (ms ++ m))
      as (Hwf' & Hp & Hml & Hq & Hr & Hs); subst g' arr'; simpl; try done.
    + intros q gq Hne Hgq Heq.
      destruct (Hown _ _ Hgq) as (arrq & msq & Haq & _).
      rewrite Heq in Haq. by rewrite Haq in Hfresh.
    + rewrite !length_app, length_take, length_fmap, length_replicate. lia.
    + rewrite take_app_ge by (rewrite length_take; lia).
      rewrite length_take, Nat.min_l by lia.
      replace (n + length m - n)%nat with (length (Some <$> m))
        by (rewrite length_fmap; lia).
      rewrite take_app_length. by rewrite Htake, fmap_app.
    + split_and!; try done.
      * by rewrite Hml, Htake, fmap_app.
      * unfold HandlerGroup.prefix_of. by rewrite Hp.
Qed.

Lemma GetHandlerGroup_spec (st : Store) (ohg : nat) (o : HandlerGroup.t)
    (subPath : string) :
  wf st -> HandlerGroup.groups st !! ohg = Some o ->
  exists hg st',
    HandlerGroup.GetHandlerGroup ohg subPath st = Some (hg, st') /\
    wf st' /\
    HandlerGroup.groups st !! hg = None /\
    HandlerGroup.prefix_of st' hg
      = Some (HandlerGroup.basePath o +:+ subPath) /\
    HandlerGroup.mlist st' hg = HandlerGroup.mlist st ohg /\
    (forall q, q <> hg ->
       HandlerGroup.groups st' !! q = HandlerGroup.groups st !! q /\
       HandlerGroup.mlist st' q = HandlerGroup.mlist st q) /\
    HandlerGroup.router st' = HandlerGroup.router st /\
    HandlerGroup.server st' = HandlerGroup.server st.
Proof.
  intros Hwf Ho. pose proof Hwf as [Hown Hsep].
  destruct (Hown _ _ Ho) as (arr & ms & Harr & Hlen & Hcap & Htake).
  set (a := fresh (dom (HandlerGroup.arrays st))).
  set (p := fresh (dom (HandlerGroup.groups st))).
  assert (Ha : HandlerGroup.arrays st !! a = None)
    by (apply not_elem_of_dom, is_fresh).
  assert (Hp : HandlerGroup.groups st !! p = None)
    by (apply not_elem_of_dom, is_fresh).
  assert (Hpo : ohg <> p) by (intros ->; by rewrite Hp in Ho).
  assert (Hao : slice.array (HandlerGroup.middlewareList o) <> a)
    by (intros Heq; by rewrite Heq, Ha in Harr).
  unfold HandlerGroup.GetHandlerGroup, HandlerGroup.bind, HandlerGroup.deref,
    HandlerGroup.on_arrays, HandlerGroup.new, HandlerGroup.ret,
    slice.make, slice.copy.
  rewrite Ho. simpl. fold a. fold p.
  rewrite lookup_insert_eq. simpl.
  rewrite lookup_insert_ne, Ho by done. simpl.
  rewrite Nat.min_id, lookup_total_insert_eq, lookup_total_insert_ne by done.
  rewrite (lookup_total_correct _ _ _ Harr).
  rewrite drop_replicate, Nat.sub_diag, app_nil_r, insert_insert_eq.
  set (n := slice.len (HandlerGroup.middlewareList o)) in *.
  set (g' := {| HandlerGroup.parent := Some ohg;
       HandlerGroup.middlewareList :=
         {| slice.array := a; slice.len := n; slice.cap := n |};
       HandlerGroup.basePath := HandlerGroup.basePath o +:+ subPath |}).
  exists p, (installed st p g' (take n arr)). split; [reflexivity |].
  destruct (install_spec st p g' (take n arr) ms)
    as (Hwf' & Hp' & Hml & Hq & Hr & Hs); subst g'; simpl; try done.
  - intros q gq Hne Hgq Heq.
    destruct (Hown _ _ Hgq) as (arrq & msq & Haq & _).
    rewrite Heq in Haq. by rewrite Haq in Ha.
  - rewrite length_take. lia.
  - by rewrite take_take, Nat.min_id.
  - split_and!; try done.
    + unfold HandlerGroup.prefix_of. by rewrite Hp'.
    + rewrite Hml, (mlist_eq st ohg o Ho). unfold slice.elems.
      by rewrite (lookup_total_correct _ _ _ Harr).
Qed.

Lemma Server_GetHandlerGroup_spec (st : Store) (path : string) :
  wf st ->
  exists hg st',
    HandlerGroup.Server_GetHandlerGroup path st = Some (hg, st') /\
    wf st' /\
    HandlerGroup.groups st !! hg = None /\
    HandlerGroup.prefix_of st' hg = Some path /\
    HandlerGroup.mlist st' hg = [] /\
    (forall q, q <> hg ->
       HandlerGroup.groups st' !! q = HandlerGroup.groups st !! q /\
       HandlerGroup.mlist st' q = HandlerGroup.mlist st q) /\
    HandlerGroup.router st' = HandlerGroup.router st /\
    HandlerGroup.server st' = HandlerGroup.server st.
Proof.
  intros Hwf. pose proof Hwf as [Hown Hsep].
  set (a := fresh (dom (HandlerGroup.arrays st))).
  set (p := fresh (dom (HandlerGroup.groups st))).
  assert (Ha : HandlerGroup.arrays st !! a = None)
    by (apply not_elem_of_dom, is_fresh).
  assert (Hp : HandlerGroup.groups st !! p = None)
    by (apply not_elem_of_dom, is_fresh).
  unfold HandlerGroup.Server_GetHandlerGroup, HandlerGroup.bind,
    HandlerGroup.on_arrays, HandlerGroup.new, slice.make.
  simpl. fold a. fold p.
  set (g' := {| HandlerGroup.parent := None;
       HandlerGroup.middlewareList :=
         {| slice.array := a; slice.len := 0; slice.cap := 0 |};
       HandlerGroup.basePath := path |}).
  exists p, (installed st p g' []). split; [reflexivity |].
  destruct (install_spec st p g' [] [])
    as (Hwf' & Hp' & Hml & Hq & Hr & Hs); subst g'; simpl; try done.
  - intros q gq Hne Hgq Heq.
    destruct (Hown _ _ Hgq) as (arrq & msq & Haq & _).
    rewrite Heq in Haq. by rewrite Haq in Ha.
  - split_and!; try done.
    unfold HandlerGroup.prefix_of. by rewrite Hp'.
Qed.

Lemma wf_NewServer : wf (@HandlerGroup.NewServer W S).
Proof.
  split.
  - intros p g Hg. simpl in Hg. by rewrite lookup_empty in Hg.
  - intros p q g g' Hg. simpl in Hg. by rewrite lookup_empty in Hg.
Qed.

Lemma wf_mlist (st : Store) (hg : nat) (g : HandlerGroup.t) :
  wf st -> HandlerGroup.groups st !! hg = Some g ->
  exists ms, HandlerGroup.mlist st hg = Some <$> ms.
Proof.
  intros [Hown _] Hg.
  destruct (Hown _ _ Hg) as (arr & ms & Harr & _ & _ & Htake).
  exists ms. rewrite (mlist_eq st hg g Hg). unfold slice.elems.
  by rewrite (lookup_total_correct _ _ _ Harr).
Qed.

Lemma route_spec (st : Store) (method : httprouter.method) (hg : nat)
    (g : HandlerGroup.t) (path : string) (h : Handler W S) (ms : list Mw) :
  HandlerGroup.groups st !! hg = Some g ->
  HandlerGroup.mlist st hg = Some <$> ms ->
  HandlerGroup.route method hg path h st
  = Some (tt, HandlerGroup.with_router
                (fun r => r ++ [(method, HandlerGroup.basePath g +:+ path,
                                 HandlerGroup.handlerShim_closure (chain ms h))])
                st).
Proof.
  intros Hg Hms.
  unfold HandlerGroup.route, HandlerGroup.handlerShim.
  unfold HandlerGroup.bind at 1. unfold HandlerGroup.deref at 1. rewrite Hg.
  unfold HandlerGroup.bind at 1. unfold HandlerGroup.bind at 1.
  by rewrite (middlewareHandler_chain st hg ms h) by done.
Qed.

Lemma wf_with_router (st : Store) f :
  wf st -> wf (HandlerGroup.with_router f st).
Proof. by intros [Hown Hsep]. Qed.

Lemma deref_None {A : Type} (st : Store) (hg : nat)
    (k : HandlerGroup.t -> HandlerGroup.M A) :
  HandlerGroup.groups st !! hg = None ->
  HandlerGroup.bind (HandlerGroup.deref hg) k st = None.
Proof.
  intros Hg. unfold HandlerGroup.bind, HandlerGroup.deref. by rewrite Hg.
Qed.

Lemma added_cons (hg : nat) (o : @op W S) (ops : list (@op W S)) :
  added hg (o :: ops) = added_by hg o ++ added hg ops.
Proof. destruct o; simpl; try done. by destruct (Nat.eqb _ _). Qed.

(** One registration call that returns: the invariant is kept, the router
    has only received more, and every group that existed still exists, with
    the same prefix and with its list extended by what the call added to
    that very group. *)
Lemma run_op_spec (st st' : Store) (o : @op W S) :
  wf st -> run_op o st = Some (tt, st') ->
  wf st' /\
  (exists more, HandlerGroup.router st' = HandlerGroup.router st ++ more) /\
  (forall q, is_Some (HandlerGroup.groups st !! q) ->
     is_Some (HandlerGroup.groups st' !! q) /\
     HandlerGroup.prefix_of st' q = HandlerGroup.prefix_of st q /\
     HandlerGroup.mlist st' q
       = HandlerGroup.mlist st q ++ (Some <$> added_by q o)).
Proof.
  intros Hwf Hrun. destruct o as [path | ohg sub | hg m | method hg path h | f];
    simpl in Hrun.
  - destruct (Server_GetHandlerGroup_spec st path Hwf)
      as (hg & st1 & Hcall & Hwf1 & Hnew & _ & _ & Hq & Hr & _).
    unfold HandlerGroup.bind in Hrun. rewrite Hcall in Hrun.
    injection Hrun as <-. split_and!; [done | exists []; by rewrite app_nil_r |].
    intros q [gq Hgq]. assert (q <> hg) by (intros ->; by rewrite Hnew in Hgq).
    destruct (Hq q) as [Hgs Hml]; [done |].
    unfold HandlerGroup.prefix_of. rewrite Hgs, Hgq, Hml, app_nil_r.
    by split_and!.
  - destruct (HandlerGroup.groups st !! ohg) as [o|] eqn:Ho.
    2: { unfold HandlerGroup.bind at 1 in Hrun.
         unfold HandlerGroup.GetHandlerGroup in Hrun.
         by rewrite deref_None in Hrun. }
    destruct (GetHandlerGroup_spec st ohg o sub Hwf Ho)
      as (hg & st1 & Hcall & Hwf1 & Hnew & _ & _ & Hq & Hr & _).
    unfold HandlerGroup.bind in Hrun. rewrite Hcall in Hrun.
    injection Hrun as <-. split_and!; [done | exists []; by rewrite app_nil_r |].
    intros q [gq Hgq]. assert (q <> hg) by (intros ->; by rewrite Hnew in Hgq).
    destruct (Hq q) as [Hgs Hml]; [done |].
    unfold HandlerGroup.prefix_of. rewrite Hgs, Hgq, Hml, app_nil_r.
    by split_and!.
  - destruct (HandlerGroup.groups st !! hg) as [g|] eqn:Hg.
    2: { unfold HandlerGroup.AddMiddleware in Hrun.
         by rewrite deref_None in Hrun. }
    destruct (AddMiddleware_spec st hg g m Hwf Hg)
      as (st1 & Hcall & Hwf1 & Hml & Hq & Hpre & Hr & _).
    rewrite Hcall in Hrun. injection Hrun as <-.
    split_and!; [done | exists []; by rewrite app_nil_r |].
    intros q [gq Hgq]. unfold added_by.
    destruct (decide (q = hg)) as [-> | Hne].
    + rewrite Nat.eqb_refl. split_and!; try done.
      destruct (HandlerGroup.groups st1 !! hg) eqn:E; [done |].
      unfold HandlerGroup.prefix_of in Hpre. by rewrite E, Hg in Hpre.
    + destruct (Hq q Hne) as [Hgs Hmlq].
      destruct (Nat.eqb_spec hg q) as [-> | _]; [done |].
      unfold HandlerGroup.prefix_of. rewrite Hgs, Hgq, Hmlq, app_nil_r.
      by split_and!.
  - destruct (HandlerGroup.groups st !! hg) as [g|] eqn:Hg.
    2: { unfold HandlerGroup.route in Hrun. by rewrite deref_None in Hrun. }
    destruct (wf_mlist st hg g Hwf Hg) as [ms Hms].
    rewrite (route_spec st method hg g path h ms Hg Hms) in Hrun.
    injection Hrun as <-.
    split_and!; [by apply wf_with_router | by eexists |].
    intros q Hq. by rewrite app_nil_r.
  - unfold HandlerGroup.assign_NewRequestLogger in Hrun.
    injection Hrun as <-.
    split_and!; [by destruct Hwf | exists []; by rewrite app_nil_r |].
    intros q Hq. by rewrite app_nil_r.
Qed.

Lemma run_spec (ops : list (@op W S)) (st st' : Store) :
  wf st -> run ops st = Some (tt, st') ->
  wf st' /\
  (exists more, HandlerGroup.router st' = HandlerGroup.router st ++ more) /\
  (forall q, is_Some (HandlerGroup.groups st !! q) ->
     is_Some (HandlerGroup.groups st' !! q) /\
     HandlerGroup.prefix_of st' q = HandlerGroup.prefix_of st q /\
     HandlerGroup.mlist st' q
       = HandlerGroup.mlist st q ++ (Some <$> added q ops)).
Proof.
  revert st. induction ops as [|o ops IH]; intros st Hwf Hrun.
  - injection Hrun as <-.
    split_and!; [done | exists []; by rewrite app_nil_r |].
    intros q Hq. by rewrite app_nil_r.
  - simpl in Hrun. unfold HandlerGroup.bind in Hrun.
    destruct (run_op o st) as [[[] st1]|] eqn:Hop; [|done].
    destruct (run_op_spec st st1 o Hwf Hop) as (Hwf1 & [more1 Hr1] & Hg1).
    destruct (IH st1 Hwf1 Hrun) as (Hwf' & [more Hr] & Hg).
    split_and!; [done | |].
    + exists (more1 ++ more). by rewrite Hr, Hr1, app_assoc.
    + intros q Hq. destruct (Hg1 q Hq) as (Hq1 & Hp1 & Hm1).
      destruct (Hg q Hq1) as (Hq' & Hp' & Hm').
      split_and!; [done | by rewrite Hp', Hp1 |].
      by rewrite Hm', Hm1, added_cons, fmap_app, app_assoc.
Qed.

Lemma run_adds (ops : list (@op W S)) (st : Store) :
  wf st -> Forall (adds_to_groups st) ops ->
  exists st', run ops st = Some (tt, st') /\
              HandlerGroup.router st' = HandlerGroup.router st /\
              HandlerGroup.server st' = HandlerGroup.server st.
Proof.
  revert st. induction ops as [|o ops IH]; intros st Hwf Hall.
  - by exists st.
  - apply Forall_cons in Hall as [Ho Hall].
    destruct o as [| | hg m | |]; try done.
    destruct Ho as [g Hg].
    destruct (AddMiddleware_spec st hg g m Hwf Hg)
      as (st1 & Hcall & Hwf1 & Hml & Hq & Hpre & Hr & Hs).
    destruct (IH st1 Hwf1) as (st' & Hrun & Hr' & Hs').
    + eapply Forall_impl; [exact Hall |].
      intros [| | hg' m' | |]; simpl; try done.
      intros Hsome. destruct (decide (hg' = hg)) as [-> | Hne].
      * destruct (HandlerGroup.groups st1 !! hg) eqn:E; [done |].
        unfold HandlerGroup.prefix_of in Hpre. by rewrite E, Hg in Hpre.
      * by rewrite (proj1 (Hq hg' Hne)).
    + exists st'. simpl. unfold HandlerGroup.bind. rewrite Hcall.
      split_and!; [done | by rewrite Hr', Hr | by rewrite Hs', Hs].
Qed.

(** C1. The effective handler that a registration builds from the
    middleware list [m0; ...; mk] of the group and the leaf [L] is
    [m0 (m1 (... (mk L)))]: the first middleware of the list is the
    outermost wrapper, an empty list leaves the leaf as it is, and the list
    is in the order of the [AddMiddleware] calls. *)
Theorem middlewareHandler_is_chain (st : Store) (hg : nat) (ms : list Mw)
    (leaf : Handler W S) :
  wf st ->
  is_Some (HandlerGroup.groups st !! hg) ->
  HandlerGroup.mlist st hg = Some <$> ms ->
  HandlerGroup.middlewareHandler hg leaf st = Some (chain ms leaf, st) /\
  HandlerGroup.handlerShim hg leaf st
    = Some (HandlerGroup.handlerShim_closure (chain ms leaf), st) /\
  (forall m, exists st',
     HandlerGroup.AddMiddleware hg m st = Some (tt, st') /\
     HandlerGroup.middlewareHandler hg leaf st'
       = Some (chain (ms ++ m) leaf, st')) /\
  (ms = [] -> HandlerGroup.middlewareHandler hg leaf st = Some (leaf, st)) /\
  (forall m0 rest, ms = m0 :: rest ->
     HandlerGroup.middlewareHandler hg leaf st
       = Some (m0 (chain rest leaf), st)) /\
  (forall m0 m1 m2, ms = [m0; m1; m2] ->
     HandlerGroup.middlewareHandler hg leaf st
       = Some (m0 (m1 (m2 leaf)), st)).
Proof.
  intros Hwf Hg Hms.
  pose proof (middlewareHandler_chain st hg ms leaf Hg Hms) as Hmh.
  split_and!; try done.
  - unfold HandlerGroup.handlerShim, HandlerGroup.bind. by rewrite Hmh.
  - intros m. destruct Hg as [g Hg].
    destruct (AddMiddleware_spec st hg g m Hwf Hg)
      as (st' & Hcall & Hwf' & Hml & Hq & Hpre & _).
    exists st'. split; [done |].
    apply middlewareHandler_chain.
    + destruct (HandlerGroup.groups st' !! hg) eqn:E; [done |].
      unfold HandlerGroup.prefix_of in Hpre. by rewrite E, Hg in Hpre.
    + by rewrite Hml, Hms, fmap_app.
  - by intros ->.
  - by intros m0 rest ->.
  - by intros m0 m1 m2 ->.
Qed.

(** C3. A child derived from the group [P] has the prefix of [P] followed
    by the sub-path and a middleware list equal to the list of [P] at that
    moment. From then on the two lists are independent: whatever
    registration calls follow, each list is its value at the derivation
    followed by what was added to that very group. *)
Theorem GetHandlerGroup_copies (st : Store) (P : nat) (g : HandlerGroup.t)
    (subPath : string) :
  wf st -> HandlerGroup.groups st !! P = Some g ->
  exists C st1,
    HandlerGroup.GetHandlerGroup P subPath st = Some (C, st1) /\
    C <> P /\
    HandlerGroup.prefix_of st1 C
      = Some (HandlerGroup.basePath g +:+ subPath) /\
    HandlerGroup.mlist st1 C = HandlerGroup.mlist st P /\
    HandlerGroup.mlist st1 P = HandlerGroup.mlist st P /\
    (forall m, exists st2,
       HandlerGroup.AddMiddleware P m st1 = Some (tt, st2) /\
       HandlerGroup.mlist st2 C = HandlerGroup.mlist st1 C /\
       HandlerGroup.mlist st2 P = HandlerGroup.mlist st1 P ++ (Some <$> m)) /\
    (forall m, exists st2,
       HandlerGroup.AddMiddleware C m st1 = Some (tt, st2) /\
       HandlerGroup.mlist st2 P = HandlerGroup.mlist st1 P /\
       HandlerGroup.mlist st2 C = HandlerGroup.mlist st1 C ++ (Some <$> m)) /\
    (forall ops st2, run ops st1 = Some (tt, st2) ->
       HandlerGroup.mlist st2 C
         = HandlerGroup.mlist st1 C ++ (Some <$> added C ops) /\
       HandlerGroup.mlist st2 P
         = HandlerGroup.mlist st1 P ++ (Some <$> added P ops)) /\
    (forall ops, Forall (adds_to_groups st1) ops ->
       exists st2, run ops st1 = Some (tt, st2)).
Proof.
  intros Hwf Hg.
  destruct (GetHandlerGroup_spec st P g subPath Hwf Hg)
    as (C & st1 & Hcall & Hwf1 & Hnew & Hpre & Hml & Hq & _).
  assert (HCP : P <> C) by (intros ->; by rewrite Hnew in Hg).
  destruct (Hq P HCP) as [HgP HmlP].
  assert (HgP1 : HandlerGroup.groups st1 !! P = Some g) by by rewrite HgP.
  assert (HgC1 : is_Some (HandlerGroup.groups st1 !! C)).
  { destruct (HandlerGroup.groups st1 !! C) eqn:E; [done |].
    unfold HandlerGroup.prefix_of in Hpre. by rewrite E in Hpre. }
  exists C, st1. split_and!; try done.
  - intros m.
    destruct (AddMiddleware_spec st1 P g m Hwf1 HgP1)
      as (st2 & Hadd & _ & HmP & Hoth & _).
    exists st2. split_and!; try done. by apply Hoth.
  - intros m. destruct HgC1 as [gC HgC1].
    destruct (AddMiddleware_spec st1 C gC m Hwf1 HgC1)
      as (st2 & Hadd & _ & HmC & Hoth & _).
    exists st2. split_and!; try done. by apply Hoth.
  - intros ops st2 Hrun.
    destruct (run_spec ops st1 st2 Hwf1 Hrun) as (_ & _ & Hgroups).
    split.
    + by apply Hgroups.
    + apply Hgroups. by rewrite HgP1.
  - intros ops Hall. destruct (run_adds ops st1 Hwf1 Hall) as (st2 & Hrun & _).
    by exists st2.
Qed.

(** C6. Registering a route hands to the router the closure over the chain
    of the group's middleware list as it is at that moment. Middleware
    added to the group afterwards lengthens the list but leaves what the
    router holds untouched; whatever registration calls follow, the entry
    stays where it is and as it is. *)
Theorem route_snapshots_chain (st : Store) (method : httprouter.method)
    (hg : nat) (g : HandlerGroup.t) (path : string) (h : Handler W S)
    (ms : list Mw) :
  wf st -> HandlerGroup.groups st !! hg = Some g ->
  HandlerGroup.mlist st hg = Some <$> ms ->
  let entry := (method, HandlerGroup.basePath g +:+ path,
                HandlerGroup.handlerShim_closure (chain ms h)) in
  exists st1,
    HandlerGroup.route method hg path h st = Some (tt, st1) /\
    HandlerGroup.router st1 = HandlerGroup.router st ++ [entry] /\
    HandlerGroup.mlist st1 hg = Some <$> ms /\
    (forall m, exists st2,
       HandlerGroup.AddMiddleware hg m st1 = Some (tt, st2) /\
       HandlerGroup.mlist st2 hg = Some <$> (ms ++ m) /\
       HandlerGroup.router st2 = HandlerGroup.router st1) /\
    (forall ops, Forall (adds_to_groups st1) ops ->
       exists st2, run ops st1 = Some (tt, st2) /\
                   HandlerGroup.router st2 = HandlerGroup.router st1) /\
    (forall ops st2, run ops st1 = Some (tt, st2) ->
       HandlerGroup.router st2 !! length (HandlerGroup.router st)
         = Some entry).
Proof.
  intros Hwf Hg Hms entry.
  eexists. split; [by apply (route_spec st method hg g path h ms) |].
  match goal with |- HandlerGroup.router ?s = _ /\ _ => set (st1 := s) end.
  assert (Hwf1 : wf st1) by by apply wf_with_router.
  split_and!; try done.
  - intros m.
    destruct (AddMiddleware_spec st1 hg g m Hwf1 Hg)
      as (st2 & Hadd & _ & Hml & _ & _ & Hr & _).
    exists st2. split_and!; try done.
    rewrite Hml. change (HandlerGroup.mlist st1 hg)
      with (HandlerGroup.mlist st hg). by rewrite Hms, fmap_app.
  - intros ops Hall.
    destruct (run_adds ops st1 Hwf1 Hall) as (st2 & Hrun & Hr & _).
    by exists st2.
  - intros ops st2 Hrun.
    destruct (run_spec ops st1 st2 Hwf1 Hrun) as (_ & [more Hr] & _).
    rewrite Hr. subst st1. simpl.
    rewrite <- app_assoc. rewrite lookup_app_r by done.
    by rewrite Nat.sub_diag.
Qed.

End GroupFacts.

(** ** A worked registration *)

Lemma example_store_run :
  run example_program HandlerGroup.NewServer = Some (tt, example_store).
Proof. vm_compute. reflexivity. Qed.

Lemma example_store_wf : wf example_store.
Proof.
  exact (proj1 (run_spec example_program _ _ wf_NewServer example_store_run)).
Qed.

Lemma example_store_group :
  HandlerGroup.prefix_of example_store 0 = Some "/api" /\
  HandlerGroup.mlist example_store 0
  = Some <$> [marker "m0"; marker "m1"; marker "m2"].
Proof. vm_compute. split; reflexivity. Qed.

Lemma example_store_lookup :
  HandlerGroup.groups example_store !! 0%nat = Some example_group.
Proof. vm_compute. reflexivity. Qed.

(** C1, witness. The chain of the worked registration enters m0, m1, m2 in
    this order, runs the leaf, and leaves in the reverse order. *)
Lemma middlewareHandler_is_chain_witness :
  wf example_store /\
  is_Some (HandlerGroup.groups example_store !! 0%nat) /\
  HandlerGroup.mlist example_store 0
    = Some <$> [marker "m0"; marker "m1"; marker "m2"] /\
  exists full,
    HandlerGroup.middlewareHandler 0 leaf_204 example_store
      = Some (full, example_store) /\
    full = marker "m0" (marker "m1" (marker "m2" leaf_204)) /\
    RequestLogger.b (Log (snd (full (example_ctx ∅ []))))
    = [RequestLoggerBase.CInfo "enter m0"; RequestLoggerBase.CInfo "enter m1";
       RequestLoggerBase.CInfo "enter m2"; RequestLoggerBase.CInfo "leaf";
       RequestLoggerBase.CInfo "exit m2"; RequestLoggerBase.CInfo "exit m1";
       RequestLoggerBase.CInfo "exit m0"].
Proof.
  assert (Hg : is_Some (HandlerGroup.groups example_store !! 0%nat))
    by (rewrite example_store_lookup; by eexists).
  split_and!; [exact example_store_wf | exact Hg |
               exact (proj2 example_store_group) |].
  exists (chain [marker "m0"; marker "m1"; marker "m2"] leaf_204).
  split_and!.
  - exact (proj1 (middlewareHandler_is_chain example_store 0 _ leaf_204
             example_store_wf Hg (proj2 example_store_group))).
  - reflexivity.
  - vm_compute. reflexivity.
Defined.

(** C3, witness. A child /v1 of the worked group, then a late middleware on
    the parent, which lands in the spare cell of the parent's array: the
    child keeps the three it copied. *)
Lemma GetHandlerGroup_copies_witness :
  wf example_store /\
  HandlerGroup.groups example_store !! 0%nat = Some example_group /\
  exists C st1 st2,
    HandlerGroup.GetHandlerGroup 0 "/v1" example_store = Some (C, st1) /\
    HandlerGroup.prefix_of st1 C = Some "/api/v1" /\
    HandlerGroup.AddMiddleware 0 [marker "late"] st1 = Some (tt, st2) /\
    HandlerGroup.mlist st2 C
      = Some <$> [marker "m0"; marker "m1"; marker "m2"] /\
    HandlerGroup.mlist st2 0
      = Some <$> [marker "m0"; marker "m1"; marker "m2"; marker "late"].
Proof.
  split_and!; [exact example_store_wf | exact example_store_lookup |].
  destruct (GetHandlerGroup_copies example_store 0 example_group "/v1"
              example_store_wf example_store_lookup)
    as (C & st1 & Hcall & _ & Hpre & HmlC & HmlP & Hadd & _).
  destruct (Hadd [marker "late"]) as (st2 & Hlate & HC & HP).
  exists C, st1, st2. split_and!; try done.
  - by rewrite HC, HmlC, (proj2 example_store_group).
  - by rewrite HP, HmlP, (proj2 example_store_group).
Defined.

(** C6, witness. A route registered on the worked group, then a late
    middleware: the router still holds the chain of the three. *)
Lemma route_snapshots_chain_witness :
  wf example_store /\
  HandlerGroup.groups example_store !! 0%nat = Some example_group /\
  HandlerGroup.mlist example_store 0
    = Some <$> [marker "m0"; marker "m1"; marker "m2"] /\
  exists st1 st2,
    HandlerGroup.GET 0 "/items" leaf_204 example_store = Some (tt, st1) /\
    HandlerGroup.AddMiddleware 0 [marker "late"] st1 = Some (tt, st2) /\
    HandlerGroup.mlist st2 0
      = Some <$> [marker "m0"; marker "m1"; marker "m2"; marker "late"] /\
    HandlerGroup.router st2
      = [(httprouter.GET, "/api/items",
          HandlerGroup.handlerShim_closure
            (marker "m0" (marker "m1" (marker "m2" leaf_204))))].
Proof.
  split_and!; [exact example_store_wf | exact example_store_lookup |
               exact (proj2 example_store_group) |].
  destruct (route_snapshots_chain example_store httprouter.GET 0 example_group
              "/items" leaf_204 _ example_store_wf example_store_lookup
              (proj2 example_store_group))
    as (st1 & Hcall & Hr & _ & Hadd & _).
  destruct (Hadd [marker "late"]) as (st2 & Hlate & Hml & Hr2).
  exists st1, st2. split_and!; try done.
  by rewrite Hr2, Hr.
Defined.

(** End to end: the route of the worked registration serves a request. *)
Example example_request_served :
  let st := default example_store
              (snd <$> HandlerGroup.GET 0 "/items" leaf_204 example_store) in
  match HandlerGroup.router st with
  | [(method, path, handle)] =>
      method = httprouter.GET /\ path = "/api/items" /\
      (fun c => (RequestLogger.b (Log c),
                 loggingResponseWriter.statusCode (Response_rw c)))
        <$> handle (HandlerGroup.server st) "" blank_recorder example_request []
      = Some ([RequestLoggerBase.CInfo "enter m0";
               RequestLoggerBase.CInfo "enter m1";
               RequestLoggerBase.CInfo "enter m2";
               RequestLoggerBase.CInfo "leaf";
               RequestLoggerBase.CInfo "exit m2";
               RequestLoggerBase.CInfo "exit m1";
               RequestLoggerBase.CInfo "exit m0";
               RequestLoggerBase.CWriteLogs], 204)
  | _ => False
  end.
Proof. vm_compute. repeat split. Qed.

(** * Further properties *)

(** ** Registration *)

Section MoreGroupFacts.
Context {W S : Type} `{!http.ResponseWriter.t W} `{!RequestLoggerBase.t S}
  `{!Go.Fmt} `{!slice.Growth}.

Abbreviation Mw := (@Middleware.t W S).
Abbreviation Store := (@HandlerGroup.Store W S).

Lemma group_of_prefix (st : Store) (hg : nat) (pre : string) :
  HandlerGroup.prefix_of st hg = Some pre ->
  exists g, HandlerGroup.groups st !! hg = Some g /\
            HandlerGroup.basePath g = pre.
Proof.
  unfold HandlerGroup.prefix_of.
  destruct (HandlerGroup.groups st !! hg) as [g|]; [|done].
  simpl. intros [= <-]. by exists g.
Qed.

(** X1. Every store that a program of registration calls builds from
    [NewServer] satisfies the invariant; on such a store the calls on a
    group that exists return (no nil middleware is called, no index is out
    of range), and the calls on an address without a group panic. *)
Theorem reachable_store_is_safe (ops : list (@op W S)) (st : Store) :
  run ops HandlerGroup.NewServer = Some (tt, st) ->
  wf st /\
  (forall hg, is_Some (HandlerGroup.groups st !! hg) ->
     (exists ms, HandlerGroup.mlist st hg = Some <$> ms /\
        forall leaf,
          HandlerGroup.middlewareHandler hg leaf st
          = Some (chain ms leaf, st)) /\
     (forall method path h,
        is_Some (HandlerGroup.route method hg path h st)) /\
     (forall m, is_Some (HandlerGroup.AddMiddleware hg m st)) /\
     (forall subPath, is_Some (HandlerGroup.GetHandlerGroup hg subPath st))) /\
  (forall hg, HandlerGroup.groups st !! hg = None ->
     (forall leaf, HandlerGroup.middlewareHandler hg leaf st = None) /\
     (forall method path h, HandlerGroup.route method hg path h st = None) /\
     (forall m, HandlerGroup.AddMiddleware hg m st = None) /\
     (forall subPath, HandlerGroup.GetHandlerGroup hg subPath st = None)).
Proof.
  intros Hrun.
  destruct (run_spec ops _ _ wf_NewServer Hrun) as (Hwf & _ & _).
  split_and!; [done | |].
  - intros hg [g Hg]. destruct (wf_mlist st hg g Hwf Hg) as [ms Hms].
    split_and!.
    + exists ms. split; [done |]. intros leaf.
      by apply middlewareHandler_chain.
    + intros method path h.
      by rewrite (route_spec st method hg g path h ms Hg Hms).
    + intros m.
      destruct (AddMiddleware_spec st hg g m Hwf Hg) as (st' & -> & _).
      by eexists.
    + intros subPath.
      destruct (GetHandlerGroup_spec st hg g subPath Hwf Hg)
        as (C & st' & -> & _).
      by eexists.
  - intros hg Hg. split_and!; intros.
    + unfold HandlerGroup.middlewareHandler. by apply deref_None.
    + unfold HandlerGroup.route. by apply deref_None.
    + unfold HandlerGroup.AddMiddleware. by apply deref_None.
    + unfold HandlerGroup.GetHandlerGroup. by apply deref_None.
Qed.

(** X2. [AddMiddleware] on a group appends to the list of that group and
    changes nothing else: the list of every other group, the group records
    of the others, the prefix of the group itself, what the router holds
    and the server's fields all stay. *)
Theorem AddMiddleware_changes_one_list (st : Store) (hg : nat)
    (g : HandlerGroup.t) (m : list Mw) :
  wf st -> HandlerGroup.groups st !! hg = Some g ->
  exists st',
    HandlerGroup.AddMiddleware hg m st = Some (tt, st') /\
    wf st' /\
    HandlerGroup.mlist st' hg = HandlerGroup.mlist st hg ++ (Some <$> m) /\
    (forall q, q <> hg ->
       HandlerGroup.groups st' !! q = HandlerGroup.groups st !! q /\
       HandlerGroup.mlist st' q = HandlerGroup.mlist st q) /\
    (forall q, HandlerGroup.prefix_of st' q = HandlerGroup.prefix_of st q) /\
    HandlerGroup.router st' = HandlerGroup.router st /\
    HandlerGroup.server st' = HandlerGroup.server st.
Proof.
  intros Hwf Hg.
  destruct (AddMiddleware_spec st hg g m Hwf Hg)
    as (st' & Hcall & Hwf' & Hml & Hq & Hpre & Hr & Hs).
  exists st'. split_and!; try done.
  intros q. destruct (decide (q = hg)) as [-> | Hne]; [done |].
  unfold HandlerGroup.prefix_of. by rewrite (proj1 (Hq q Hne)).
Qed.

Lemma group_after_AddMiddleware (st st' : Store) (hg : nat)
    (g : HandlerGroup.t) :
  HandlerGroup.groups st !! hg = Some g ->
  HandlerGroup.prefix_of st' hg = HandlerGroup.prefix_of st hg ->
  exists g', HandlerGroup.groups st' !! hg = Some g' /\
             HandlerGroup.basePath g' = HandlerGroup.basePath g.
Proof.
  intros Hg Hpre. apply group_of_prefix. rewrite Hpre.
  unfold HandlerGroup.prefix_of. by rewrite Hg.
Qed.

(** X3. Only the order of the middleware counts, not how the
    [AddMiddleware] calls are cut: two calls with [m1] and [m2] leave every
    group with the same list, the same prefix and the same routes as one
    call with [m1 ++ m2], and a call with no middleware leaves every list
    as it was. *)
Theorem AddMiddleware_batches (st : Store) (hg : nat) (g : HandlerGroup.t)
    (m1 m2 : list Mw) :
  wf st -> HandlerGroup.groups st !! hg = Some g ->
  exists st1 st2 st12 st0,
    HandlerGroup.AddMiddleware hg m1 st = Some (tt, st1) /\
    HandlerGroup.AddMiddleware hg m2 st1 = Some (tt, st2) /\
    HandlerGroup.AddMiddleware hg (m1 ++ m2) st = Some (tt, st12) /\
    HandlerGroup.AddMiddleware hg [] st = Some (tt, st0) /\
    (forall q,
       HandlerGroup.mlist st2 q = HandlerGroup.mlist st12 q /\
       HandlerGroup.prefix_of st2 q = HandlerGroup.prefix_of st12 q /\
       HandlerGroup.mlist st0 q = HandlerGroup.mlist st q) /\
    HandlerGroup.router st2 = HandlerGroup.router st12 /\
    (forall leaf,
       fst <$> HandlerGroup.middlewareHandler hg leaf st2
       = fst <$> HandlerGroup.middlewareHandler hg leaf st12).
Proof.
  intros Hwf Hg.
  destruct (AddMiddleware_spec st hg g m1 Hwf Hg)
    as (st1 & Hc1 & Hwf1 & Hml1 & Hq1 & Hpre1 & Hr1 & _).
  destruct (group_after_AddMiddleware st st1 hg g Hg Hpre1) as (g1 & Hg1 & Hb1).
  destruct (AddMiddleware_spec st1 hg g1 m2 Hwf1 Hg1)
    as (st2 & Hc2 & Hwf2 & Hml2 & Hq2 & Hpre2 & Hr2 & _).
  destruct (AddMiddleware_spec st hg g (m1 ++ m2) Hwf Hg)
    as (st12 & Hc12 & Hwf12 & Hml12 & Hq12 & Hpre12 & Hr12 & _).
  destruct (AddMiddleware_spec st hg g [] Hwf Hg)
    as (st0 & Hc0 & _ & Hml0 & Hq0 & _).
  assert (Hsame : HandlerGroup.mlist st2 hg = HandlerGroup.mlist st12 hg)
    by (by rewrite Hml2, Hml1, Hml12, fmap_app, app_assoc).
  exists st1, st2, st12, st0. split_and!; try done.
  - intros q. destruct (decide (q = hg)) as [-> | Hne].
    + split_and!; [done | by rewrite Hpre2, Hpre1, Hpre12 |].
      by rewrite Hml0, app_nil_r.
    + destruct (Hq1 q Hne) as [Hg1q Hm1q], (Hq2 q Hne) as [Hg2q Hm2q],
        (Hq12 q Hne) as [Hg12q Hm12q], (Hq0 q Hne) as [_ Hm0q].
      split_and!; [by rewrite Hm2q, Hm1q, Hm12q | | done].
      unfold HandlerGroup.prefix_of. by rewrite Hg2q, Hg1q, Hg12q.
  - by rewrite Hr2, Hr1, Hr12.
  - intros leaf.
    destruct (wf_mlist st hg g Hwf Hg) as [ms Hms].
    destruct (group_after_AddMiddleware st1 st2 hg g1 Hg1 Hpre2)
      as (g2 & Hg2 & _).
    destruct (group_after_AddMiddleware st st12 hg g Hg Hpre12)
      as (g12 & Hg12 & _).
    rewrite (middlewareHandler_chain st2 hg (ms ++ m1 ++ m2) leaf),
      (middlewareHandler_chain st12 hg (ms ++ m1 ++ m2) leaf); try done.
    + by rewrite Hml12, Hms, !fmap_app.
    + by rewrite Hsame, Hml12, Hms, !fmap_app.
Qed.

(** X4. [AddHandlerGroup] runs the registration function on a child of
    the group. With a function that adds [m] to the child and registers a
    route there, the router receives the route under the parent's prefix,
    the sub-path and the route's path put end to end, with the chain of the
    parent's middleware followed by [m]; the parent's own list is as
    before. *)
Theorem AddHandlerGroup_scopes (st : Store) (P : nat) (g : HandlerGroup.t)
    (msP m : list Mw) (subPath path : string)
    (method : httprouter.method) (h : Handler W S) :
  wf st -> HandlerGroup.groups st !! P = Some g ->
  HandlerGroup.mlist st P = Some <$> msP ->
  exists st',
    HandlerGroup.AddHandlerGroup P subPath (add_then_route m method path h) st
      = Some (tt, st') /\
    wf st' /\
    HandlerGroup.router st'
      = HandlerGroup.router st
        ++ [(method, (HandlerGroup.basePath g +:+ subPath) +:+ path,
             HandlerGroup.handlerShim_closure (chain (msP ++ m) h))] /\
    HandlerGroup.mlist st' P = Some <$> msP /\
    HandlerGroup.prefix_of st' P = Some (HandlerGroup.basePath g).
Proof.
  intros Hwf Hg HmsP.
  destruct (GetHandlerGroup_spec st P g subPath Hwf Hg)
    as (C & st1 & Hcall & Hwf1 & Hnew & Hpre & HmlC & Hq & Hr1 & _).
  assert (HPC : P <> C) by (intros ->; by rewrite Hnew in Hg).
  destruct (Hq P HPC) as [HgP1 HmlP1].
  destruct (group_of_prefix st1 C _ Hpre) as (gC & HgC & HbC).
  destruct (AddMiddleware_spec st1 C gC m Hwf1 HgC)
    as (st2 & Hadd & Hwf2 & HmlC2 & Hq2 & Hpre2 & Hr2 & _).
  destruct (group_after_AddMiddleware st1 st2 C gC HgC Hpre2)
    as (gC2 & HgC2 & HbC2).
  destruct (Hq2 P HPC) as [HgP2 HmlP2].
  assert (HmsC2 : HandlerGroup.mlist st2 C = Some <$> (msP ++ m))
    by (by rewrite HmlC2, HmlC, HmsP, fmap_app).
  eexists. split_and!.
  - unfold HandlerGroup.AddHandlerGroup, add_then_route.
    unfold HandlerGroup.bind at 1. rewrite Hcall.
    unfold HandlerGroup.bind at 1. rewrite Hadd.
    apply (route_spec st2 method C gC2 path h (msP ++ m) HgC2 HmsC2).
  - by apply wf_with_router.
  - simpl. by rewrite Hr2, Hr1, HbC2, HbC.
  - change (HandlerGroup.mlist st2 P = Some <$> msP).
    by rewrite HmlP2, HmlP1.
  - unfold HandlerGroup.prefix_of. simpl. by rewrite HgP2, HgP1, Hg.
Qed.

(** X5. [Server.GetHandlerGroup] gives a new group with the path as its
    prefix and no middleware, and touches no group that exists. A route
    registered on it goes to the router under the prefix followed by the
    route's path, with the leaf handler alone inside the lifecycle
    closure. *)
Theorem Server_GetHandlerGroup_root (st : Store) (base : string) :
  wf st ->
  exists hg st1,
    HandlerGroup.Server_GetHandlerGroup base st = Some (hg, st1) /\
    wf st1 /\
    HandlerGroup.groups st !! hg = None /\
    HandlerGroup.prefix_of st1 hg = Some base /\
    HandlerGroup.mlist st1 hg = [] /\
    (forall q, q <> hg ->
       HandlerGroup.groups st1 !! q = HandlerGroup.groups st !! q /\
       HandlerGroup.mlist st1 q = HandlerGroup.mlist st q) /\
    (forall registerFunc,
       HandlerGroup.Server_AddHandlerGroup base registerFunc st
       = registerFunc hg st1) /\
    (forall method path h, exists st2,
       HandlerGroup.route method hg path h st1 = Some (tt, st2) /\
       HandlerGroup.router st2
         = HandlerGroup.router st
           ++ [(method, base +:+ path, HandlerGroup.handlerShim_closure h)]).
Proof.
  intros Hwf.
  destruct (Server_GetHandlerGroup_spec st base Hwf)
    as (hg & st1 & Hcall & Hwf1 & Hnew & Hpre & Hml & Hq & Hr & _).
  exists hg, st1. split_and!; try done.
  - intros registerFunc. unfold HandlerGroup.Server_AddHandlerGroup.
    unfold HandlerGroup.bind at 1. by rewrite Hcall.
  - intros method path h.
    destruct (group_of_prefix st1 hg _ Hpre) as (g & Hg & Hb).
    eexists. split.
    + apply (route_spec st1 method hg g path h [] Hg). by rewrite Hml.
    + simpl. by rewrite Hr, Hb.
Qed.

Lemma append_assoc (s1 s2 s3 : string) :
  (s1 +:+ s2) +:+ s3 = s1 +:+ (s2 +:+ s3).
Proof.
  induction s1 as [|c s1 IH]; [done |]. by rewrite !append_cons, IH.
Qed.

(** X6. Derivation nests: a grandchild has the prefix of the group
    followed by both sub-paths and the middleware list of the group, and
    whatever registration calls follow, no group that exists ever changes
    its prefix. *)
Theorem nested_groups_inherit (st : Store) (P : nat) (g : HandlerGroup.t)
    (s1 s2 : string) :
  wf st -> HandlerGroup.groups st !! P = Some g ->
  exists C st1 D st2,
    HandlerGroup.GetHandlerGroup P s1 st = Some (C, st1) /\
    HandlerGroup.GetHandlerGroup C s2 st1 = Some (D, st2) /\
    (P <> C /\ P <> D /\ C <> D) /\
    HandlerGroup.prefix_of st2 D
      = Some (HandlerGroup.basePath g +:+ s1 +:+ s2) /\
    HandlerGroup.mlist st2 D = HandlerGroup.mlist st P /\
    (forall ops st3 q, run ops st2 = Some (tt, st3) ->
       is_Some (HandlerGroup.groups st2 !! q) ->
       HandlerGroup.prefix_of st3 q = HandlerGroup.prefix_of st2 q).
Proof.
  intros Hwf Hg.
  destruct (GetHandlerGroup_spec st P g s1 Hwf Hg)
    as (C & st1 & Hc1 & Hwf1 & Hnew1 & Hpre1 & Hml1 & Hq1 & _).
  destruct (group_of_prefix st1 C _ Hpre1) as (gC & HgC & HbC).
  destruct (GetHandlerGroup_spec st1 C gC s2 Hwf1 HgC)
    as (D & st2 & Hc2 & Hwf2 & Hnew2 & Hpre2 & Hml2 & Hq2 & _).
  assert (HPC : P <> C) by (intros ->; by rewrite Hnew1 in Hg).
  assert (HCD : C <> D) by (intros ->; by rewrite Hnew2 in HgC).
  assert (HPD : P <> D).
  { intros ->. destruct (Hq1 D HPC) as [HgD _].
    by rewrite Hnew2, Hg in HgD. }
  exists C, st1, D, st2. split_and!; try done.
  - by rewrite Hpre2, HbC, append_assoc.
  - by rewrite Hml2, Hml1.
  - intros ops st3 q Hrun Hq.
    destruct (run_spec ops st2 st3 Hwf2 Hrun) as (_ & _ & Hgroups).
    by apply Hgroups.
Qed.

(** X7. The closure reads the server's logger factory when a request
    arrives, not when the route is registered: a route registered while
    [NewRequestLogger] is nil panics on a request as long as it stays nil,
    and serves requests with the factory assigned later, running the chain
    on a fresh context whose sink is the factory's. *)
Theorem logger_factory_is_read_per_request (st : Store)
    (method : httprouter.method) (hg : nat) (g : HandlerGroup.t)
    (path : string) (h : Handler W S) (ms : list Mw)
    (f : @loggingResponseWriter.t W -> http.Request -> httprouter.Params -> S) :
  wf st -> HandlerGroup.groups st !! hg = Some g ->
  HandlerGroup.mlist st hg = Some <$> ms ->
  HandlerGroup.NewRequestLogger (HandlerGroup.server st) = None ->
  let handle := HandlerGroup.handlerShim_closure (chain ms h) in
  exists st1 st2,
    HandlerGroup.route method hg path h st = Some (tt, st1) /\
    HandlerGroup.assign_NewRequestLogger f st1 = Some (tt, st2) /\
    HandlerGroup.router st2
      = HandlerGroup.router st
        ++ [(method, HandlerGroup.basePath g +:+ path, handle)] /\
    (forall goroutine rw req p,
       handle (HandlerGroup.server st1) goroutine rw req p = None) /\
    (forall goroutine rw req p,
       let r := chain ms h (fresh_context f rw req p) in
       handle (HandlerGroup.server st2) goroutine rw req p
       = Some (logged
                 (postconditions goroutine (fst r)
                    (loggingResponseWriter.statusCode (Response_rw (snd r))))
                 (snd r))).
Proof.
  intros Hwf Hg Hms Hnil handle.
  eexists. eexists.
  split; [by apply (route_spec st method hg g path h ms) |].
  split; [reflexivity |].
  split_and!; try done.
  - intros goroutine rw req p. subst handle.
    unfold HandlerGroup.handlerShim_closure. simpl. by rewrite Hnil.
  - intros goroutine rw req p r.
    by apply handlerShim_closure_eq.
Qed.

(** One registration call: what it may do to the router and to the
    server's fields. *)
Lemma run_op_router_server (st st' : Store) (o : @op W S) :
  wf st -> run_op o st = Some (tt, st') ->
  (HandlerGroup.router st' = HandlerGroup.router st \/
   exists method path h,
     HandlerGroup.router st'
     = HandlerGroup.router st
       ++ [(method, path, HandlerGroup.handlerShim_closure h)]) /\
  (assigns_logger o = false ->
   HandlerGroup.server st' = HandlerGroup.server st).
Proof.
  intros Hwf Hrun. destruct o as [path | ohg sub | hg m | method hg path h | f];
    simpl in Hrun.
  - destruct (Server_GetHandlerGroup_spec st path Hwf)
      as (hg & st1 & Hcall & _ & _ & _ & _ & _ & Hr & Hs).
    unfold HandlerGroup.bind in Hrun. rewrite Hcall in Hrun.
    injection Hrun as <-. by split; [left |].
  - destruct (HandlerGroup.groups st !! ohg) as [o|] eqn:Ho.
    2: { unfold HandlerGroup.bind at 1 in Hrun.
         unfold HandlerGroup.GetHandlerGroup in Hrun.
         by rewrite deref_None in Hrun. }
    destruct (GetHandlerGroup_spec st ohg o sub Hwf Ho)
      as (hg & st1 & Hcall & _ & _ & _ & _ & _ & Hr & Hs).
    unfold HandlerGroup.bind in Hrun. rewrite Hcall in Hrun.
    injection Hrun as <-. by split; [left |].
  - destruct (HandlerGroup.groups st !! hg) as [g|] eqn:Hg.
    2: { unfold HandlerGroup.AddMiddleware in Hrun.
         by rewrite deref_None in Hrun. }
    destruct (AddMiddleware_spec st hg g m Hwf Hg)
      as (st1 & Hcall & _ & _ & _ & _ & Hr & Hs).
    rewrite Hcall in Hrun. injection Hrun as <-. by split; [left |].
  - destruct (HandlerGroup.groups st !! hg) as [g|] eqn:Hg.
    2: { unfold HandlerGroup.route in Hrun. by rewrite deref_None in Hrun. }
    destruct (wf_mlist st hg g Hwf Hg) as [ms Hms].
    rewrite (route_spec st method hg g path h ms Hg Hms) in Hrun.
    injection Hrun as <-. split; [right; by eexists _, _, _ | done].
  - unfold HandlerGroup.assign_NewRequestLogger in Hrun.
    injection Hrun as <-. by split; [left |].
Qed.

(** X8. [NewServer] leaves [NewRequestLogger] nil, and no registration call
    assigns it: after any program without such an assignment, every route
    that the router holds panics on every request, whatever its handler. *)
Theorem unassigned_logger_panics (ops : list (@op W S)) (st : Store) :
  run ops HandlerGroup.NewServer = Some (tt, st) ->
  forallb (fun o => negb (assigns_logger o)) ops = true ->
  HandlerGroup.NewRequestLogger (HandlerGroup.server st) = None /\
  (forall method path handle goroutine rw req p,
     (method, path, handle) ∈ HandlerGroup.router st ->
     handle (HandlerGroup.server st) goroutine rw req p = None).
Proof.
  assert (Hgen : forall ops (st0 st : Store),
    wf st0 -> run ops st0 = Some (tt, st) ->
    forallb (fun o => negb (assigns_logger o)) ops = true ->
    HandlerGroup.server st = HandlerGroup.server st0 /\
    (Forall (fun e => exists h, e.2 = HandlerGroup.handlerShim_closure h)
       (HandlerGroup.router st0) ->
     Forall (fun e => exists h, e.2 = HandlerGroup.handlerShim_closure h)
       (HandlerGroup.router st))).
  { clear ops st. induction ops as [|o ops IH]; intros st0 st Hwf Hrun Hno.
    - by injection Hrun as <-.
    - simpl in Hrun, Hno. apply andb_prop in Hno as [Ho Hno].
      unfold HandlerGroup.bind in Hrun.
      destruct (run_op o st0) as [[[] st1]|] eqn:Hop; [|done].
      destruct (run_op_spec st0 st1 o Hwf Hop) as (Hwf1 & _).
      destruct (run_op_router_server st0 st1 o Hwf Hop) as [Hr Hs].
      destruct (IH st1 st Hwf1 Hrun Hno) as [Hs' Hc'].
      split.
      + rewrite Hs', Hs; [done |]. by destruct (assigns_logger o).
      + intros Hc0. apply Hc'.
        destruct Hr as [-> | (method & path & h & ->)]; [done |].
        apply Forall_app. split; [done |].
        apply Forall_singleton. by exists h. }
  intros Hrun Hno.
  destruct (Hgen ops _ st wf_NewServer Hrun Hno) as [Hs Hc].
  assert (Hnil : HandlerGroup.NewRequestLogger (HandlerGroup.server st) = None)
    by (by rewrite Hs).
  split; [done |].
  intros method path handle goroutine rw req p Hin.
  assert (Hall := Hc (Forall_nil_2 _)).
  rewrite Forall_forall in Hall.
  destruct (Hall _ Hin) as [h Hh]. simpl in Hh. subst handle.
  unfold HandlerGroup.handlerShim_closure. by rewrite Hnil.
Qed.

End MoreGroupFacts.

(** ** The response facade, the logger and the lifecycle *)

Section MoreResponseFacts.
Context {W S : Type} `{!http.ResponseWriter.t W} `{!RequestLoggerBase.t S}
  `{!Go.Fmt}.

(** X9. A handler that answers with [Status code]: the lifecycle logs no
    Error; when the code is not 0 the sink only receives the flush, and
    when the code is 0 the fatal bug is logged although [Status] was
    called. *)
Theorem Status_under_lifecycle (code : Z) (srv : HandlerGroup.Server)
    (goroutine : string) (rw : W) (req : http.Request)
    (p : httprouter.Params) newRequestLogger :
  HandlerGroup.NewRequestLogger srv = Some newRequestLogger ->
  let c0 := fresh_context newRequestLogger rw req p in
  let post := postconditions goroutine None code in
  HandlerGroup.handlerShim_closure (ContextResponse.Status code)
    srv goroutine rw req p
  = Some (logged post (snd (ContextResponse.Status code c0))) /\
  count RequestLoggerBase.is_CError post = 0%nat /\
  (code <> 0 -> post = [RequestLoggerBase.CWriteLogs]) /\
  (code = 0 ->
   post = [RequestLoggerBase.CWTF "Handler didn't write a response";
           RequestLoggerBase.CWTF (stack_trace goroutine);
           RequestLoggerBase.CWriteLogs]).
Proof.
  intros Hf c0 post.
  split_and!.
  - by rewrite (handlerShim_closure_eq _ srv goroutine rw req p _ Hf).
  - apply (count_postconditions goroutine None code).
  - intros Hne. subst post. unfold postconditions.
    by destruct (Z.eqb_spec code 0).
  - by intros ->.
Qed.

(** X10. A handler that answers with [Bytes]: when the underlying write
    fails the lifecycle logs one Error whose text ends with "failed to write
    body: " and the message of the writer's error, which the returned error
    still wraps; when the write succeeds no Error is logged. The status has
    been written either way, so the fatal bug depends on the code alone. *)
Theorem Bytes_under_lifecycle (code : Z) (body : list Byte.byte)
    (srv : HandlerGroup.Server) (goroutine : string) (rw : W)
    (req : http.Request) (p : httprouter.Params) newRequestLogger :
  HandlerGroup.NewRequestLogger srv = Some newRequestLogger ->
  let c0 := fresh_context newRequestLogger rw req p in
  let h2 := http.Header_Set "Content-Length"
              (Go.Itoa (Z.of_nat (length body)))
              (defaulted "Content-Type" "application/octet-stream"
                 (http.ResponseWriter.Header rw)) in
  let failure :=
    snd (fst (http.ResponseWriter.Write body
                (http.ResponseWriter.WriteHeader code
                   (http.ResponseWriter.storeHeader h2 rw)))) in
  let err := Go.Errorf_w "failed to write body: " <$> failure in
  let post := postconditions goroutine err code in
  HandlerGroup.handlerShim_closure (ContextResponse.Bytes code body)
    srv goroutine rw req p
  = Some (logged post (snd (ContextResponse.Bytes code body c0))) /\
  (forall e, failure = Some e ->
     head post
     = Some (RequestLoggerBase.CError
               ("Error returned from request handler: "
                +:+ "failed to write body: " +:+ Go.Error e)) /\
     (err ≫= Go.Unwrap) = Some e /\
     count RequestLoggerBase.is_CError post = 1%nat) /\
  (failure = None -> count RequestLoggerBase.is_CError post = 0%nat) /\
  count (RequestLoggerBase.is_CWTF_with "Handler didn't write a response") post
    = (if Z.eqb code 0 then 1 else 0)%nat.
Proof.
  intros Hf c0 h2 failure err post.
  pose proof (Bytes_eq code body c0) as Hb. simpl in Hb.
  fold h2 in Hb. fold failure in Hb.
  pose proof (count_postconditions goroutine err code)
    as (Herr & Hwtf & _).
  split_and!.
  - rewrite (handlerShim_closure_eq _ srv goroutine rw req p _ Hf).
    fold c0. rewrite Hb. simpl. by fold err.
  - intros e He. subst post err. rewrite He in *. by split_and!.
  - intros He. subst post err. by rewrite He in *.
  - done.
Qed.

(** X11. [setHeaderIfNotAlreadySet] is idempotent; once it has set a
    non-empty default a second default changes nothing (the first one
    wins); it does nothing when the first value is not empty; after it with
    a non-empty default the header is not empty; and the other headers, the
    tracked status and the logger are never touched. *)
Theorem setHeaderIfNotAlreadySet_facts (key dflt dflt' : string)
    (c : Context W S) :
  let c1 := ContextResponse.setHeaderIfNotAlreadySet key dflt c in
  ContextResponse.setHeaderIfNotAlreadySet key dflt c1 = c1 /\
  (dflt <> "" ->
   ContextResponse.setHeaderIfNotAlreadySet key dflt' c1 = c1) /\
  (http.Header_Get key (ContextResponse.Header c) <> "" -> c1 = c) /\
  (dflt <> "" -> http.Header_Get key (ContextResponse.Header c1) <> "") /\
  (forall k, k <> key ->
     ContextResponse.Header c1 !! k = ContextResponse.Header c !! k) /\
  ContextResponse.GetStatusCode c1 = ContextResponse.GetStatusCode c /\
  Log c1 = Log c.
Proof.
  intros c1. subst c1.
  rewrite !setHeaderIfNotAlreadySet_store.
  rewrite !Header_store, !store_store.
  split_and!.
  - f_equal. f_equal. unfold defaulted at 1.
    destruct (String.eqb _ "") eqn:E; [|done].
    unfold defaulted in *.
    destruct (String.eqb (http.Header_Get key (ContextResponse.Header c)) "")
      eqn:E0.
    + unfold http.Header_Set. by rewrite insert_insert_eq.
    + by rewrite E in E0.
  - intros Hd. by rewrite defaulted_twice.
  - intros Hset. rewrite defaulted_keep by done.
    destruct c as [lg [w sc cl] rq ps eh].
    unfold with_Response_rw, loggingResponseWriter.storeHeader,
      ContextResponse.Header, loggingResponseWriter.Header; simpl.
    by rewrite http.ResponseWriter.storeHeader_Header.
  - intros Hd. by apply defaulted_set.
  - intros k Hk. unfold defaulted. destruct (String.eqb _ ""); [|done].
    unfold http.Header_Set. by rewrite lookup_insert_ne.
  - by destruct c as [lg [w sc cl] rq ps eh].
  - by destruct c as [lg [w sc cl] rq ps eh].
Qed.

(** X12. [EscapeHatch] hands out the tracker itself and the request, sets
    the flag and changes nothing else, however often it is called. A status
    written through the writer it returned is therefore tracked: the
    lifecycle logs the fatal bug for such a handler only when the code is
    0. *)
Theorem EscapeHatch_keeps_tracking (code : Z) (c : Context W S)
    (srv : HandlerGroup.Server) (goroutine : string) (rw : W)
    (req : http.Request) (p : httprouter.Params) newRequestLogger :
  HandlerGroup.NewRequestLogger srv = Some newRequestLogger ->
  let c0 := fresh_context newRequestLogger rw req p in
  fst (EscapeHatch c) = (Response_rw c, Request_req c) /\
  escapeHatchUsed (snd (EscapeHatch c)) = true /\
  (Log (snd (EscapeHatch c)) = Log c /\
   Response_rw (snd (EscapeHatch c)) = Response_rw c /\
   Request_req (snd (EscapeHatch c)) = Request_req c /\
   Request_params (snd (EscapeHatch c)) = Request_params c) /\
  EscapeHatch (snd (EscapeHatch c)) = EscapeHatch c /\
  HandlerGroup.handlerShim_closure (escape_and_write code)
    srv goroutine rw req p
  = Some (logged (postconditions goroutine None code)
            (snd (escape_and_write code c0))) /\
  ContextResponse.GetStatusCode (snd (escape_and_write code c0)) = code /\
  loggingResponseWriter.rw (Response_rw (snd (escape_and_write code c0)))
    = http.ResponseWriter.WriteHeader code rw /\
  HandlerGroup.handlerShim_closure (fun c => (None, snd (EscapeHatch c)))
    srv goroutine rw req p
  = Some (logged (postconditions goroutine None 0) (snd (EscapeHatch c0))).
Proof.
  intros Hf c0. split_and!; try done.
  - by rewrite (handlerShim_closure_eq _ srv goroutine rw req p _ Hf).
  - by rewrite (handlerShim_closure_eq _ srv goroutine rw req p _ Hf).
Qed.

Lemma scripted_play (ks : list loggingResponseWriter.call) (req : http.Request)
    (c : Context W S) :
  Middleware.ServeHTTP (scripted ks) Middleware.Response_rw_value req c
  = with_Response_rw (loggingResponseWriter.play ks) c.
Proof.
  unfold scripted, loggingResponseWriter.play. simpl.
  revert c. induction ks as [|k ks IH]; intros c.
  - by destruct c as [lg lrw rq ps eh].
  - simpl. rewrite IH.
    destruct c as [lg lrw rq ps eh]. unfold with_Response_rw; simpl.
    destruct k as [|b|code]; simpl; try done.
    by destruct (loggingResponseWriter.Write b lrw) as [r lrw'].
Qed.

(** X13. Through [ClassicHandlerShim] the writes of a classic handler go
    to the tracker: whatever calls the handler makes on its writer, the
    wrapped writer receives the same calls, the tracked status is the
    argument of its last [WriteHeader] (unchanged when it made none), the
    logger is untouched and the handler built by the shim returns nil. *)
Theorem ClassicHandlerShim_is_tracked (ks : list loggingResponseWriter.call)
    (c : Context W S) :
  let r := Middleware.ClassicHandlerShim (scripted ks) c in
  fst r = None /\
  Response_rw (snd r) = loggingResponseWriter.play ks (Response_rw c) /\
  loggingResponseWriter.rw (Response_rw (snd r))
    = loggingResponseWriter.play_raw ks
        (loggingResponseWriter.rw (Response_rw c)) /\
  ContextResponse.GetStatusCode (snd r)
    = default (ContextResponse.GetStatusCode c)
        (loggingResponseWriter.lastWriteHeader ks) /\
  Log (snd r) = Log c.
Proof.
  intros r. subst r. unfold Middleware.ClassicHandlerShim.
  rewrite scripted_play.
  split_and!; try done.
  - simpl. apply play_rw.
  - unfold ContextResponse.GetStatusCode. simpl. apply play_statusCode.
Qed.

(** X14. Every call of the facade reaches the sink, in order: a sequence
    of facade calls makes exactly the sink calls of its members, one per
    call and two per WTF; the formatted variants deliver the text of
    [fmt.Sprintf]; and the facade never calls the sink's [FormatLog] nor
    its [WriteLogs]. *)
Theorem facade_calls_reach_the_sink (ks : list facade_call)
    (rl : @RequestLogger.t S) :
  let calls := concat (sink_calls <$> ks) in
  RequestLogger.b (fold_left (fun acc k => facade_perform k acc) ks rl)
    = RequestLoggerBase.play calls (RequestLogger.b rl) /\
  length calls = (length ks + length (List.filter is_fatal ks))%nat /\
  count RequestLoggerBase.is_CFormatLog calls = 0%nat /\
  count RequestLoggerBase.is_CWriteLogs calls = 0%nat.
Proof.
  intros calls. subst calls. split_and!.
  - revert rl. induction ks as [|k ks IH]; intros rl; [done |].
    simpl. rewrite IH. unfold RequestLoggerBase.play.
    rewrite fold_left_app. f_equal.
    destruct k; try done.
    + apply WTF_two_calls.
    + unfold RequestLogger.WTFf. apply WTF_two_calls.
  - induction ks as [|k ks IH]; [done |].
    rewrite fmap_cons, concat_cons, length_app, IH.
    destruct k; simpl; lia.
  - unfold count. induction ks as [|k ks IH]; [done |].
    rewrite fmap_cons, concat_cons, List.filter_app, length_app, IH.
    by destruct k.
  - unfold count. induction ks as [|k ks IH]; [done |].
    rewrite fmap_cons, concat_cons, List.filter_app, length_app, IH.
    by destruct k.
Qed.

End MoreResponseFacts.

Section FileFacts.
Context {W S T : Type} `{!http.ResponseWriter.t W} `{!RequestLoggerBase.t S}
  `{!Go.Fmt} `{!io.ReadSeeker T} `{!os.FileSystem T}.

(** X15. [File]: when the file cannot be opened nothing is written and the
    error returned wraps the cause, so under the lifecycle the sink receives
    the Error with "failed to open file: " and the cause, the fatal bug for
    the missing response and the flush, and the writer is untouched. When
    the file opens, [File] returns what [StreamReadSeeker] returns and the
    file is closed afterwards, on the aborting path as on the others. *)
Theorem File_cases (code : Z) (filename : string) (c : Context W S)
    (srv : HandlerGroup.Server) (goroutine : string) (rw : W)
    (req : http.Request) (p : httprouter.Params) newRequestLogger :
  HandlerGroup.NewRequestLogger srv = Some newRequestLogger ->
  let c0 := fresh_context newRequestLogger rw req p in
  (forall e, os.Open filename = inl e ->
     ContextResponse.File code filename c
       = (Some (Go.Errorf_w "failed to open file: " e), (None, c)) /\
     Go.Unwrap (Go.Errorf_w "failed to open file: " e) = Some e /\
     HandlerGroup.handlerShim_closure (File_handler code filename)
       srv goroutine rw req p
     = Some (logged
               [RequestLoggerBase.CError
                  ("Error returned from request handler: "
                   +:+ "failed to open file: " +:+ Go.Error e);
                RequestLoggerBase.CWTF "Handler didn't write a response";
                RequestLoggerBase.CWTF
                  (RequestLogger.stackTracePrefix
                   +:+ String.substring 0 RequestLogger.stBufLen goroutine);
                RequestLoggerBase.CWriteLogs] c0) /\
     loggingResponseWriter.rw (Response_rw c0) = rw) /\
  (forall file, os.Open filename = inr file ->
     let r := ContextResponse.StreamReadSeeker code file c in
     ContextResponse.File code filename c
     = (fst r, (Some (os.Close (fst (snd r))), snd (snd r)))).
Proof.
  intros Hf c0. split.
  - intros e He. split_and!; try done.
    + unfold ContextResponse.File. by rewrite He.
    + rewrite (handlerShim_closure_eq _ srv goroutine rw req p _ Hf).
      fold c0. unfold File_handler, ContextResponse.File. by rewrite He.
  - intros file Hfile r. subst r.
    unfold ContextResponse.File. rewrite Hfile.
    by destruct (ContextResponse.StreamReadSeeker code file c)
      as [err [file' c']].
Qed.

End FileFacts.

(** ** Context values and request parameters *)

Section ValueFacts.
Context {K V : Type} `{!EqDecision K}.

(** X16. [SetValue] then [Value]: the key just set reads back its value,
    also when it was set before (the newest wins); every other key reads as
    before, so a value once set is never lost; two different keys can be
    set in either order; and a context made from the background context
    holds nothing. *)
Theorem SetValue_Value (ctx : @SimpleCtx.t K V) (k k1 k2 : K) (v v1 v2 : V) :
  SimpleCtx.Value (SimpleCtx.SetValue k v ctx) k = Some v /\
  SimpleCtx.Value (SimpleCtx.SetValue k v2 (SimpleCtx.SetValue k v1 ctx)) k
    = Some v2 /\
  (k1 <> k ->
   SimpleCtx.Value (SimpleCtx.SetValue k1 v1 ctx) k = SimpleCtx.Value ctx k) /\
  (is_Some (SimpleCtx.Value ctx k) ->
   is_Some (SimpleCtx.Value (SimpleCtx.SetValue k1 v1 ctx) k)) /\
  (k1 <> k2 ->
   SimpleCtx.Value (SimpleCtx.SetValue k1 v1 (SimpleCtx.SetValue k2 v2 ctx)) k
   = SimpleCtx.Value
       (SimpleCtx.SetValue k2 v2 (SimpleCtx.SetValue k1 v1 ctx)) k) /\
  SimpleCtx.Value (V := V) {| SimpleCtx.Context := context.Background |} k
    = None.
Proof.
  unfold SimpleCtx.Value, SimpleCtx.SetValue; simpl.
  split_and!; try done.
  - by rewrite decide_True.
  - by rewrite decide_True.
  - intros Hne. by rewrite decide_False.
  - intros Hk. by destruct (decide (k1 = k)).
  - intros Hne. destruct (decide (k1 = k)), (decide (k2 = k)); congruence.
Qed.

End ValueFacts.

Section ParamFacts.
Context {W S : Type} `{!http.ResponseWriter.t W} `{!RequestLoggerBase.t S}
  `{!Go.Fmt}.

Lemma ByName_missing (name : string) (ps : httprouter.Params) :
  name ∉ ps.*1 -> httprouter.ByName name ps = "".
Proof.
  induction ps as [|[key value] ps IH]; [done |].
  simpl. intros Hnot. apply not_elem_of_cons in Hnot as [Hne Hnot].
  destruct (String.eqb_spec key name) as [-> | _]; [done | by apply IH].
Qed.

(** X17. The parameters that the router passes to the closure are the
    ones [GetParam] reads in the handler: the value of the first parameter
    with that name, the empty string when there is none. Logging and
    writing a response never change them. *)
Theorem GetParam_reads_router_params (name value : string)
    (before after : httprouter.Params) (c : Context W S)
    (ks : list RequestLoggerBase.call) (code : Z) (body : list Byte.byte)
    (newRequestLogger :
       @loggingResponseWriter.t W -> http.Request -> httprouter.Params -> S)
    (rw : W) (req : http.Request) (p : httprouter.Params) :
  let c0 := fresh_context newRequestLogger rw req p in
  ContextRequest.GetParam name c0 = httprouter.ByName name p /\
  ContextRequest.Params c0 = p /\
  ContextRequest.Method c0 = http.Method req /\
  (name ∉ before.*1 ->
   httprouter.ByName name (before ++ (name, value) :: after) = value) /\
  (name ∉ p.*1 -> ContextRequest.GetParam name c0 = "") /\
  ContextRequest.GetParam name (logged ks c) = ContextRequest.GetParam name c /\
  ContextRequest.GetParam name (snd (ContextResponse.Bytes code body c))
    = ContextRequest.GetParam name c /\
  ContextRequest.GetParam name (snd (ContextResponse.Status code c))
    = ContextRequest.GetParam name c.
Proof.
  intros c0. split_and!; try done.
  - induction before as [|[key v] before IH]; simpl.
    + intros _. by rewrite String.eqb_refl.
    + intros Hnot. apply not_elem_of_cons in Hnot as [Hne Hnot].
      destruct (String.eqb_spec key name) as [-> | _]; [done | by apply IH].
  - apply ByName_missing.
  - pose proof (Bytes_eq code body c) as Hb. simpl in Hb. by rewrite Hb.
Qed.

End ParamFacts.

(** ** An in-memory file served into a recording writer *)

(** X18. Serving an in-memory stream that stands at [pos] into a recording
    writer that accepts everything: the Content-Length announced with the
    status is the number of bytes left from [pos], the body sent is exactly
    those bytes, the tracker has counted as many, and nothing is logged. *)
Theorem StreamReadSeeker_length_matches_body (content : list Byte.byte)
    (pos code : Z) (h : http.Header) :
  0 <= pos < Z.of_nat (length content) ->
  Z.of_nat (length content) < 2 ^ 63 ->
  let stream := {| data := content; pos := pos; seekScript := [] |} in
  let rest := drop (Z.to_nat pos) content in
  let r := ContextResponse.StreamReadSeeker code stream (example_ctx h []) in
  fst r = None /\
  http.Sent (loggingResponseWriter.rw (Response_rw (snd (snd r))))
  = [http.SentHeader code
       (http.Header_Set "Content-Length"
          (Go.Itoa (Z.of_nat (length rest))) h);
     http.SentBody rest] /\
  loggingResponseWriter.contentLength (Response_rw (snd (snd r)))
    = Z.of_nat (length rest) /\
  ContextResponse.GetStatusCode (snd (snd r)) = code /\
  RequestLogger.b (Log (snd (snd r))) = [].
Proof.
  intros Hpos Hlen stream rest r.
  assert (Hrest : Z.of_nat (length rest) = Z.of_nat (length content) - pos).
  { subst rest. rewrite length_drop. lia. }
  assert (Hne : rest <> []).
  { intros Hnil. rewrite Hnil in Hrest. simpl in Hrest. lia. }
  subst r stream.
  unfold ContextResponse.StreamReadSeeker, ContextResponse.Stream; simpl.
  unfold MemStream_Seek; simpl.
  unfold MemStream_Copy; simpl.
  rewrite !Z.add_0_r. fold rest.
  destruct rest as [|b rest'] eqn:Erest; [done |].
  rewrite <- Hrest.
  rewrite wrap64_in_range by (unfold Go.in_int64; lia).
  unfold loggingResponseWriter.Write, http.Recorder_Write; simpl.
  rewrite wrap64_in_range by (unfold Go.in_int64; simpl length in *; lia).
  by split_and!.
Qed.

(** X18, witness. Five bytes read from offset 2. *)
Lemma StreamReadSeeker_length_matches_body_witness :
  0 <= 2 < Z.of_nat (length abcde) /\
  Z.of_nat (length abcde) < 2 ^ 63 /\
  loggingResponseWriter.contentLength
    (Response_rw (snd (snd (ContextResponse.StreamReadSeeker 200
       {| data := abcde; pos := 2; seekScript := [] |} (example_ctx ∅ [])))))
  = 3.
Proof.
  assert (H1 : 0 <= 2 < Z.of_nat (length abcde)) by (simpl; lia).
  assert (H2 : Z.of_nat (length abcde) < 2 ^ 63) by (simpl; lia).
  split; [exact H1 | split; [exact H2 |]].
  exact (proj1 (proj2 (proj2
    (StreamReadSeeker_length_matches_body abcde 2 200 ∅ H1 H2)))).
Defined.

(** ** Order of execution and the aborting stream *)

Section OrderFacts.
Context {W S : Type} `{!http.ResponseWriter.t W} `{!RequestLoggerBase.t S}
  `{!Go.Fmt} `{!slice.Growth}.

Lemma logged_nil (c : Context W S) : logged [] c = c.
Proof. by destruct c as [[b] lrw rq ps eh]. Qed.

(** Tracing middleware around a leaf: entered in the order of the list, left
    in the reverse order. *)
Lemma chain_tracing (names : list string) (leaf : Handler W S)
    (c : Context W S) :
  let entered :=
    logged ((fun n => RequestLoggerBase.CInfo ("enter " +:+ n)) <$> names) c in
  chain (tracing <$> names) leaf c
  = (fst (leaf entered),
     logged ((fun n => RequestLoggerBase.CInfo ("exit " +:+ n))
               <$> reverse names)
       (snd (leaf entered))).
Proof.
  revert c. induction names as [|n names IH]; intros c; simpl.
  - rewrite !logged_nil. by destruct (leaf c).
  - unfold tracing at 1. rewrite IH. simpl.
    rewrite Info_logged, logged_app. simpl.
    rewrite Info_logged, logged_app.
    by rewrite reverse_cons, fmap_app.
Qed.

(** X19. Execution order of the handler that [middlewareHandler] builds:
    on a group whose list holds tracing middleware registered under the
    names [names], a request enters them in the order of registration, then
    runs the leaf, then leaves them in the reverse order, and the leaf's
    error comes back unchanged. *)
Theorem chain_enters_in_order (st : HandlerGroup.Store) (hg : nat)
    (names : list string) (leaf : Handler W S) :
  is_Some (HandlerGroup.groups st !! hg) ->
  HandlerGroup.mlist st hg = Some <$> (tracing <$> names) ->
  exists fullHandler,
    HandlerGroup.middlewareHandler hg leaf st = Some (fullHandler, st) /\
    forall c,
      let entered :=
        logged ((fun n => RequestLoggerBase.CInfo ("enter " +:+ n)) <$> names)
          c in
      fullHandler c
      = (fst (leaf entered),
         logged ((fun n => RequestLoggerBase.CInfo ("exit " +:+ n))
                   <$> reverse names)
           (snd (leaf entered))).
Proof.
  intros Hg Hms. exists (chain (tracing <$> names) leaf). split.
  - by apply middlewareHandler_chain.
  - intros c. apply chain_tracing.
Qed.

End OrderFacts.

Section AbortFacts.
Context {W S T : Type} `{!http.ResponseWriter.t W} `{!RequestLoggerBase.t S}
  `{!Go.Fmt} `{!io.ReadSeeker T}.

(** X20. A stream whose position cannot be restored, under the lifecycle:
    nothing reaches the writer, and the sink receives two Errors (the one of
    [StreamReadSeeker] and the one for the returned error), the fatal bug
    for the missing response and the flush. *)
Theorem StreamReadSeeker_abort_under_lifecycle (code : Z) (stream : T)
    (srv : HandlerGroup.Server) (goroutine : string) (rw : W)
    (req : http.Request) (p : httprouter.Params) newRequestLogger
    (e : Go.error) :
  HandlerGroup.NewRequestLogger srv = Some newRequestLogger ->
  let p1 := io.Seek 0 io.SeekCurrent stream in
  let p2 := io.Seek 0 io.SeekEnd (snd p1) in
  let p3 := io.Seek (fst (fst p1)) io.SeekStart (snd p2) in
  snd (fst p1) = None -> snd (fst p2) = None -> snd (fst p3) = Some e ->
  let c0 := fresh_context newRequestLogger rw req p in
  HandlerGroup.handlerShim_closure (StreamReadSeeker_handler code stream)
    srv goroutine rw req p
  = Some (logged
            [RequestLoggerBase.CError
               ("Unable to restore stream position after reading length: "
                +:+ Go.Error e);
             RequestLoggerBase.CError
               ("Error returned from request handler: "
                +:+ "failed to safely determine stream length - aborting");
             RequestLoggerBase.CWTF "Handler didn't write a response";
             RequestLoggerBase.CWTF
               (RequestLogger.stackTracePrefix
                +:+ String.substring 0 RequestLogger.stBufLen goroutine);
             RequestLoggerBase.CWriteLogs] c0) /\
  Response_rw c0
  = {| loggingResponseWriter.rw := rw;
       loggingResponseWriter.statusCode := 0;
       loggingResponseWriter.contentLength := 0 |}.
Proof.
  intros Hf p1 p2 p3 Hp1 Hp2 Hp3 c0. split; [|done].
  rewrite (handlerShim_closure_eq _ srv goroutine rw req p _ Hf). fold c0.
  unfold StreamReadSeeker_handler, ContextResponse.StreamReadSeeker.
  subst p3 p2 p1.
  destruct (io.Seek 0 io.SeekCurrent stream) as [[cur e1] s1]; simpl in *.
  destruct (io.Seek 0 io.SeekEnd s1) as [[tot e2] s2]; simpl in *.
  destruct (io.Seek cur io.SeekStart s2) as [[back e3] s3]; simpl in *.
  subst e1 e2 e3. simpl.
  rewrite (Errorf_v_error
    "Unable to restore stream position after reading length: ") by done.
  by rewrite logged_app.
Qed.

End AbortFacts.

(** ** Witnesses of the further properties *)

Lemma bare_store_run :
  run bare_program HandlerGroup.NewServer = Some (tt, bare_store).
Proof. vm_compute. reflexivity. Qed.

Lemma bare_store_wf : wf bare_store.
Proof.
  exact (proj1 (run_spec bare_program _ _ wf_NewServer bare_store_run)).
Qed.

Lemma bare_store_lookup :
  HandlerGroup.groups bare_store !! 0%nat = Some bare_group.
Proof. vm_compute. reflexivity. Qed.

Lemma bare_store_mlist :
  HandlerGroup.mlist bare_store 0 = Some <$> [marker "m0"].
Proof. vm_compute. reflexivity. Qed.

(** X1, witness. *)
Lemma reachable_store_is_safe_witness :
  run example_program HandlerGroup.NewServer = Some (tt, example_store) /\
  wf example_store /\
  HandlerGroup.AddMiddleware 7 [marker "m"] example_store = None.
Proof.
  split; [exact example_store_run |].
  destruct (reachable_store_is_safe example_program example_store
              example_store_run) as (Hwf & _ & Hnone).
  split; [exact Hwf |].
  assert (Hfree : HandlerGroup.groups example_store !! 7%nat = None)
    by (vm_compute; reflexivity).
  destruct (Hnone 7%nat Hfree) as (_ & _ & Hadd & _).
  apply Hadd.
Defined.

(** X2, witness. *)
Lemma AddMiddleware_changes_one_list_witness :
  wf example_store /\
  HandlerGroup.groups example_store !! 0%nat = Some example_group /\
  exists st',
    HandlerGroup.AddMiddleware 0 [marker "late"] example_store
      = Some (tt, st') /\
    HandlerGroup.mlist st' 0
      = Some <$> [marker "m0"; marker "m1"; marker "m2"; marker "late"] /\
    HandlerGroup.router st' = HandlerGroup.router example_store.
Proof.
  split_and!; [exact example_store_wf | exact example_store_lookup |].
  destruct (AddMiddleware_changes_one_list example_store 0 example_group
              [marker "late"] example_store_wf example_store_lookup)
    as (st' & Hcall & _ & Hml & _ & _ & Hr & _).
  exists st'. split_and!; try done;
    by rewrite Hml, (proj2 example_store_group).
Defined.

(** X3, witness. *)
Lemma AddMiddleware_batches_witness :
  wf example_store /\
  HandlerGroup.groups example_store !! 0%nat = Some example_group /\
  exists st2 st12,
    (HandlerGroup.bind (HandlerGroup.AddMiddleware 0 [marker "a"])
       (fun _ => HandlerGroup.AddMiddleware 0 [marker "b"])) example_store
      = Some (tt, st2) /\
    HandlerGroup.AddMiddleware 0 [marker "a"; marker "b"] example_store
      = Some (tt, st12) /\
    HandlerGroup.mlist st2 0 = HandlerGroup.mlist st12 0.
Proof.
  split_and!; [exact example_store_wf | exact example_store_lookup |].
  destruct (AddMiddleware_batches example_store 0 example_group
              [marker "a"] [marker "b"] example_store_wf example_store_lookup)
    as (st1 & st2 & st12 & st0 & Hc1 & Hc2 & Hc12 & _ & Hq & _).
  exists st2, st12. split_and!; try done.
  - unfold HandlerGroup.bind. by rewrite Hc1.
  - apply Hq.
Defined.

(** X4, witness. The group /api with m0, m1, m2, a child /v1 with one more
    middleware and the route /items on the child. *)
Lemma AddHandlerGroup_scopes_witness :
  wf example_store /\
  HandlerGroup.groups example_store !! 0%nat = Some example_group /\
  HandlerGroup.mlist example_store 0
    = Some <$> [marker "m0"; marker "m1"; marker "m2"] /\
  exists st',
    HandlerGroup.AddHandlerGroup 0 "/v1"
      (add_then_route [marker "rateLimit"] httprouter.GET "/items" leaf_204)
      example_store = Some (tt, st') /\
    HandlerGroup.router st'
      = [(httprouter.GET, "/api/v1/items",
          HandlerGroup.handlerShim_closure
            (marker "m0" (marker "m1" (marker "m2"
               (marker "rateLimit" leaf_204)))))] /\
    HandlerGroup.mlist st' 0
      = Some <$> [marker "m0"; marker "m1"; marker "m2"].
Proof.
  split_and!; [exact example_store_wf | exact example_store_lookup |
               exact (proj2 example_store_group) |].
  destruct (AddHandlerGroup_scopes example_store 0 example_group _
              [marker "rateLimit"] "/v1" "/items" httprouter.GET leaf_204
              example_store_wf example_store_lookup
              (proj2 example_store_group))
    as (st' & Hcall & _ & Hr & Hml & _).
  exists st'. split_and!; try done.
Defined.

(** X5, witness. *)
Lemma Server_GetHandlerGroup_root_witness :
  wf (@HandlerGroup.NewServer http.Recorder (list RequestLoggerBase.call)) /\
  exists hg st1 st2,
    HandlerGroup.Server_GetHandlerGroup "/" HandlerGroup.NewServer
      = Some (hg, st1) /\
    HandlerGroup.GET hg "health" leaf_204 st1 = Some (tt, st2) /\
    HandlerGroup.router st2
      = [(httprouter.GET, "/health",
          HandlerGroup.handlerShim_closure leaf_204)].
Proof.
  split; [exact wf_NewServer |].
  destruct (Server_GetHandlerGroup_root
              (@HandlerGroup.NewServer http.Recorder
                 (list RequestLoggerBase.call)) "/" wf_NewServer)
    as (hg & st1 & Hcall & _ & _ & _ & _ & _ & _ & Hroute).
  destruct (Hroute httprouter.GET "health" leaf_204) as (st2 & Hr & Hrouter).
  by exists hg, st1, st2.
Defined.

(** X6, witness. *)
Lemma nested_groups_inherit_witness :
  wf example_store /\
  HandlerGroup.groups example_store !! 0%nat = Some example_group /\
  exists C st1 D st2,
    HandlerGroup.GetHandlerGroup 0 "/v1" example_store = Some (C, st1) /\
    HandlerGroup.GetHandlerGroup C "/admin" st1 = Some (D, st2) /\
    HandlerGroup.prefix_of st2 D = Some "/api/v1/admin" /\
    HandlerGroup.mlist st2 D
      = Some <$> [marker "m0"; marker "m1"; marker "m2"].
Proof.
  split_and!; [exact example_store_wf | exact example_store_lookup |].
  destruct (nested_groups_inherit example_store 0 example_group "/v1" "/admin"
              example_store_wf example_store_lookup)
    as (C & st1 & D & st2 & Hc1 & Hc2 & _ & Hpre & Hml & _).
  exists C, st1, D, st2. split_and!; try done;
    by rewrite Hml, (proj2 example_store_group).
Defined.

(** X7, witness. *)
Lemma logger_factory_is_read_per_request_witness :
  wf bare_store /\
  HandlerGroup.groups bare_store !! 0%nat = Some bare_group /\
  HandlerGroup.mlist bare_store 0 = Some <$> [marker "m0"] /\
  HandlerGroup.NewRequestLogger (HandlerGroup.server bare_store) = None /\
  exists st1 st2,
    HandlerGroup.GET 0 "/items" leaf_204 bare_store = Some (tt, st1) /\
    HandlerGroup.assign_NewRequestLogger (fun _ _ _ => []) st1
      = Some (tt, st2) /\
    HandlerGroup.handlerShim_closure (marker "m0" leaf_204)
      (HandlerGroup.server st1) "" blank_recorder example_request [] = None /\
    is_Some (HandlerGroup.handlerShim_closure (marker "m0" leaf_204)
      (HandlerGroup.server st2) "" blank_recorder example_request []).
Proof.
  assert (Hnil : HandlerGroup.NewRequestLogger (HandlerGroup.server bare_store)
                 = None) by (vm_compute; reflexivity).
  split_and!; [exact bare_store_wf | exact bare_store_lookup |
               exact bare_store_mlist | exact Hnil |].
  destruct (logger_factory_is_read_per_request bare_store httprouter.GET 0
              bare_group "/items" leaf_204 _ (fun _ _ _ => [])
              bare_store_wf bare_store_lookup bare_store_mlist Hnil)
    as (st1 & st2 & Hc1 & Hc2 & _ & Hpanic & Hserve).
  exists st1, st2.
  split_and!; [exact Hc1 | exact Hc2 | apply Hpanic |].
  change (marker "m0" leaf_204) with (chain [marker "m0"] leaf_204).
  rewrite (Hserve "" blank_recorder example_request []). by eexists.
Defined.

(** X8, witness. *)
Lemma unassigned_logger_panics_witness :
  let ops := bare_program ++ [ORoute httprouter.GET 0 "/items" leaf_204] in
  exists st,
    run ops HandlerGroup.NewServer = Some (tt, st) /\
    forallb (fun o => negb (assigns_logger o)) ops = true /\
    HandlerGroup.router st
      = [(httprouter.GET, "/api/items",
          HandlerGroup.handlerShim_closure (marker "m0" leaf_204))] /\
    HandlerGroup.handlerShim_closure (marker "m0" leaf_204)
      (HandlerGroup.server st) "" blank_recorder example_request [] = None.
Proof.
  intros ops.
  destruct (run ops HandlerGroup.NewServer) as [[[] st]|] eqn:Hrun;
    [| by vm_compute in Hrun].
  assert (Hno : forallb (fun o => negb (assigns_logger o)) ops = true)
    by reflexivity.
  assert (Hr : HandlerGroup.router st
      = [(httprouter.GET, "/api/items",
          HandlerGroup.handlerShim_closure (marker "m0" leaf_204))]).
  { vm_compute in Hrun. by injection Hrun as <-. }
  exists st. split_and!; [done | done | done |].
  destruct (unassigned_logger_panics ops st Hrun Hno) as [_ Hall].
  apply (Hall httprouter.GET "/api/items"). rewrite Hr. apply list_elem_of_here.
Defined.

(** X9, witness. *)
Lemma Status_under_lifecycle_witness :
  HandlerGroup.NewRequestLogger example_server = Some (fun _ _ _ => []) /\
  (fun c => (RequestLogger.b (Log c), ContextResponse.GetStatusCode c)) <$>
    HandlerGroup.handlerShim_closure (ContextResponse.Status 204)
      example_server "" blank_recorder example_request []
  = Some ([RequestLoggerBase.CWriteLogs], 204).
Proof.
  split; [reflexivity |].
  rewrite (proj1 (Status_under_lifecycle 204 example_server ""
    blank_recorder example_request [] _ eq_refl)).
  vm_compute. reflexivity.
Defined.

(** X10, witness. A writer whose first write fails. *)
Lemma Bytes_under_lifecycle_witness :
  HandlerGroup.NewRequestLogger example_server = Some (fun _ _ _ => []) /\
  (fun c => RequestLogger.b (Log c)) <$>
    HandlerGroup.handlerShim_closure (ContextResponse.Bytes 200 abcde)
      example_server ""
      {| http.HeaderMap := ∅; http.Sent := [];
         http.Script := [(0, Some (Go.errorString "broken pipe"))] |}
      example_request []
  = Some [RequestLoggerBase.CError
            "Error returned from request handler: failed to write body: broken pipe";
          RequestLoggerBase.CWriteLogs].
Proof.
  split; [reflexivity |].
  rewrite (proj1 (Bytes_under_lifecycle 200 abcde example_server ""
    {| http.HeaderMap := ∅; http.Sent := [];
       http.Script := [(0, Some (Go.errorString "broken pipe"))] |}
    example_request [] _ eq_refl)).
  vm_compute. reflexivity.
Defined.

(** X12, witness. *)
Lemma EscapeHatch_keeps_tracking_witness :
  HandlerGroup.NewRequestLogger example_server = Some (fun _ _ _ => []) /\
  (fun c => (RequestLogger.b (Log c), ContextResponse.GetStatusCode c,
             escapeHatchUsed c)) <$>
    HandlerGroup.handlerShim_closure (escape_and_write 200)
      example_server "" blank_recorder example_request []
  = Some ([RequestLoggerBase.CWriteLogs], 200, true).
Proof.
  split; [reflexivity |].
  rewrite (proj1 (proj2 (proj2 (proj2 (proj2
    (EscapeHatch_keeps_tracking 200 (example_ctx ∅ []) example_server ""
       blank_recorder example_request [] _ eq_refl)))))).
  vm_compute. reflexivity.
Defined.

(** X15, witness. A file that does not exist. *)
Lemma File_cases_witness :
  HandlerGroup.NewRequestLogger example_server = Some (fun _ _ _ => []) /\
  (fun c => (RequestLogger.b (Log c),
             http.Sent (loggingResponseWriter.rw (Response_rw c)))) <$>
    HandlerGroup.handlerShim_closure (File_handler 200 "missing.txt")
      example_server "" blank_recorder example_request []
  = Some ([RequestLoggerBase.CError
             ("Error returned from request handler: failed to open file: "
              +:+ "open missing.txt: no such file or directory");
           RequestLoggerBase.CWTF "Handler didn't write a response";
           RequestLoggerBase.CWTF RequestLogger.stackTracePrefix;
           RequestLoggerBase.CWriteLogs], []).
Proof.
  split; [reflexivity |].
  assert (Hopen : os.Open (F := MemStream) "missing.txt"
    = inl (Go.errorString "open missing.txt: no such file or directory"))
    by (vm_compute; reflexivity).
  destruct (proj1 (File_cases 200 "missing.txt" (example_ctx ∅ [])
    example_server "" blank_recorder example_request [] _ eq_refl)
    (Go.errorString "open missing.txt: no such file or directory") Hopen)
    as (_ & _ & Hshim & _).
  rewrite Hshim. vm_compute. reflexivity.
Defined.

(** X19, witness. *)
Lemma chain_enters_in_order_witness :
  is_Some (HandlerGroup.groups traced_store !! 0%nat) /\
  HandlerGroup.mlist traced_store 0 = Some <$> (tracing <$> ["outer"; "inner"]) /\
  exists fullHandler,
    HandlerGroup.middlewareHandler 0 leaf_204 traced_store
      = Some (fullHandler, traced_store) /\
    RequestLogger.b (Log (snd (fullHandler (example_ctx ∅ []))))
    = [RequestLoggerBase.CInfo "enter outer";
       RequestLoggerBase.CInfo "enter inner";
       RequestLoggerBase.CInfo "leaf";
       RequestLoggerBase.CInfo "exit inner";
       RequestLoggerBase.CInfo "exit outer"].
Proof.
  assert (Hg : is_Some (HandlerGroup.groups traced_store !! 0%nat))
    by (vm_compute; eauto).
  assert (Hms : HandlerGroup.mlist traced_store 0
                = Some <$> (tracing <$> ["outer"; "inner"]))
    by (vm_compute; reflexivity).
  split; [exact Hg | split; [exact Hms |]].
  destruct (chain_enters_in_order traced_store 0 ["outer"; "inner"] leaf_204
              Hg Hms) as (fullHandler & Hfull & Hrun).
  exists fullHandler. split; [exact Hfull |].
  rewrite Hrun. vm_compute. reflexivity.
Defined.

(** X20, witness. *)
Lemma StreamReadSeeker_abort_under_lifecycle_witness :
  HandlerGroup.NewRequestLogger example_server = Some (fun _ _ _ => []) /\
  (fun c => (RequestLogger.b (Log c),
             http.Sent (loggingResponseWriter.rw (Response_rw c)))) <$>
    HandlerGroup.handlerShim_closure
      (StreamReadSeeker_handler 200 unrestorable)
      example_server "" blank_recorder example_request []
  = Some ([RequestLoggerBase.CError
             "Unable to restore stream position after reading length: boom";
           RequestLoggerBase.CError
             ("Error returned from request handler: "
              +:+ "failed to safely determine stream length - aborting");
           RequestLoggerBase.CWTF "Handler didn't write a response";
           RequestLoggerBase.CWTF RequestLogger.stackTracePrefix;
           RequestLoggerBase.CWriteLogs], []).
Proof.
  split; [reflexivity |].
  assert (Hp1 : snd (fst (io.Seek 0 io.SeekCurrent unrestorable)) = None)
    by reflexivity.
  assert (Hp2 : snd (fst (io.Seek 0 io.SeekEnd
                  (snd (io.Seek 0 io.SeekCurrent unrestorable)))) = None)
    by reflexivity.
  assert (Hp3 : snd (fst (io.Seek
                  (fst (fst (io.Seek 0 io.SeekCurrent unrestorable)))
                  io.SeekStart
                  (snd (io.Seek 0 io.SeekEnd
                     (snd (io.Seek 0 io.SeekCurrent unrestorable))))))
                = Some (Go.errorString "boom"))
    by reflexivity.
  rewrite (proj1 (StreamReadSeeker_abort_under_lifecycle 200 unrestorable
    example_server "" blank_recorder example_request [] _
    (Go.errorString "boom") eq_refl Hp1 Hp2 Hp3)).
  vm_compute. reflexivity.
Defined.
